(** * claude-learning-assistant: conversation history, cost model and budget tracker

    A shallow embedding of the core of the repository:
    - [src/utils/cost-calculator.js] ([calculateCost]),
    - [config.js] ([Config.getModelPrices], [Config.DEFAULT_MODEL]),
    - [src/core/TokenTracker.js] (class [TokenTracker]),
    - [src/core/ConversationManager.js] (class [ConversationManager]),
    - [config.js] once more ([Config.validate], [Config.API_KEY]),
    - [src/core/ClaudeClient.js] (class [ClaudeClient]: the requests and
      their retries),
    - [src/features/BaseFeature.js] (class [BaseFeature]: the conversation
      methods of a feature).

    JavaScript numbers are IEEE 754 binary64 values; they are modelled by
    Rocq's primitive floats, whose operations are the same binary64
    operations (round to nearest, ties to even).  JavaScript values that
    reach a dynamic check ([typeof], a property read) are modelled by the
    type [Js.Value] of primitive values.  Exceptions are modelled by
    [Js.Completion].  Console logging ([Logger.info], [Logger.warning])
    has no effect on the state of the objects and is left out.  The
    Anthropic SDK, the clock and the file system are outside the
    repository: how a call of the SDK settles, the value of [Date.now()]
    and the text of a prompt file are arguments of the functions that
    depend on them, and what a request does (its calls of the SDK and
    its sleeps) is returned as a list of events. *)

From Stdlib Require Import ZArith String Ascii List Bool Lia.
From Stdlib Require Import Floats.
From stdpp Require Import base gmap strings list.
From Stdlib Require DecimalString.
From Equations Require Import Equations.

Set Warnings "-inexact-float".
Local Open Scope string_scope.

(** ** JavaScript values, errors and completions *)

Module Js.

(** The primitive values a caller can pass where the code expects a
    string or a number. *)
Inductive Value : Type :=
| Undefined
| Null
| Boolean (b : bool)
| Number (x : float)
| Str (s : string).

(** [TypeError] is raised by the runtime (a property read on [null] or
    [undefined]); [GenericError] is [new Error(message)]. *)
Inductive Error : Type :=
| TypeError (message : string)
| GenericError (message : string).

Inductive Completion (A : Type) : Type :=
| Normal (a : A)
| Throw (e : Error).
Arguments Normal {A} a.
Arguments Throw {A} e.

Definition bind {A B} (c : Completion A) (k : A -> Completion B) : Completion B :=
  match c with
  | Normal a => k a
  | Throw e => Throw e
  end.

Definition is_normal {A} (c : Completion A) : bool :=
  match c with Normal _ => true | Throw _ => false end.

(** [typeof v] *)
Definition typeof (v : Value) : string :=
  match v with
  | Undefined => "undefined"
  | Null => "object"
  | Boolean _ => "boolean"
  | Number _ => "number"
  | Str _ => "string"
  end.

(** [isNaN(x)] on a number: NaN is the only value different from itself. *)
Definition isNaN (x : float) : bool := negb (PrimFloat.eqb x x).

(** Strings are kept as the UTF-8 text of the source; [s.length] counts
    UTF-16 code units: one for each character of up to three bytes, two
    for each character of four bytes (a surrogate pair), none for a
    continuation byte. *)
Definition code_units (c : ascii) : nat :=
  let n := nat_of_ascii c in
  if (n <? 128)%nat then 1%nat
  else if (n <? 192)%nat then 0%nat
  else if (n <? 240)%nat then 1%nat
  else 2%nat.

Fixpoint string_length (s : string) : nat :=
  match s with
  | EmptyString => 0%nat
  | String c rest => (code_units c + string_length rest)%nat
  end.

(** Truthiness of a string: every string but the empty one. *)
Definition truthy (s : string) : bool :=
  match s with EmptyString => false | String _ _ => true end.

End Js.

Notation "'let*' x ':=' c 'in' k" := (Js.bind c (fun x => k))
  (at level 10, x name, c at level 100, k at level 200).

(** ** config.js *)

Module Config.

(** [{ input: number, output: number }], dollars per million tokens. *)
Record Price : Type := { input : float; output : float }.

Definition DEFAULT_MODEL_NAME : string := "claude-3-5-sonnet-20241022".

(** [static DEFAULT_MODEL = process.env.DEFAULT_MODEL || this.DEFAULT_MODEL_NAME];
    the argument is the environment variable, [None] when it is not set. *)
Definition DEFAULT_MODEL (env_DEFAULT_MODEL : option string) : string :=
  match env_DEFAULT_MODEL with
  | Some m => if Js.truthy m then m else DEFAULT_MODEL_NAME
  | None => DEFAULT_MODEL_NAME
  end.

Definition glmPrices : gmap string Price :=
  <["GLM-4.7" := {| input := 0.5; output := 0.5 |}]>
  (<["GLM-4" := {| input := 0.1; output := 0.1 |}]> ∅).

Definition claudePrices : gmap string Price :=
  <["claude-3-5-sonnet-20241022" := {| input := 3; output := 15 |}]>
  (<["claude-3-opus-20240229" := {| input := 15; output := 75 |}]>
  (<["claude-3-haiku-20240307" := {| input := 0.25; output := 1.25 |}]> ∅)).

(** Both tables are object literals, so they inherit from
    [Object.prototype]: the names of its properties. *)
Definition objectPrototypeKeys : list string :=
  [ "constructor"; "__defineGetter__"; "__defineSetter__"; "hasOwnProperty";
    "__lookupGetter__"; "__lookupSetter__"; "isPrototypeOf";
    "propertyIsEnumerable"; "toString"; "valueOf"; "__proto__";
    "toLocaleString" ].

(** The value of [table[key]]: an own entry, a member inherited from
    [Object.prototype] (a function, or the prototype object itself for
    [__proto__]), or [undefined]. *)
Inductive Property : Type :=
| Own (p : Price)
| Inherited (name : string)
| Missing.

Definition get (table : gmap string Price) (key : string) : Property :=
  match table !! key with
  | Some p => Own p
  | None => if bool_decide (key ∈ objectPrototypeKeys) then Inherited key else Missing
  end.

(** [a || b]: objects and functions are truthy, [undefined] is falsy. *)
Definition or_else (a b : Property) : Property :=
  match a with
  | Missing => b
  | _ => a
  end.

(** [static getModelPrices(model = this.DEFAULT_MODEL)] *)
Definition getModelPrices (env_DEFAULT_MODEL : option string) (model : option string) : Property :=
  let model := default (DEFAULT_MODEL env_DEFAULT_MODEL) model in
  if String.prefix "GLM" model then
    or_else (get glmPrices model) (get glmPrices "GLM-4.7")
  else
    or_else (get claudePrices model) (get claudePrices DEFAULT_MODEL_NAME).

(** [prices.input] and [prices.output] as operands of a product.  An own
    entry gives its number.  A member inherited from [Object.prototype]
    has no such property: the read gives [undefined], which the
    multiplication converts to NaN.  Reading a property of [undefined]
    raises a [TypeError]. *)
Definition operand (field : Price -> float) (prices : Property) : Js.Completion float :=
  match prices with
  | Own p => Js.Normal (field p)
  | Inherited _ => Js.Normal nan
  | Missing => Js.Throw (Js.TypeError "Cannot read properties of undefined")
  end.

End Config.

(** ** src/utils/cost-calculator.js *)

Module CostCalculator.

Record CostDetails : Type := {
  inputCost : float;
  outputCost : float;
  totalCost : float;
  inputTokens : float;
  outputTokens : float;
  totalTokens : float
}.

(** [typeof x !== 'number' || isNaN(x) || x < 0] *)
Definition invalid (v : Js.Value) : bool :=
  match v with
  | Js.Number x => Js.isNaN x || PrimFloat.ltb x 0
  | _ => true
  end.

(** The validated argument, as a number. *)
Definition validate (message : string) (v : Js.Value) : Js.Completion float :=
  match v with
  | Js.Number x => if invalid v then Js.Throw (Js.GenericError message) else Js.Normal x
  | _ => Js.Throw (Js.GenericError message)
  end.

(** [calculateCost(inputTokens, outputTokens, model)]; the first argument
    is the environment's [DEFAULT_MODEL], read by [Config]. *)
Definition calculateCost (env_DEFAULT_MODEL : option string)
    (inputTokens outputTokens : Js.Value) (model : option string)
    : Js.Completion CostDetails :=
  let* i := validate "inputTokens 必须是有效的非负数" inputTokens in
  let* o := validate "outputTokens 必须是有效的非负数" outputTokens in
  let prices := Config.getModelPrices env_DEFAULT_MODEL model in
  let* input := Config.operand Config.input prices in
  let inputCost := ((i / 1000000) * input)%float in
  let* output := Config.operand Config.output prices in
  let outputCost := ((o / 1000000) * output)%float in
  let totalCost := (inputCost + outputCost)%float in
  Js.Normal {|
    inputCost := inputCost;
    outputCost := outputCost;
    totalCost := totalCost;
    inputTokens := i;
    outputTokens := o;
    totalTokens := (i + o)%float
  |}.

End CostCalculator.

(** ** src/core/TokenTracker.js *)

Module TokenTracker.

Record Usage : Type := {
  inputTokens : float;
  outputTokens : float;
  totalTokens : float;
  cost : float
}.

(** The fields of a [TokenTracker] object. *)
Record Tracker : Type := {
  budget : float;
  usage : Usage
}.

Definition noUsage : Usage :=
  {| inputTokens := 0; outputTokens := 0; totalTokens := 0; cost := 0 |}.

(** [constructor(budget = Config.DAILY_BUDGET)] *)
Definition new (budget : float) : Tracker :=
  {| budget := budget; usage := noUsage |}.

(** [addUsage(inputTokens, outputTokens, model = Config.DEFAULT_MODEL)]:
    the completion of the call and the tracker after it.  The two token
    arguments are named [i] and [o] here, [inputTokens] and
    [outputTokens] being the fields of [usage]. *)
Definition addUsage (env_DEFAULT_MODEL : option string)
    (i o : Js.Value) (model : option string)
    (this : Tracker) : Js.Completion CostCalculator.CostDetails * Tracker :=
  let model := default (Config.DEFAULT_MODEL env_DEFAULT_MODEL) model in
  match CostCalculator.calculateCost env_DEFAULT_MODEL i o (Some model) with
  | Js.Throw e => (Js.Throw e, this)
  | Js.Normal costDetails =>
      let u := usage this in
      (Js.Normal costDetails,
       {| budget := budget this;
          usage := {|
            inputTokens := inputTokens u + CostCalculator.inputTokens costDetails;
            outputTokens := outputTokens u + CostCalculator.outputTokens costDetails;
            totalTokens := totalTokens u + CostCalculator.totalTokens costDetails;
            cost := cost u + CostCalculator.totalCost costDetails
          |} |})
  end.

Definition getCurrentCost (this : Tracker) : float := cost (usage this).

Record BudgetStatus : Type := {
  status_currentCost : float;
  status_usage : Usage;
  status_remaining : float;
  isNearLimit : bool;
  isExceeded : bool;
  shouldWarn : bool
}.

(** [x >= y] on numbers *)
Definition geb (x y : float) : bool := PrimFloat.leb y x.

Definition checkBudget (this : Tracker) : BudgetStatus :=
  let currentCost := getCurrentCost this in
  let remaining := (budget this - currentCost)%float in
  let usagePercentage := ((currentCost / budget this) * 100)%float in
  let isNearLimit := geb usagePercentage 80 in
  let isExceeded := geb usagePercentage 100 in
  let shouldWarn := geb usagePercentage 70 in
  {| status_currentCost := currentCost;
     status_usage := usage this;
     status_remaining := remaining;
     isNearLimit := isNearLimit;
     isExceeded := isExceeded;
     shouldWarn := shouldWarn |}.

Record Report : Type := {
  report_budget : float;
  report_currentCost : float;
  report_remaining : float;
  report_usage : Usage;
  percentage : float;
  status : string
}.

Definition getReport (this : Tracker) : Report :=
  let currentCost := getCurrentCost this in
  let remaining := (budget this - currentCost)%float in
  let percentage := ((currentCost / budget this) * 100)%float in
  let status :=
    if geb percentage 100 then "超出预算"
    else if geb percentage 80 then "接近限制"
    else if geb percentage 70 then "需要关注"
    else "正常" in
  {| report_budget := budget this;
     report_currentCost := currentCost;
     report_remaining := remaining;
     report_usage := usage this;
     percentage := percentage;
     status := status |}.

Definition reset (this : Tracker) : Tracker :=
  {| budget := budget this; usage := noUsage |}.

End TokenTracker.

(** ** src/core/ConversationManager.js *)

Module ConversationManager.

(** [MessageRole]: the three role strings. *)
Inductive MessageRole : Type := SYSTEM | USER | ASSISTANT.

Definition roleString (r : MessageRole) : string :=
  match r with
  | SYSTEM => "system"
  | USER => "user"
  | ASSISTANT => "assistant"
  end.

Definition DEFAULT_MAX_HISTORY_TOKENS : Z := 100000.

(** An element of [this.messages].  [content] is whatever value the
    caller passed: the mutators do not check it. *)
Record Message : Type := {
  role : MessageRole;
  content : Js.Value;
  timestamp : Z
}.

(** The fields of a [ConversationManager] object.  The system prompt is
    a string, as its JSDoc type says. *)
Record Manager : Type := {
  messages : list Message;
  systemPrompt : string;
  maxHistoryTokens : Z
}.

(** The [options] argument of the constructor; [None] is an absent field. *)
Record Options : Type := {
  options_systemPrompt : option string;
  options_maxHistoryTokens : option Z
}.

(** [constructor(options = {})]: [options.systemPrompt || ''] and
    [options.maxHistoryTokens || DEFAULT_MAX_HISTORY_TOKENS] ([0] is falsy). *)
Definition new (options : Options) : Manager :=
  {| messages := [];
     systemPrompt :=
       match options_systemPrompt options with
       | Some p => if Js.truthy p then p else ""
       | None => ""
       end;
     maxHistoryTokens :=
       match options_maxHistoryTokens options with
       | Some n => if (n =? 0)%Z then DEFAULT_MAX_HISTORY_TOKENS else n
       | None => DEFAULT_MAX_HISTORY_TOKENS
       end |}.

Definition setSystemPrompt (prompt : string) (this : Manager) : Manager :=
  {| messages := messages this;
     systemPrompt := prompt;
     maxHistoryTokens := maxHistoryTokens this |}.

(** *** Token estimate *)

(** The numbers the estimate takes: a count of tokens, or NaN.  A count
    is an integer far below 2^53 (a string has fewer than 2^32 code
    units), so the binary64 division, [Math.ceil] and the sums are exact
    and integer arithmetic gives the same values. *)
Inductive Estimate : Type :=
| NaN
| Tokens (n : Z).

(** [a + b] *)
Definition plus (a b : Estimate) : Estimate :=
  match a, b with
  | Tokens x, Tokens y => Tokens (x + y)
  | _, _ => NaN
  end.

(** [a > limit] and [a <= limit]: both false on NaN. *)
Definition gtb (a : Estimate) (limit : Z) : bool :=
  match a with
  | Tokens x => (limit <? x)%Z
  | NaN => false
  end.

Definition leb (a : Estimate) (limit : Z) : bool :=
  match a with
  | Tokens x => (x <=? limit)%Z
  | NaN => false
  end.

(** [_estimateTokens(text)]: [Math.ceil(text.length / 3)].  Reading
    [length] of [null] or [undefined] raises a [TypeError]; a boolean or
    a number has no [length], and [undefined / 3] is NaN. *)
Definition _estimateTokens (text : Js.Value) : Js.Completion Estimate :=
  match text with
  | Js.Str s => Js.Normal (Tokens ((Z.of_nat (Js.string_length s) + 2) / 3))
  | Js.Boolean _ | Js.Number _ => Js.Normal NaN
  | Js.Undefined =>
      Js.Throw (Js.TypeError "Cannot read properties of undefined (reading 'length')")
  | Js.Null =>
      Js.Throw (Js.TypeError "Cannot read properties of null (reading 'length')")
  end.

(** The loop [for (const msg of this.messages) total += ...]. *)
Fixpoint addEstimates (total : Estimate) (msgs : list Message) : Js.Completion Estimate :=
  match msgs with
  | [] => Js.Normal total
  | msg :: rest =>
      let* e := _estimateTokens (content msg) in
      addEstimates (plus total e) rest
  end.

Definition _calculateTotalTokens (this : Manager) : Js.Completion Estimate :=
  let total := Tokens 0 in
  let* total :=
    if Js.truthy (systemPrompt this) then
      let* e := _estimateTokens (Js.Str (systemPrompt this)) in
      Js.Normal (plus total e)
    else Js.Normal total in
  addEstimates total (messages this).

(** *** Trimming *)

(** [this.messages.splice(0, 2)] *)
Definition splice_0_2 (this : Manager) : Manager :=
  {| messages := drop 2 (messages this);
     systemPrompt := systemPrompt this;
     maxHistoryTokens := maxHistoryTokens this |}.

(** The condition of the [while] loop. *)
Definition loopCondition (this : Manager) : Js.Completion bool :=
  let* total := _calculateTotalTokens this in
  Js.Normal (gtb total (maxHistoryTokens this) && (2 <=? length (messages this))%nat).

(** A value together with the equation that names it, for the
    termination argument of the loop. *)
Definition inspect {A} (a : A) : {b : A | a = b} := exist _ a eq_refl.

(** The [while] loop of [_trimHistoryIfNeeded]: the completion of the
    loop and the manager it leaves. *)
Equations? trimLoop (this : Manager) : Js.Completion unit * Manager
  by wf (length (messages this)) lt :=
  trimLoop this with inspect (loopCondition this) := {
    | exist _ (Js.Normal true) Hcond => trimLoop (splice_0_2 this)
    | exist _ (Js.Normal false) _ => (Js.Normal tt, this)
    | exist _ (Js.Throw e) _ => (Js.Throw e, this) }.
Proof.
  unfold loopCondition in Hcond.
  destruct (_calculateTotalTokens this) as [total|e]; simpl in Hcond; [|discriminate].
  injection Hcond as Hcond. apply andb_true_iff in Hcond as [_ Hlen].
  simpl. destruct (messages this) as [|m1 [|m2 rest]]; simpl in *; try discriminate.
  rewrite length_drop. lia.
Qed.

(** [_trimHistoryIfNeeded()]: the completion of the call and the manager
    after it.  The closing log line evaluates [_calculateTotalTokens]
    once more. *)
Definition _trimHistoryIfNeeded (this : Manager) : Js.Completion unit * Manager :=
  match _calculateTotalTokens this with
  | Js.Throw e => (Js.Throw e, this)
  | Js.Normal totalTokens =>
      if leb totalTokens (maxHistoryTokens this) then (Js.Normal tt, this)
      else
        match trimLoop this with
        | (Js.Throw e, this') => (Js.Throw e, this')
        | (Js.Normal _, this') =>
            match _calculateTotalTokens this' with
            | Js.Throw e => (Js.Throw e, this')
            | Js.Normal _ => (Js.Normal tt, this')
            end
        end
  end.

(** [this.messages.push({ role, content, timestamp: Date.now() })];
    [now] is the value [Date.now()] returns. *)
Definition push (r : MessageRole) (content : Js.Value) (now : Z) (this : Manager) : Manager :=
  {| messages := (messages this ++ [ {| role := r; content := content; timestamp := now |} ])%list;
     systemPrompt := systemPrompt this;
     maxHistoryTokens := maxHistoryTokens this |}.

Definition addUserMessage (content : Js.Value) (now : Z) (this : Manager)
    : Js.Completion unit * Manager :=
  _trimHistoryIfNeeded (push USER content now this).

Definition addAssistantMessage (content : Js.Value) (now : Z) (this : Manager)
    : Js.Completion unit * Manager :=
  _trimHistoryIfNeeded (push ASSISTANT content now this).

(** *** Reading the history *)

(** An entry of the payload for the chat API: [{ role, content }]. *)
Record Formatted : Type := {
  formatted_role : MessageRole;
  formatted_content : Js.Value
}.

Definition getMessages (this : Manager) : list Formatted :=
  ((if Js.truthy (systemPrompt this)
    then [ {| formatted_role := SYSTEM; formatted_content := Js.Str (systemPrompt this) |} ]
    else [])
   ++ map (fun msg => {| formatted_role := role msg; formatted_content := content msg |})
          (messages this))%list.

(** [[...this.messages]]: a new array with the same elements. *)
Definition getFullHistory (this : Manager) : list Message := messages this.

Definition getSystemPrompt (this : Manager) : string := systemPrompt this.

Definition clear (this : Manager) : Manager :=
  {| messages := [];
     systemPrompt := systemPrompt this;
     maxHistoryTokens := maxHistoryTokens this |}.

(** [Math.floor(this.messages.length / 2)] *)
Definition getTurnCount (this : Manager) : nat := length (messages this) / 2.

Definition newline : string := String (ascii_of_nat 10) EmptyString.

Section Rendering.

(** [new Date(timestamp).toLocaleString('zh-CN')] and the decimal
    rendering of a number depend on the runtime; they are parameters
    of the export. *)
Variable toLocaleString : Z -> string.
Variable numberToString : float -> string.

(** An element of [lines] as [join] renders it: [null] and [undefined]
    as the empty string, the other values by [String(v)]. *)
Definition joined (v : Js.Value) : string :=
  match v with
  | Js.Str s => s
  | Js.Undefined | Js.Null => ""
  | Js.Boolean true => "true"
  | Js.Boolean false => "false"
  | Js.Number x => numberToString x
  end.

Definition exportLines (msg : Message) : list string :=
  let timestamp := toLocaleString (timestamp msg) in
  let roleLabel := match role msg with USER => "用户" | _ => "助手" end in
  [ "[" ++ timestamp ++ "] " ++ roleLabel ++ ":"; joined (content msg); "" ].

Definition exportToText (this : Manager) : string :=
  if (length (messages this) =? 0)%nat && negb (Js.truthy (systemPrompt this))
  then "(空对话)"
  else
    let lines :=
      ((if Js.truthy (systemPrompt this)
        then [ "=== 系统提示词 ==="; systemPrompt this; "" ]
        else [])
       ++ (if (0 <? length (messages this))%nat
           then "=== 对话历史 ===" :: flat_map exportLines (messages this)
           else []))%list in
    String.concat newline lines.

End Rendering.

End ConversationManager.

(** ** config.js: the static fields and [validate] *)

Module ConfigStatics.

(** The static fields of [Config] as they are after the module is
    loaded: the environment variables ([None] when not set), and the
    numbers [parseInt] and [parseFloat] returned for the two numeric
    settings (NaN when the variable does not start with a number). *)
Record Statics : Type := {
  ANTHROPIC_API_KEY : option string;
  ANTHROPIC_AUTH_TOKEN : option string;
  ANTHROPIC_BASE_URL : option string;
  env_DEFAULT_MODEL : option string;
  DEFAULT_MAX_TOKENS : float;
  DAILY_BUDGET : float
}.

(** A string or [undefined] in a condition. *)
Definition truthy (v : option string) : bool :=
  match v with
  | Some s => Js.truthy s
  | None => false
  end.

(** [a || b] on strings that may be [undefined] *)
Definition or (a b : option string) : option string :=
  if truthy a then a else b.

(** [static get API_KEY()]: [ANTHROPIC_AUTH_TOKEN || ANTHROPIC_API_KEY] *)
Definition API_KEY (this : Statics) : option string :=
  or (ANTHROPIC_AUTH_TOKEN this) (ANTHROPIC_API_KEY this).

(** [static get BASE_URL()] *)
Definition BASE_URL (this : Statics) : option string := ANTHROPIC_BASE_URL this.

(** [static DEFAULT_MODEL] *)
Definition DEFAULT_MODEL (this : Statics) : string :=
  Config.DEFAULT_MODEL (env_DEFAULT_MODEL this).

(** [static IS_ZHIPU = !!this.ANTHROPIC_AUTH_TOKEN] *)
Definition IS_ZHIPU (this : Statics) : bool := truthy (ANTHROPIC_AUTH_TOKEN this).

(** [static validate()] *)
Definition validate (this : Statics) : Js.Completion bool :=
  if negb (truthy (API_KEY this)) then
    Js.Throw (Js.GenericError
      "未找到API Key！请检查.env文件中的 ANTHROPIC_AUTH_TOKEN 或 ANTHROPIC_API_KEY")
  else if Js.isNaN (DAILY_BUDGET this) || PrimFloat.leb (DAILY_BUDGET this) 0 then
    Js.Throw (Js.GenericError "每日预算必须大于0")
  else Js.Normal true.

End ConfigStatics.

(** ** src/core/ClaudeClient.js *)

Module ClaudeClient.

(** What [_handleError] reads of the value the SDK call rejects with:
    [error.status], [error.code] and [error.message], each [None] when
    the property is [undefined]. *)
Record ApiFailure : Type := {
  status : option Z;
  code : option string;
  message : option string
}.

(** A [ClaudeAPIError]: its message, its code, and the two properties
    its [details] can hold. *)
Record ClaudeAPIError : Type := {
  error_message : string;
  error_code : string;
  originalError : option string;
  details_status : option Z
}.

(** The response of [client.messages.create], as the SDK types it: the
    texts of its content blocks (none for an empty [content]), the two
    usage counts, the model and the id. *)
Record ApiResponse : Type := {
  content : list string;
  input_tokens : float;
  output_tokens : float;
  response_model : string;
  response_id : string
}.

(** How one call of [client.messages.create] settles. *)
Inductive Outcome : Type :=
| Resolves (response : ApiResponse)
| Rejects (error : ApiFailure).

(** The normalized response [sendMessage] returns. *)
Record Usage : Type := {
  inputTokens : float;
  outputTokens : float;
  totalTokens : float
}.

Record Response : Type := {
  text : string;
  usage : Usage;
  model_used : string;
  id : string
}.

(** The configuration the constructor passes to the SDK. *)
Record ClientConfig : Type := {
  apiKey : option string;
  timeout : float;
  baseURL : option string
}.

(** The fields of a [ClaudeClient]: the configuration its SDK client was
    built with, and the three settings.  [maxRetries], the number of
    attempts, is an integer. *)
Record Client : Type := {
  clientConfig : ClientConfig;
  model : string;
  maxTokens : float;
  maxRetries : Z
}.

(** The [options] of the constructor; [None] is an absent field. *)
Record ClientOptions : Type := {
  client_apiKey : option string;
  client_model : option string;
  client_maxTokens : option float;
  client_timeout : option float;
  client_maxRetries : option Z
}.

(** [x || d] on a number that may be [undefined]: 0 and NaN are falsy. *)
Definition numberOr (x : option float) (d : float) : float :=
  match x with
  | Some v => if Js.isNaN v || PrimFloat.eqb v 0 then d else v
  | None => d
  end.

Definition integerOr (x : option Z) (d : Z) : Z :=
  match x with
  | Some n => if (n =? 0)%Z then d else n
  | None => d
  end.

Definition stringOr (x : option string) (d : string) : string :=
  match x with
  | Some s => if Js.truthy s then s else d
  | None => d
  end.

(** [constructor(options = {})], with the static fields of [Config].  The
    SDK's own constructor is taken to return. *)
Definition new (config : ConfigStatics.Statics) (options : ClientOptions) : Js.Completion Client :=
  let* _ := ConfigStatics.validate config in
  let clientConfig :=
    {| apiKey := ConfigStatics.or (client_apiKey options) (ConfigStatics.API_KEY config);
       timeout := numberOr (client_timeout options) 60000;
       baseURL := if ConfigStatics.truthy (ConfigStatics.BASE_URL config)
                  then ConfigStatics.BASE_URL config else None |} in
  Js.Normal {| clientConfig := clientConfig;
               model := stringOr (client_model options) (ConfigStatics.DEFAULT_MODEL config);
               maxTokens := numberOr (client_maxTokens options)
                                     (ConfigStatics.DEFAULT_MAX_TOKENS config);
               maxRetries := integerOr (client_maxRetries options) 3 |}.

(** The [options] of [sendMessage]; [None] is an absent field. *)
Record SendOptions : Type := {
  options_model : option string;
  options_maxTokens : option float;
  options_system : option string;
  options_temperature : option float
}.

(** The parameters passed to the SDK. *)
Record ApiParams : Type := {
  params_model : string;
  max_tokens : float;
  params_messages : list ConversationManager.Formatted;
  system : option string;
  temperature : option float
}.

(** What a request does, in order: it calls the SDK (with the parameters,
    at an attempt number) and it sleeps ([_sleep(ms)], with the number
    of milliseconds it is given). *)
Inductive Event : Type :=
| Create (params : ApiParams) (attempt : Z)
| Sleep (ms : float).

(** How [sendMessage] settles. *)
Inductive Settled : Type :=
| Fulfilled (response : Response)
| Rejected (error : ClaudeAPIError).

(** What [_handleError] does with an error: it waits and tries again, or
    it throws. *)
Inductive Handling : Type :=
| RetryAfter (waitTime : float)
| Raise (error : ClaudeAPIError).

(** [error.status === n] and [error.code === c] *)
Definition statusIs (error : ApiFailure) (n : Z) : bool :=
  match status error with
  | Some s => (s =? n)%Z
  | None => false
  end.

Definition codeIs (error : ApiFailure) (c : string) : bool :=
  match code error with
  | Some x => String.eqb x c
  | None => false
  end.

(** [Math.pow(2, n)] for an integer [n]: the power of two itself, as a
    binary64 number; [Infinity] from 1024 on, and 0 below -1074. *)
Definition pow2 (n : Z) : float := FloatOps.Z.ldexp 1 n.

(** [_handleError(error, params, attempt)].  The attempt number is an
    integer; the wait after a rate limit is the binary64 product
    [Math.pow(2, attempt) * 1000]. *)
Definition _handleError (this : Client) (error : ApiFailure) (attempt : Z) : Handling :=
  if statusIs error 429 then
    if (attempt <? maxRetries this)%Z then RetryAfter (pow2 attempt * 1000)
    else Raise {| error_message := "API请求过于频繁，请稍后再试";
                  error_code := "RATE_LIMIT";
                  originalError := message error;
                  details_status := None |}
  else if statusIs error 401 then
    Raise {| error_message := "API密钥无效，请检查配置";
             error_code := "INVALID_API_KEY";
             originalError := message error;
             details_status := None |}
  else if statusIs error 400 then
    Raise {| error_message := "请求参数错误";
             error_code := "INVALID_REQUEST";
             originalError := message error;
             details_status := None |}
  else if codeIs error "ECONNREFUSED" || codeIs error "ETIMEDOUT" || codeIs error "ENOTFOUND" then
    if (attempt <? maxRetries this)%Z then RetryAfter 2000
    else Raise {| error_message := "网络连接失败，请检查网络";
                  error_code := "NETWORK_ERROR";
                  originalError := message error;
                  details_status := None |}
  else
    Raise {| error_message := stringOr (message error) "未知API错误";
             error_code := "UNKNOWN_ERROR";
             originalError := message error;
             details_status := status error |}.

(** The [TypeError] of [response.content[0].text] on an empty [content]. *)
Definition noTextBlock : ApiFailure :=
  {| status := None;
     code := None;
     message := Some "Cannot read properties of undefined (reading 'text')" |}.

(** The [try] block of [_retryableRequest]: the SDK call and the
    normalized response, or the error the [catch] block receives. *)
Definition tryRequest (outcome : Outcome) : Response + ApiFailure :=
  match outcome with
  | Resolves response =>
      match content response with
      | first :: _ =>
          inl {| text := first;
                 usage := {| inputTokens := input_tokens response;
                             outputTokens := output_tokens response;
                             totalTokens := input_tokens response + output_tokens response |};
                 model_used := response_model response;
                 id := response_id response |}
      | [] => inr noTextBlock
      end
  | Rejects error => inr error
  end.

(** One attempt: the request settles, or a retry follows after a wait. *)
Definition attemptOnce (this : Client) (outcome : Outcome) (attempt : Z)
    : Settled + float :=
  match tryRequest outcome with
  | inl response => inl (Fulfilled response)
  | inr error =>
      match _handleError this error attempt with
      | RetryAfter waitTime => inr waitTime
      | Raise e => inl (Rejected e)
      end
  end.

(** The events of an attempt that is retried come before those of the
    retry. *)
Definition after (params : ApiParams) (attempt : Z) (waitTime : float)
    (rest : Settled * list Event) : Settled * list Event :=
  (fst rest, Create params attempt :: Sleep waitTime :: snd rest).

(** [_retryableRequest(params, attempt = 1)]; [create attempt] is how the
    SDK call of that attempt settles.  The result is how the request
    settles and what it did.  Attempt numbers are integers; up to 2^53
    the sum [attempt + 1] of the code is the integer sum. *)
Equations? _retryableRequest (this : Client) (create : Z -> Outcome) (params : ApiParams)
    (attempt : Z) : Settled * list Event
  by wf (Z.to_nat (maxRetries this - attempt)) lt :=
  _retryableRequest this create params attempt
    with ConversationManager.inspect (attemptOnce this (create attempt) attempt) := {
    | exist _ (inl settled) _ => (settled, [Create params attempt])
    | exist _ (inr waitTime) Hretry =>
        after params attempt waitTime (_retryableRequest this create params (attempt + 1)) }.
Proof.
  unfold attemptOnce in Hretry.
  destruct (tryRequest (create attempt)) as [response|error]; [discriminate|].
  unfold _handleError in Hretry.
  destruct (attempt <? maxRetries this)%Z eqn:Hless.
  - apply Z.ltb_lt in Hless. lia.
  - repeat match type of Hretry with
           | context [if ?c then _ else _] => destruct c
           end; discriminate.
Qed.

(** [sendMessage(messages, options = {})]; [create params attempt] is how
    the SDK call with those parameters settles at that attempt. *)
Definition sendMessage (this : Client) (messages : list ConversationManager.Formatted)
    (options : SendOptions) (create : ApiParams -> Z -> Outcome) : Settled * list Event :=
  let apiParams :=
    {| params_model := stringOr (options_model options) (model this);
       max_tokens := numberOr (options_maxTokens options) (maxTokens this);
       params_messages := messages;
       system := if ConfigStatics.truthy (options_system options)
                 then options_system options else None;
       temperature := options_temperature options |} in
  _retryableRequest this (create apiParams) apiParams 1.

End ClaudeClient.

(** ** src/features/BaseFeature.js *)

Module BaseFeature.

(** The fields of a feature that its methods read and write; [None] is
    [null]. *)
Record Feature : Type := {
  promptFile : option string;
  claudeClient : option ClaudeClient.Client;
  conversationManager : option ConversationManager.Manager;
  systemPrompt : option string;
  isInitialized : bool
}.

(** [constructor(config = {})] *)
Definition new (config_promptFile : option string) : Feature :=
  {| promptFile := ConfigStatics.or config_promptFile None;
     claudeClient := None;
     conversationManager := None;
     systemPrompt := None;
     isInitialized := false |}.

(** What a method of a feature throws: an error of the runtime or of the
    feature itself, or the error of the client. *)
Inductive Thrown : Type :=
| Failure (e : Js.Error)
| ApiFailed (e : ClaudeClient.ClaudeAPIError).

Inductive Result (A : Type) : Type :=
| Returns (a : A)
| Throws (e : Thrown).
Arguments Returns {A} a.
Arguments Throws {A} e.

Definition notInitialized : Thrown :=
  Failure (Js.GenericError "功能模块未初始化，请先调用 initialize()").

(** Calling a method of [null]. *)
Definition nullMethod (name : string) : Thrown :=
  Failure (Js.TypeError ("Cannot read properties of null (reading '" ++ name ++ "')")).

Definition withClient (client : ClaudeClient.Client) (this : Feature) : Feature :=
  {| promptFile := promptFile this;
     claudeClient := Some client;
     conversationManager := conversationManager this;
     systemPrompt := systemPrompt this;
     isInitialized := isInitialized this |}.

Definition withManager (m : ConversationManager.Manager) (this : Feature) : Feature :=
  {| promptFile := promptFile this;
     claudeClient := claudeClient this;
     conversationManager := Some m;
     systemPrompt := systemPrompt this;
     isInitialized := isInitialized this |}.

Definition withSystemPrompt (prompt : option string) (this : Feature) : Feature :=
  {| promptFile := promptFile this;
     claudeClient := claudeClient this;
     conversationManager := conversationManager this;
     systemPrompt := prompt;
     isInitialized := isInitialized this |}.

Definition withInitialized (b : bool) (this : Feature) : Feature :=
  {| promptFile := promptFile this;
     claudeClient := claudeClient this;
     conversationManager := conversationManager this;
     systemPrompt := systemPrompt this;
     isInitialized := b |}.

Section Initializing.

(** The static fields of [Config], the environment variable
    [CLAUDE_MODEL], and the contents of the prompt files: [readPrompt f]
    is the text of the file [f] of the directory [prompts], or [None]
    when it cannot be read.  The environment is the one [Config] was
    loaded with. *)
Variable config : ConfigStatics.Statics.
Variable CLAUDE_MODEL : option string.
Variable readPrompt : string -> option string.

(** [_loadSystemPrompt()]: a failure to read is logged, not thrown. *)
Definition _loadSystemPrompt (file : string) (this : Feature) : Feature :=
  withSystemPrompt (readPrompt file) this.

(** [initialize()] *)
Definition initialize (this : Feature) : Result unit * Feature :=
  if isInitialized this then (Returns tt, this)
  else
    match ClaudeClient.new config
            {| ClaudeClient.client_apiKey := ConfigStatics.ANTHROPIC_API_KEY config;
               ClaudeClient.client_model :=
                 Some (ClaudeClient.stringOr CLAUDE_MODEL "claude-3-5-sonnet-20241022");
               ClaudeClient.client_maxTokens := None;
               ClaudeClient.client_timeout := None;
               ClaudeClient.client_maxRetries := None |} with
    | Js.Throw e => (Throws (Failure e), this)
    | Js.Normal client =>
        let this := withClient client this in
        let manager :=
          ConversationManager.new
            {| ConversationManager.options_systemPrompt := Some "";
               ConversationManager.options_maxHistoryTokens := None |} in
        let this := withManager manager this in
        let this :=
          match promptFile this with
          | Some file =>
              if Js.truthy file then
                let this := _loadSystemPrompt file this in
                match systemPrompt this with
                | Some prompt =>
                    if Js.truthy prompt
                    then withManager (ConversationManager.setSystemPrompt prompt manager) this
                    else this
                | None => this
                end
              else this
          | None => this
          end in
        (Returns tt, withInitialized true this)
    end.

End Initializing.

(** The object [_sendMessage] returns. *)
Record Reply : Type := {
  reply_content : string;
  reply_usage : ClaudeClient.Usage
}.

(** [this.conversationManager.messages.map(msg => ({ role, content }))] *)
Definition payload (m : ConversationManager.Manager) : list ConversationManager.Formatted :=
  map (fun msg => {| ConversationManager.formatted_role := ConversationManager.role msg;
                     ConversationManager.formatted_content := ConversationManager.content msg |})
      (ConversationManager.messages m).

(** [{ ...options, system: systemPrompt || undefined }] *)
Definition apiOptions (options : ClaudeClient.SendOptions) (systemPrompt : string)
    : ClaudeClient.SendOptions :=
  {| ClaudeClient.options_model := ClaudeClient.options_model options;
     ClaudeClient.options_maxTokens := ClaudeClient.options_maxTokens options;
     ClaudeClient.options_system := if Js.truthy systemPrompt then Some systemPrompt else None;
     ClaudeClient.options_temperature := ClaudeClient.options_temperature options |}.

(** [_sendMessage(message, options = {})]: the result, the feature after
    the call and what the client did.  [now] and [later] are the values of
    [Date.now()] when the two messages are added; [create] is the SDK.
    The [catch] block logs the error and throws it again. *)
Definition _sendMessage (message : Js.Value) (options : ClaudeClient.SendOptions)
    (now later : Z) (create : ClaudeClient.ApiParams -> Z -> ClaudeClient.Outcome)
    (this : Feature) : Result Reply * Feature * list ClaudeClient.Event :=
  if negb (isInitialized this) then (Throws notInitialized, this, [])
  else
    match conversationManager this with
    | None => (Throws (nullMethod "addUserMessage"), this, [])
    | Some manager =>
        match ConversationManager.addUserMessage message now manager with
        | (Js.Throw e, manager) => (Throws (Failure e), withManager manager this, [])
        | (Js.Normal _, manager) =>
            let messages := payload manager in
            let systemPrompt := ConversationManager.getSystemPrompt manager in
            let apiOptions := apiOptions options systemPrompt in
            match claudeClient this with
            | None => (Throws (nullMethod "sendMessage"), withManager manager this, [])
            | Some client =>
                match ClaudeClient.sendMessage client messages apiOptions create with
                | (ClaudeClient.Rejected e, events) =>
                    (Throws (ApiFailed e), withManager manager this, events)
                | (ClaudeClient.Fulfilled response, events) =>
                    match ConversationManager.addAssistantMessage
                            (Js.Str (ClaudeClient.text response)) later manager with
                    | (Js.Throw e, manager) =>
                        (Throws (Failure e), withManager manager this, events)
                    | (Js.Normal _, manager) =>
                        (Returns {| reply_content := ClaudeClient.text response;
                                    reply_usage := ClaudeClient.usage response |},
                         withManager manager this, events)
                    end
                end
            end
        end
    end.

(** [clearConversation()] *)
Definition clearConversation (this : Feature) : Result unit * Feature :=
  if negb (isInitialized this) then (Throws notInitialized, this)
  else
    match conversationManager this with
    | None => (Throws (nullMethod "clear"), this)
    | Some manager => (Returns tt, withManager (ConversationManager.clear manager) this)
    end.

(** [destroy()]: [this.conversationManager?.clear()], then the feature is
    no longer initialized. *)
Definition destroy (this : Feature) : Feature :=
  withInitialized false
    match conversationManager this with
    | Some manager => withManager (ConversationManager.clear manager) this
    | None => this
    end.

(** The object [getSessionSummary] returns, without the class name;
    [None] is [null]. *)
Record Summary : Type := {
  messageCount : nat;
  turnCount : nat;
  startTime : option Z;
  lastActivity : option Z
}.

(** [getSessionSummary()] *)
Definition getSessionSummary (this : Feature) : Result Summary :=
  if negb (isInitialized this) then Throws notInitialized
  else
    match conversationManager this with
    | None => Throws (nullMethod "getFullHistory")
    | Some manager =>
        let history := ConversationManager.getFullHistory manager in
        Returns {| messageCount := length history;
                   turnCount := ConversationManager.getTurnCount manager;
                   startTime := option_map ConversationManager.timestamp (head history);
                   lastActivity := option_map ConversationManager.timestamp (last history) |}
    end.

(** [s.repeat(n)] *)
Definition repeat (s : string) (n : nat) : string := String.concat "" (List.repeat s n).

(** The decimal digits of an array length. *)
Definition lengthToString (n : nat) : string :=
  DecimalString.NilEmpty.string_of_uint (Nat.to_uint n).

Section Exporting.

(** The class name of the feature, [JSON.stringify(history, null, 2)],
    [new Date().toISOString()] at the time of the call, and the two
    renderings [exportToText] needs: values of the runtime. *)
Variable className : string.
Variable stringify : list ConversationManager.Message -> string.
Variable toISOString : string.
Variable toLocaleString : Z -> string.
Variable numberToString : float -> string.

(** [exportConversation(format = 'markdown')]; [None] is an omitted
    argument. *)
Definition exportConversation (format : option string) (this : Feature) : Result string :=
  let format := default "markdown" format in
  let nl := ConversationManager.newline in
  if negb (isInitialized this) then Throws notInitialized
  else
    if String.eqb format "json" then
      match conversationManager this with
      | None => Throws (nullMethod "getFullHistory")
      | Some manager => Returns (stringify (ConversationManager.getFullHistory manager))
      end
    else if String.eqb format "markdown" then
      match conversationManager this with
      | None => Throws (nullMethod "getFullHistory")
      | Some manager =>
          Returns ("# " ++ className ++ " 对话记录" ++ nl ++ nl
                   ++ "**导出时间**: " ++ toISOString ++ nl
                   ++ "**消息数量**: "
                   ++ lengthToString (length (ConversationManager.getFullHistory manager))
                   ++ nl ++ nl
                   ++ "---" ++ nl ++ nl
                   ++ ConversationManager.exportToText toLocaleString numberToString manager)
      end
    else if String.eqb format "text" then
      match conversationManager this with
      | None => Throws (nullMethod "exportToText")
      | Some manager =>
          Returns (className ++ " 对话记录" ++ nl
                   ++ repeat "=" 50 ++ nl ++ nl
                   ++ ConversationManager.exportToText toLocaleString numberToString manager)
      end
    else Throws (Failure (Js.GenericError ("不支持的导出格式: " ++ format))).

End Exporting.

End BaseFeature.

(** * Terms of the claims about the cost model *)

Module CostTerms.
Import Js Config CostCalculator.

(** The claim that an unknown model costs what the configured default
    model costs, at one environment, one pair of counts and one model. *)
Definition unknown_costs_as_default (env : option string) (i o : Value) (m : string) : Prop :=
  glmPrices !! m = None -> claudePrices !! m = None ->
  calculateCost env i o (Some m) = calculateCost env i o (Some (DEFAULT_MODEL env)).

End CostTerms.

(** * Terms of the claims about the budget tracker *)

Module BudgetTerms.
Import Js CostCalculator TokenTracker.

(** The usage percentage both [checkBudget] and [getReport] compute. *)
Definition usagePercentage (this : Tracker) : float :=
  ((getCurrentCost this / budget this) * 100)%float.

(** A tracker of budget 1 whose accumulated cost is [c]. *)
Definition spent (i o total c : float) : Tracker :=
  {| budget := 1;
     usage := {| inputTokens := i; outputTokens := o; totalTokens := total; cost := c |} |}.

(** The label of a percentage, with the strings of the claim. *)
Definition englishLabel (p : float) : string :=
  if geb p 100 then "exceeded"
  else if geb p 80 then "near-limit"
  else if geb p 70 then "attention"
  else "normal".

(** What the claim calls an invalid token count: a value that is not a
    number, NaN, or a negative number. *)
Definition invalidCount (v : Value) : Prop :=
  typeof v <> "number"
  \/ exists x, v = Number x /\ (PrimFloat.is_nan x = true \/ PrimFloat.ltb x 0 = true).

(** A sequence of [addUsage] calls, in order; an exception ends the
    sequence (it propagates to the caller).  The result lists the records
    the completed calls returned. *)
Fixpoint addUsages (env_DEFAULT_MODEL : option string)
    (calls : list (Js.Value * Js.Value * option string)) (this : Tracker)
    : list CostCalculator.CostDetails * Tracker :=
  match calls with
  | [] => ([], this)
  | (i, o, m) :: rest =>
      match addUsage env_DEFAULT_MODEL i o m this with
      | (Js.Normal d, this') =>
          let (ds, final) := addUsages env_DEFAULT_MODEL rest this' in
          (d :: ds, final)
      | (Js.Throw _, this') => ([], this')
      end
  end.

End BudgetTerms.

(** * Terms of the claims about the conversation history *)

Module HistoryTerms.
Import Js ConversationManager.

(** A sequence of calls that alternate [addUserMessage] and
    [addAssistantMessage], starting with [addUserMessage] when
    [userTurn] is true; each call comes with its content and the time of
    the call.  An exception ends the sequence (it propagates to the
    caller). *)
Fixpoint alternate (userTurn : bool) (calls : list (Js.Value * Z)) (this : Manager)
    : Js.Completion unit * Manager :=
  match calls with
  | [] => (Js.Normal tt, this)
  | (content, now) :: rest =>
      match (if userTurn then addUserMessage content now this
             else addAssistantMessage content now this) with
      | (Js.Normal _, this') => alternate (negb userTurn) rest this'
      | (Js.Throw e, this') => (Js.Throw e, this')
      end
  end.

(** The messages those calls append, in order. *)
Fixpoint appended (userTurn : bool) (calls : list (Js.Value * Z)) : list Message :=
  match calls with
  | [] => []
  | (content, now) :: rest =>
      {| role := if userTurn then USER else ASSISTANT; content := content; timestamp := now |}
      :: appended (negb userTurn) rest
  end.

(** The managers a caller can reach through the public interface. *)
Inductive reachable : Manager -> Prop :=
| reach_new options : reachable (new options)
| reach_setSystemPrompt prompt this :
    reachable this -> reachable (setSystemPrompt prompt this)
| reach_addUserMessage content now this :
    reachable this -> reachable (snd (addUserMessage content now this))
| reach_addAssistantMessage content now this :
    reachable this -> reachable (snd (addAssistantMessage content now this))
| reach_clear this :
    reachable this -> reachable (clear this).

(** The manager with its [n] oldest messages removed. *)
Definition dropOldest (n : nat) (this : Manager) : Manager :=
  {| messages := drop n (messages this);
     systemPrompt := systemPrompt this;
     maxHistoryTokens := maxHistoryTokens this |}.

(** The estimated token total of the system prompt and all stored
    messages exceeds [maxHistoryTokens]. *)
Definition overLimit (this : Manager) : bool :=
  match _calculateTotalTokens this with
  | Normal total => gtb total (maxHistoryTokens this)
  | Throw _ => false
  end.

(** [null] and [undefined], the values whose [length] cannot be read. *)
Definition nullish (v : Value) : bool :=
  match v with
  | Undefined | Null => true
  | _ => false
  end.

(** No stored content is [null] or [undefined]; every history of
    strings is such. *)
Definition estimable (msgs : list Message) : Prop :=
  Forall (fun msg => nullish (content msg) = false) msgs.

(** The trimming loop has run [k] times on [before] and stopped at
    [result]: each time the total exceeded the limit and at least two
    messages remained, and the two oldest were removed; at the end the
    total does not exceed the limit, or fewer than two messages remain. *)
Definition trimmed (k : nat) (before result : Manager) : Prop :=
  result = dropOldest (2 * k) before
  /\ 2 * k <= length (messages before)
  /\ (forall j, j < k ->
        overLimit (dropOldest (2 * j) before) = true
        /\ 2 <= length (messages (dropOldest (2 * j) before)))
  /\ (overLimit result = false \/ length (messages result) < 2).

(** The part of the total that comes from the system prompt. *)
Definition promptTokens (this : Manager) : Estimate :=
  if truthy (systemPrompt this)
  then plus (Tokens 0) (Tokens ((Z.of_nat (string_length (systemPrompt this)) + 2) / 3))
  else Tokens 0.

(** A history of two messages of two tokens each, with a prompt of one
    token and a limit of four tokens. *)
Definition twoMessages : Manager :=
  {| messages := [ {| role := USER; content := Str "abcd"; timestamp := 1 |};
                   {| role := ASSISTANT; content := Str "efgh"; timestamp := 2 |} ];
     systemPrompt := "be";
     maxHistoryTokens := 4 |}.

(** The claim that a mutator rejects a content that is not a string. *)
Definition rejected (content : Value) (now : Z) (this : Manager) : Prop :=
  typeof content <> "string" ->
  (exists e, fst (addUserMessage content now this) = Throw e)
  /\ (exists e, fst (addAssistantMessage content now this) = Throw e).

(** A stored content is [null] or [undefined]. *)
Definition nullishStored (msgs : list Message) : Prop :=
  Exists (fun msg => nullish (content msg) = true) msgs.

(** The history [addUserMessage(null)] leaves behind. *)
Definition nullStored : Manager := snd (addUserMessage Null 3 twoMessages).

(** No stored message has the system role. *)
Definition noSystemMessage (msgs : list Message) : Prop :=
  Forall (fun msg => role msg <> SYSTEM) msgs.

(** A manager reached by the public interface: constructed with a
    prompt, two messages added, then the prompt set to the empty string. *)
Definition promptRemoved : Manager :=
  setSystemPrompt ""
    (snd (addAssistantMessage (Str "hello")
            2
            (snd (addUserMessage (Str "hi")
                    1
                    (new {| options_systemPrompt := Some "be brief";
                            options_maxHistoryTokens := None |}))))).

(** Calls whose contents are strings. *)
Definition stringCalls (calls : list (string * Z)) : list (Value * Z) :=
  map (fun call => (Str (fst call), snd call)) calls.

(** The manager that holds every message the calls append, none removed. *)
Definition untrimmed (userTurn : bool) (calls : list (Value * Z)) (this : Manager) : Manager :=
  {| messages := messages this ++ appended userTurn calls;
     systemPrompt := systemPrompt this;
     maxHistoryTokens := maxHistoryTokens this |}.

(** The claim about alternating calls that drive the estimate over the
    limit, at one sequence of calls on one empty history: the newest
    message is still stored, fewer messages are stored than calls were
    made, and their number is even. *)
Definition newestKeptEvenCount (calls : list (string * Z)) (this : Manager) : Prop :=
  messages this = [] ->
  overLimit (untrimmed true (stringCalls calls) this) = true ->
  let final := snd (alternate true (stringCalls calls) this) in
  (exists newest,
      last (appended true (stringCalls calls)) = Some newest /\ newest ∈ messages final)
  /\ length (messages final) < length calls
  /\ Nat.even (length (messages final)) = true.

(** An empty history with a limit of one token. *)
Definition oneTokenLimit : Manager :=
  new {| options_systemPrompt := None; options_maxHistoryTokens := Some 1%Z |}.

End HistoryTerms.

(** * Terms of the further properties of the conversation history *)

Module ConversationTerms.
Import Js ConversationManager HistoryTerms.

(** One call of a mutator: [addUserMessage] when [byUser] is true,
    [addAssistantMessage] otherwise, with the content passed and the
    time of the call. *)
Record Call : Type := {
  byUser : bool;
  said : Value;
  calledAt : Z
}.

Definition add (call : Call) (this : Manager) : Completion unit * Manager :=
  if byUser call then addUserMessage (said call) (calledAt call) this
  else addAssistantMessage (said call) (calledAt call) this.

(** A sequence of such calls, in any order of the two mutators; an
    exception ends the sequence. *)
Fixpoint adds (calls : list Call) (this : Manager) : Completion unit * Manager :=
  match calls with
  | [] => (Normal tt, this)
  | call :: rest =>
      match add call this with
      | (Normal _, this') => adds rest this'
      | (Throw e, this') => (Throw e, this')
      end
  end.

(** The message a call appends. *)
Definition messageOf (call : Call) : Message :=
  {| role := if byUser call then USER else ASSISTANT;
     content := said call;
     timestamp := calledAt call |}.

(** The manager that holds every message the calls append, none removed. *)
Definition extended (calls : list Call) (this : Manager) : Manager :=
  {| messages := messages this ++ map messageOf calls;
     systemPrompt := systemPrompt this;
     maxHistoryTokens := maxHistoryTokens this |}.

(** Every stored content is a string. *)
Definition textOnly (msgs : list Message) : Prop :=
  Forall (fun msg => typeof (content msg) = "string") msgs.

(** The estimate of a string as an integer, and the sums of the
    estimates of a history of strings and of the system prompt. *)
Definition textTokens (v : Value) : Z :=
  match v with
  | Str s => (Z.of_nat (string_length s) + 2) / 3
  | _ => 0
  end.

Fixpoint historyTokens (msgs : list Message) : Z :=
  match msgs with
  | [] => 0
  | msg :: rest => textTokens (content msg) + historyTokens rest
  end.

Definition promptSize (this : Manager) : Z :=
  if truthy (systemPrompt this) then textTokens (Str (systemPrompt this)) else 0.

(** The entry [getMessages] makes of the system prompt. *)
Definition systemEntry (this : Manager) : Formatted :=
  {| formatted_role := SYSTEM; formatted_content := Str (systemPrompt this) |}.

(** A manager whose system prompt alone (three tokens) exceeds its limit
    of two tokens, with one stored message. *)
Definition longPrompt : Manager :=
  {| messages := [ {| role := USER; content := Str "hi"; timestamp := 1 |} ];
     systemPrompt := "be brief";
     maxHistoryTokens := 2 |}.

(** The same history and prompt with room for eight tokens. *)
Definition roomy : Manager :=
  {| messages := messages longPrompt;
     systemPrompt := systemPrompt longPrompt;
     maxHistoryTokens := 8 |}.

(** Three calls, two of them by the user in a row. *)
Definition threeCalls : list Call :=
  [ {| byUser := true; said := Str "abcd"; calledAt := 1 |};
    {| byUser := true; said := Str "efgh"; calledAt := 2 |};
    {| byUser := false; said := Number 7; calledAt := 3 |} ].

End ConversationTerms.

(** * Terms of the properties of the API client *)

Module RequestTerms.
Import ClaudeClient.

(** The parameters [sendMessage] builds. *)
Definition requestParams (this : Client) (messages : list ConversationManager.Formatted)
    (options : SendOptions) : ApiParams :=
  {| params_model := stringOr (options_model options) (model this);
     max_tokens := numberOr (options_maxTokens options) (maxTokens this);
     params_messages := messages;
     system := if ConfigStatics.truthy (options_system options)
               then options_system options else None;
     temperature := options_temperature options |}.

(** The events of a request that calls the SDK at [attempt] and at the
    attempts after it, with the given waits between two calls. *)
Fixpoint trace (params : ApiParams) (attempt : Z) (waits : list float) : list Event :=
  match waits with
  | [] => [Create params attempt]
  | waitTime :: rest =>
      Create params attempt :: Sleep waitTime :: trace params (attempt + 1) rest
  end.

(** The codes of the errors a request is rejected with. *)
Definition errorCodes : list string :=
  [ "RATE_LIMIT"; "INVALID_API_KEY"; "INVALID_REQUEST"; "NETWORK_ERROR"; "UNKNOWN_ERROR" ].

(** The three network error codes. *)
Definition isNetworkError (error : ApiFailure) : bool :=
  codeIs error "ECONNREFUSED" || codeIs error "ETIMEDOUT" || codeIs error "ENOTFOUND".

(** The errors [_handleError] retries while attempts are left: a rate
    limit, and a network error whose status is neither 401 nor 400. *)
Definition retryable (error : ApiFailure) : bool :=
  statusIs error 429
  || (negb (statusIs error 401) && negb (statusIs error 400) && isNetworkError error).

(** The waits of [n] rate limits in a row, the first at [attempt]. *)
Fixpoint backoff (attempt : Z) (n : nat) : list float :=
  match n with
  | O => []
  | S n => (pow2 attempt * 1000)%float :: backoff (attempt + 1) n
  end.

(** The integer a binary64 number denotes, when it denotes one. *)
Definition integerOf (x : float) : option Z :=
  match Prim2SF x with
  | S754_zero _ => Some 0%Z
  | S754_finite s m e =>
      let magnitude :=
        if (0 <=? e)%Z then Some (Z.pos m * 2 ^ e)%Z
        else if (Z.pos m mod 2 ^ (- e) =? 0)%Z then Some (Z.pos m / 2 ^ (- e))%Z
        else None in
      option_map (fun v => if s then (- v)%Z else v) magnitude
  | _ => None
  end.

(** The same waits as integers of milliseconds: 1000 times the powers of
    two from [2^attempt] on. *)
Fixpoint milliseconds (attempt : Z) (n : nat) : list Z :=
  match n with
  | O => []
  | S n => (2 ^ attempt * 1000)%Z :: milliseconds (attempt + 1) n
  end.

(** The time a request sleeps. *)
Definition slept (waits : list Z) : Z := fold_right Z.add 0%Z waits.

(** The attempt numbers up to which the code counts in integers. *)
Definition maxAttempts : Z := 2 ^ 53.

(** The wait after a rate limit at [attempt] is the integer
    [2^attempt * 1000]; it is [Infinity]. *)
Definition isExactWait (attempt : Z) : bool :=
  match integerOf (pow2 attempt * 1000) with
  | Some v => (v =? 2 ^ attempt * 1000)%Z
  | None => false
  end.

Definition isInfiniteWait (attempt : Z) : bool :=
  match Prim2SF (pow2 attempt * 1000) with
  | S754_infinity false => true
  | _ => false
  end.

(** An SDK that is rate limited at every attempt. *)
Definition alwaysRateLimited (create : ApiParams -> Z -> Outcome) : Prop :=
  forall params attempt, exists error,
    create params attempt = Rejects error /\ statusIs error 429 = true.

(** A rate limit error, and the SDK that answers every call with it. *)
Definition tooManyRequests : ApiFailure :=
  {| status := Some 429%Z; code := None; message := Some "Too Many Requests" |}.

Definition busy (params : ApiParams) (attempt : Z) : Outcome := Rejects tooManyRequests.

(** A client with the default number of retries. *)
Definition defaultClient : Client :=
  {| clientConfig := {| apiKey := Some "key"; timeout := 60000; baseURL := None |};
     model := "claude-3-5-sonnet-20241022";
     maxTokens := 1024;
     maxRetries := 3 |}.

(** A configuration that [validate] accepts. *)
Definition validConfig : ConfigStatics.Statics :=
  {| ConfigStatics.ANTHROPIC_API_KEY := Some "key";
     ConfigStatics.ANTHROPIC_AUTH_TOKEN := None;
     ConfigStatics.ANTHROPIC_BASE_URL := None;
     ConfigStatics.env_DEFAULT_MODEL := None;
     ConfigStatics.DEFAULT_MAX_TOKENS := 1024;
     ConfigStatics.DAILY_BUDGET := 0.5 |}.

End RequestTerms.

(** * Terms of the properties of the feature modules *)

Module FeatureTerms.
Import ClaudeClient BaseFeature RequestTerms.

(** Options without any field. *)
Definition noOptions : SendOptions :=
  {| options_model := None; options_maxTokens := None;
     options_system := None; options_temperature := None |}.

(** An initialized feature with the default client and the given
    conversation manager. *)
Definition ready (manager : ConversationManager.Manager) : Feature :=
  {| promptFile := None;
     claudeClient := Some defaultClient;
     conversationManager := Some manager;
     systemPrompt := None;
     isInitialized := true |}.

(** The message [_sendMessage] stores for the user, and the one it
    stores for the reply. *)
Definition userMessage (message : Js.Value) (now : Z) : ConversationManager.Message :=
  {| ConversationManager.role := ConversationManager.USER;
     ConversationManager.content := message;
     ConversationManager.timestamp := now |}.

Definition replyMessage (reply : string) (later : Z) : ConversationManager.Message :=
  {| ConversationManager.role := ConversationManager.ASSISTANT;
     ConversationManager.content := Js.Str reply;
     ConversationManager.timestamp := later |}.

(** The parameters of the calls a trace makes. *)
Definition created (events : list Event) : list ApiParams :=
  flat_map (fun event => match event with
                         | Create params _ => [params]
                         | Sleep _ => []
                         end) events.

(** An SDK that rejects every call for an invalid key, and one that
    answers every call with one text block. *)
Definition unauthorized : ApiFailure :=
  {| status := Some 401%Z; code := None; message := Some "invalid x-api-key" |}.

Definition denying (params : ApiParams) (attempt : Z) : Outcome := Rejects unauthorized.

Definition answering (reply : string) (params : ApiParams) (attempt : Z) : Outcome :=
  Resolves {| content := [reply]; input_tokens := 12; output_tokens := 5;
              response_model := params_model params; response_id := "msg_1" |}.

(** The formats [exportConversation] knows. *)
Definition exportFormats : list string := [ "json"; "markdown"; "text" ].

(** A text that ends with another. *)
Definition endsWith (ending text : string) : Prop :=
  exists beginning, text = beginning ++ ending.

(** The prompt [initialize] gives the conversation manager: the text of
    the prompt file when the feature names one and it can be read,
    otherwise the empty string. *)
Definition loadedPrompt (readPrompt : string -> option string) (this : Feature) : string :=
  match promptFile this with
  | Some file => if Js.truthy file then default "" (readPrompt file) else ""
  | None => ""
  end.

(** A feature as the constructor of a subclass builds it, and the prompt
    files of an installation that has this one only. *)
Definition explainer : Feature := BaseFeature.new (Some "code-explainer.txt").

Definition prompts (file : string) : option string :=
  if String.eqb file "code-explainer.txt" then Some "Explain the code." else None.

End FeatureTerms.

(** * Properties of the cost model *)

Module CostFacts.
Import Js Config CostCalculator CostTerms.

Lemma get_unknown (table : gmap string Price) (m : string) :
  table !! m = None -> m ∉ objectPrototypeKeys -> get table m = Missing.
Proof.
  intros Hm Hproto. unfold get. rewrite Hm.
  by rewrite bool_decide_eq_false_2.
Qed.

(** An unknown model gets the prices of its family's fallback entry. *)
Lemma getModelPrices_unknown (env : option string) (m : string) :
  glmPrices !! m = None -> claudePrices !! m = None -> m ∉ objectPrototypeKeys ->
  getModelPrices env (Some m)
  = getModelPrices env (Some (if String.prefix "GLM" m then "GLM-4.7" else DEFAULT_MODEL_NAME)).
Proof.
  intros Hglm Hclaude Hproto. unfold getModelPrices. simpl.
  destruct (String.prefix "GLM" m) eqn:Hprefix.
  - rewrite (get_unknown _ _ Hglm Hproto). reflexivity.
  - rewrite (get_unknown _ _ Hclaude Hproto). reflexivity.
Qed.

(** The prices [getModelPrices] returns are never [undefined]. *)
Lemma getModelPrices_defined (env : option string) (model : option string) :
  getModelPrices env model <> Missing.
Proof.
  unfold getModelPrices.
  destruct (String.prefix "GLM" _).
  - destruct (get glmPrices _); simpl; try discriminate; by vm_compute.
  - destruct (get claudePrices _); simpl; try discriminate; by vm_compute.
Qed.

Lemma validate_valid (message : string) (v : Value) :
  invalid v = false -> exists x, v = Number x /\ validate message v = Normal x.
Proof.
  destruct v as [| |b|x|s]; simpl; try discriminate.
  intros ->. eauto.
Qed.

Lemma validate_invalid (message : string) (v : Value) :
  invalid v = true -> validate message v = Throw (GenericError message).
Proof.
  destruct v as [| |b|x|s]; simpl; try reflexivity.
  intros ->. reflexivity.
Qed.

(** With valid counts [calculateCost] returns, whatever the model. *)
Lemma calculateCost_returns (env : option string) (i o : Value) (model : option string) :
  invalid i = false -> invalid o = false ->
  is_normal (calculateCost env i o model) = true.
Proof.
  intros Hi Ho. unfold calculateCost.
  destruct (validate_valid "inputTokens 必须是有效的非负数" i Hi) as (x & -> & ->).
  destruct (validate_valid "outputTokens 必须是有效的非负数" o Ho) as (y & -> & ->).
  simpl. pose proof (getModelPrices_defined env model) as Hdef.
  destruct (getModelPrices env model); simpl; congruence.
Qed.

(** C3, as the code has it: a model that is in neither price table (and
    is not the name of a member the tables inherit from
    [Object.prototype]) costs what the fallback entry of its family
    costs: ["GLM-4.7"] when its name starts with ["GLM"], otherwise
    [DEFAULT_MODEL_NAME] (["claude-3-5-sonnet-20241022"]).  No error is
    raised for it: with valid token counts the call returns. *)
Theorem calculateCost_unknown_model (env : option string) (i o : Value) (m : string) :
  glmPrices !! m = None -> claudePrices !! m = None -> m ∉ objectPrototypeKeys ->
  calculateCost env i o (Some m)
  = calculateCost env i o (Some (if String.prefix "GLM" m then "GLM-4.7" else DEFAULT_MODEL_NAME))
  /\ (invalid i = false -> invalid o = false ->
      is_normal (calculateCost env i o (Some m)) = true).
Proof.
  intros Hglm Hclaude Hproto. split.
  - unfold calculateCost. by rewrite getModelPrices_unknown.
  - apply calculateCost_returns.
Qed.

Lemma calculateCost_unknown_model_witness :
  calculateCost None (Number 1000000) (Number 0) (Some "GLM-5")
  = calculateCost None (Number 1000000) (Number 0) (Some "GLM-4.7")
  /\ calculateCost None (Number 1000000) (Number 0) (Some "gpt-4")
     = calculateCost None (Number 1000000) (Number 0) (Some "claude-3-5-sonnet-20241022").
Proof.
  split.
  - apply (calculateCost_unknown_model None (Number 1000000) (Number 0) "GLM-5");
      [by vm_compute | by vm_compute | compute_done].
  - apply (calculateCost_unknown_model None (Number 1000000) (Number 0) "gpt-4");
      [by vm_compute | by vm_compute | compute_done].
Defined.

(** C3, as the claim states it, fails: ["GLM-5"] is in no price table,
    the default model is ["claude-3-5-sonnet-20241022"], and a million
    input tokens cost 0.5 for the one and 3 for the other. *)
Lemma unknown_GLM_model_not_default :
  ~ unknown_costs_as_default None (Number 1000000) (Number 0) "GLM-5".
Proof.
  intros H. unfold unknown_costs_as_default in H.
  assert (Hc : calculateCost None (Number 1000000) (Number 0) (Some "GLM-5")
               = calculateCost None (Number 1000000) (Number 0) (Some (DEFAULT_MODEL None)))
    by (apply H; by vm_compute).
  apply (f_equal (fun c => match c with
                           | Normal d => PrimFloat.eqb (totalCost d) 3
                           | Throw _ => false
                           end)) in Hc.
  vm_compute in Hc. discriminate.
Qed.

(** ** Models that resolve to a table entry *)

(** The entries of the two price tables. *)
Lemma getModelPrices_entry (env : option string) (model : option string) (p : Price) :
  getModelPrices env model = Own p ->
  p ∈ [ {| input := 0.5; output := 0.5 |}; {| input := 0.1; output := 0.1 |};
        {| input := 3; output := 15 |}; {| input := 15; output := 75 |};
        {| input := 0.25; output := 1.25 |} ].
Proof.
  assert (Hget : forall table key, get table key = Own p -> table !! key = Some p).
  { intros table key. unfold get. destruct (table !! key); [congruence|].
    by destruct (bool_decide _). }
  assert (Hor : forall a b, or_else a b = Own p -> a = Own p \/ b = Own p).
  { intros [q|name|] b; simpl; auto; discriminate. }
  unfold getModelPrices.
  destruct (String.prefix "GLM" _); intros Hprices;
    apply Hor in Hprices as [Hprices | Hprices]; apply Hget in Hprices;
    unfold glmPrices, claudePrices in Hprices;
    repeat (rewrite lookup_insert_Some in Hprices;
            destruct Hprices as [[Hkey Hentry] | [Hkey Hprices]];
            [subst p; clear; set_solver | clear Hkey]);
    by rewrite lookup_empty in Hprices.
Qed.

(** With valid counts and a model that resolves to a table entry, the
    record [calculateCost] returns: [totalTokens = i + o],
    [inputCost = i / 1000000 * inputPrice], [outputCost] alike, and
    [totalCost = inputCost + outputCost]. *)
Lemma calculateCost_record (env : option string) (i o : float) (model : option string)
    (p : Price) :
  getModelPrices env model = Own p ->
  invalid (Number i) = false -> invalid (Number o) = false ->
  calculateCost env (Number i) (Number o) model
  = Normal {| inputCost := i / 1000000 * input p;
              outputCost := o / 1000000 * output p;
              totalCost := (i / 1000000 * input p) + (o / 1000000 * output p);
              inputTokens := i;
              outputTokens := o;
              totalTokens := i + o |}.
Proof.
  intros Hprices Hi Ho. unfold calculateCost, validate.
  rewrite Hi, Ho. simpl. rewrite Hprices. reflexivity.
Qed.

(** Zero tokens cost zero with every table entry. *)
Lemma calculateCost_zero_tokens (env : option string) (model : option string) (p : Price) :
  getModelPrices env model = Own p ->
  exists d, calculateCost env (Number 0) (Number 0) model = Normal d
            /\ totalCost d = 0%float /\ totalTokens d = 0%float.
Proof.
  intros Hprices. eexists. split; [by apply calculateCost_record|].
  apply getModelPrices_entry in Hprices. simpl.
  repeat (apply elem_of_cons in Hprices as [-> | Hprices]; [by vm_compute|]).
  by apply elem_of_nil in Hprices.
Qed.

End CostFacts.

(** * The inherited member [constructor] as a model name *)

Module PrototypeFacts.
Import Js Config CostCalculator.

(** ["constructor"] is in no price table, yet [claudePrices["constructor"]]
    is not [undefined]: it is the function the table inherits from
    [Object.prototype], so the fallback after [||] is not taken. *)
Lemma getModelPrices_constructor (env : option string) :
  claudePrices !! "constructor" = None
  /\ getModelPrices env (Some "constructor") = Inherited "constructor".
Proof. split; by vm_compute. Qed.

(** C4 at the model name ["constructor"]: zero tokens are accepted, and
    every cost of the record returned is NaN, where the claim says the
    total cost is 0. *)
Theorem calculateCost_constructor_NaN (env : option string) :
  calculateCost env (Number 0) (Number 0) (Some "constructor")
  = Normal {| inputCost := nan; outputCost := nan; totalCost := nan;
              inputTokens := 0; outputTokens := 0; totalTokens := 0 |}
  /\ PrimFloat.eqb nan 0 = false.
Proof. split; by vm_compute. Qed.

(** C5 at the model name ["constructor"]: both calls return a record,
    the second one with a NaN total cost; the accumulated cost goes
    from 0.0105 to NaN, which is not greater than or equal to 0.0105,
    and stays NaN whatever is added later; [checkBudget] then raises no
    flag. *)
Theorem addUsage_constructor_poisons_cost :
  let first := TokenTracker.addUsage None (Number 1000) (Number 500) None (TokenTracker.new 1) in
  let second := TokenTracker.addUsage None (Number 1000) (Number 500) (Some "constructor") (snd first) in
  is_normal (fst first) = true
  /\ is_normal (fst second) = true
  /\ TokenTracker.getCurrentCost (snd first) = 0.010499999999999999%float
  /\ TokenTracker.getCurrentCost (snd second) = nan
  /\ PrimFloat.leb (TokenTracker.getCurrentCost (snd first))
                   (TokenTracker.getCurrentCost (snd second)) = false
  /\ (forall x : float, (TokenTracker.getCurrentCost (snd second) + x)%float = nan)
  /\ TokenTracker.shouldWarn (TokenTracker.checkBudget (snd second)) = false
  /\ TokenTracker.isExceeded (TokenTracker.checkBudget (snd second)) = false.
Proof.
  repeat split; try by vm_compute.
  intros x. change (TokenTracker.getCurrentCost _) with nan.
  apply Prim2SF_inj. rewrite add_spec. reflexivity.
Qed.

End PrototypeFacts.

(** * Properties of the budget tracker *)

Module BudgetFacts.
Import Js CostCalculator TokenTracker BudgetTerms.

(** C2: [checkBudget] evaluates three independent comparisons of the one
    usage percentage [currentCost / budget * 100]: [shouldWarn] at
    [>= 70], [isNearLimit] at [>= 80], [isExceeded] at [>= 100];
    [remaining] is [budget - currentCost].  With budget 1 the cost 0.70
    warns only, 0.80 is near the limit, 1.00 is exceeded (all three flags
    at once); [remaining] can be negative (budget 0.5, cost 3: -2.5). *)
Theorem checkBudget_thresholds (this : Tracker) :
  let r := checkBudget this in
  (shouldWarn r = true <-> PrimFloat.leb 70 (usagePercentage this) = true)
  /\ (isNearLimit r = true <-> PrimFloat.leb 80 (usagePercentage this) = true)
  /\ (isExceeded r = true <-> PrimFloat.leb 100 (usagePercentage this) = true)
  /\ status_remaining r = (budget this - getCurrentCost this)%float
  /\ status_currentCost r = getCurrentCost this
  /\ (forall i o total,
        let r70 := checkBudget (spent i o total 0.7) in
        shouldWarn r70 = true /\ isNearLimit r70 = false /\ isExceeded r70 = false)
  /\ (forall i o total,
        let r80 := checkBudget (spent i o total 0.8) in
        shouldWarn r80 = true /\ isNearLimit r80 = true /\ isExceeded r80 = false)
  /\ (forall i o total,
        let r100 := checkBudget (spent i o total 1) in
        shouldWarn r100 = true /\ isNearLimit r100 = true /\ isExceeded r100 = true)
  /\ (let over := {| budget := 0.5; usage := {| inputTokens := 1000000; outputTokens := 0;
                                                totalTokens := 1000000; cost := 3 |} |} in
      status_remaining (checkBudget over) = (-2.5)%float
      /\ PrimFloat.ltb (status_remaining (checkBudget over)) 0 = true).
Proof.
  repeat split; try reflexivity; try (intros H; exact H).
Qed.

(** The percentage of a zero cost is NaN or a zero, whatever the budget. *)
Lemma zero_cost_percentage (b : float) :
  Prim2SF ((0 / b) * 100)%float = S754_nan
  \/ exists s, Prim2SF ((0 / b) * 100)%float = S754_zero s.
Proof.
  rewrite mul_spec, div_spec.
  change (Prim2SF 0) with (S754_zero false).
  change (Prim2SF 100) with (S754_finite false 7036874417766400 (-46)).
  destruct (Prim2SF b) as [s|s| |s m e]; simpl; eauto.
Qed.

(** No threshold is reached at a zero cost. *)
Lemma zero_cost_below (b k : float) :
  PrimFloat.ltb 0 k = true -> geb ((0 / b) * 100)%float k = false.
Proof.
  unfold geb. rewrite ltb_spec, leb_spec.
  change (Prim2SF 0) with (S754_zero false).
  destruct (zero_cost_percentage b) as [-> | [s ->]].
  - destruct (Prim2SF k); reflexivity.
  - unfold SFltb, SFleb. destruct (Prim2SF k) as [sk|sk| |sk mk ek]; simpl; try discriminate.
    + destruct sk; [discriminate | reflexivity].
    + destruct sk; [discriminate | reflexivity].
Qed.

(** C7, as the code has it: [getReport().status] is the single label the
    usage percentage determines, by precedence ["超出预算"] from 100,
    otherwise ["接近限制"] from 80, otherwise ["需要关注"] from 70,
    otherwise ["正常"]; after [reset()] it is ["正常"] (whatever the
    budget, so for every budget above 0). *)
Theorem getReport_status (this : Tracker) :
  percentage (getReport this) = usagePercentage this
  /\ status (getReport this)
     = (if geb (usagePercentage this) 100 then "超出预算"
        else if geb (usagePercentage this) 80 then "接近限制"
        else if geb (usagePercentage this) 70 then "需要关注"
        else "正常")
  /\ getCurrentCost (reset this) = 0%float
  /\ budget (reset this) = budget this
  /\ status (getReport (reset this)) = "正常".
Proof.
  repeat split.
  unfold getReport, status, reset, getCurrentCost. simpl.
  rewrite !zero_cost_below by reflexivity. reflexivity.
Qed.

(** C7, as the claim states it, fails: right after [reset()] a tracker of
    budget 1 reports ["正常"], not the string ["normal"]. *)
Lemma status_label_not_english :
  status (getReport (reset (new 1))) <> englishLabel (usagePercentage (reset (new 1)))
  /\ status (getReport (reset (new 1))) <> "normal".
Proof. split; vm_compute; discriminate. Qed.

Lemma invalidCount_invalid (v : Value) : invalidCount v -> invalid v = true.
Proof.
  intros [Htype | (x & -> & [Hnan | Hneg])].
  - destruct v; simpl in *; congruence.
  - simpl. unfold isNaN. unfold PrimFloat.is_nan in Hnan. by rewrite Hnan.
  - simpl. rewrite Hneg. apply orb_true_r.
Qed.

(** C9: when [inputTokens] or [outputTokens] is invalid, [addUsage]
    raises the error of [calculateCost] and leaves the tracker, the four
    fields of its accumulator included, as it was. *)
Theorem addUsage_invalid_atomic (env : option string) (i o : Value)
    (model : option string) (this : Tracker) :
  invalidCount i \/ invalidCount o ->
  exists e,
    calculateCost env i o (Some (default (Config.DEFAULT_MODEL env) model)) = Throw e
    /\ addUsage env i o model this = (Throw e, this)
    /\ usage (snd (addUsage env i o model this)) = usage this.
Proof.
  intros Hinvalid.
  assert (Hthrow : exists e, forall m, calculateCost env i o m = Throw e).
  { unfold calculateCost.
    destruct (invalid i) eqn:Hi.
    - rewrite (CostFacts.validate_invalid _ i Hi). eauto.
    - destruct (CostFacts.validate_valid "inputTokens 必须是有效的非负数" i Hi) as (x & -> & ->).
      destruct Hinvalid as [Hbad | Hbad]; apply invalidCount_invalid in Hbad; [congruence|].
      rewrite (CostFacts.validate_invalid _ o Hbad). simpl. eauto. }
  destruct Hthrow as [e He]. exists e.
  unfold addUsage. rewrite He. auto.
Qed.

Lemma addUsage_invalid_atomic_witness :
  exists e,
    calculateCost None (Number (-1)) (Number 5) (Some (default (Config.DEFAULT_MODEL None) None)) = Throw e
    /\ addUsage None (Number (-1)) (Number 5) None (spent 10 20 30 0.25) = (Throw e, spent 10 20 30 0.25)
    /\ usage (snd (addUsage None (Number (-1)) (Number 5) None (spent 10 20 30 0.25)))
       = usage (spent 10 20 30 0.25).
Proof.
  apply (addUsage_invalid_atomic None (Number (-1)) (Number 5) None (spent 10 20 30 0.25)).
  left. right. exists (-1)%float. split; [reflexivity | right; reflexivity].
Defined.

(** ** Accumulation *)

(** A successful [addUsage] returns the record of [calculateCost] for this
    call and adds its four numbers to the accumulator; the budget is
    unchanged. *)
Lemma addUsage_returns_increment (env : option string) (i o : Value)
    (model : option string) (this : Tracker) (d : CostDetails) (after : Tracker) :
  addUsage env i o model this = (Normal d, after) ->
  calculateCost env i o (Some (default (Config.DEFAULT_MODEL env) model)) = Normal d
  /\ budget after = budget this
  /\ inputTokens (usage after) = (inputTokens (usage this) + CostCalculator.inputTokens d)%float
  /\ outputTokens (usage after) = (outputTokens (usage this) + CostCalculator.outputTokens d)%float
  /\ totalTokens (usage after) = (totalTokens (usage this) + CostCalculator.totalTokens d)%float
  /\ getCurrentCost after = (getCurrentCost this + totalCost d)%float.
Proof.
  unfold addUsage.
  destruct (calculateCost env i o _) as [d'|e]; [|discriminate].
  intros [= <- <-]. by repeat split.
Qed.

(** After a sequence of [addUsage] calls the current cost is the cost
    before them plus the [totalCost] of each record returned, added in the
    order of the calls. *)
Lemma addUsages_cost_is_sum (env : option string)
    (calls : list (Value * Value * option string)) (this : Tracker) :
  getCurrentCost (snd (addUsages env calls this))
  = fold_left (fun acc d => (acc + totalCost d)%float)
              (fst (addUsages env calls this)) (getCurrentCost this).
Proof.
  revert this. induction calls as [|[[i o] model] rest IH]; intros this; [reflexivity|].
  simpl. destruct (addUsage env i o model this) as [[d|e] after] eqn:Hcall; [|simpl].
  - specialize (IH after). destruct (addUsages env rest after) as [ds final].
    simpl in *. rewrite IH.
    by destruct (addUsage_returns_increment _ _ _ _ _ _ _ Hcall) as (_ & _ & _ & _ & _ & ->).
  - unfold addUsage in Hcall.
    destruct (calculateCost env i o _); [discriminate | congruence].
Qed.

End BudgetFacts.

(** * Properties of the conversation history *)

Module HistoryFacts.
Import Js ConversationManager HistoryTerms.

(** ** The loop *)

Lemma trimLoop_unfold (this : Manager) :
  trimLoop this
  = match loopCondition this with
    | Normal true => trimLoop (splice_0_2 this)
    | Normal false => (Normal tt, this)
    | Throw e => (Throw e, this)
    end.
Proof.
  funelim (trimLoop this);
    match goal with Hc : loopCondition _ = _ |- _ => rewrite Hc end; reflexivity.
Qed.

Lemma dropOldest_0 (this : Manager) : dropOldest 0 this = this.
Proof. destruct this. reflexivity. Qed.

Lemma dropOldest_splice (n : nat) (this : Manager) :
  dropOldest n (splice_0_2 this) = dropOldest (2 + n) this.
Proof. unfold dropOldest, splice_0_2. simpl. by rewrite drop_drop. Qed.

(** What the loop does, whatever the stored contents: it removes an even
    number [2 * k] of oldest messages, the condition held before each of
    the [k] removals, and the loop ends with the completion of the
    condition that stopped it. *)
Lemma trimLoop_spec (this : Manager) :
  exists k,
    snd (trimLoop this) = dropOldest (2 * k) this
    /\ 2 * k <= length (messages this)
    /\ (forall j, j < k -> loopCondition (dropOldest (2 * j) this) = Normal true)
    /\ match fst (trimLoop this) with
       | Normal _ => loopCondition (dropOldest (2 * k) this) = Normal false
       | Throw e => loopCondition (dropOldest (2 * k) this) = Throw e
       end.
Proof.
  remember (length (messages this)) as n eqn:Hn.
  revert this Hn. induction n as [n IH] using lt_wf_ind. intros this Hn.
  rewrite trimLoop_unfold.
  destruct (loopCondition this) as [[|]|e] eqn:Hcond.
  - assert (Hlen : 2 <= length (messages this)).
    { unfold loopCondition in Hcond.
      destruct (_calculateTotalTokens this); simpl in Hcond; [|discriminate].
      injection Hcond as Hcond. apply andb_true_iff in Hcond as [_ Hcond].
      by apply Nat.leb_le. }
    destruct (IH (length (messages (splice_0_2 this)))) with (this := splice_0_2 this)
      as (k & Hsnd & Hk & Hruns & Hend).
    { simpl. rewrite length_drop. lia. }
    { reflexivity. }
    exists (S k). rewrite dropOldest_splice in Hsnd, Hend.
    replace (2 * S k) with (2 + 2 * k) by lia.
    repeat split; try assumption.
    + simpl in Hk. rewrite length_drop in Hk. lia.
    + intros [|j] Hj.
      * by rewrite dropOldest_0.
      * replace (2 * S j) with (2 + 2 * j) by lia.
        rewrite <- dropOldest_splice. apply Hruns. lia.
  - exists 0. simpl. rewrite dropOldest_0. repeat split; try done; lia.
  - exists 0. simpl. rewrite dropOldest_0. repeat split; try done; lia.
Qed.

(** ** The estimate *)

Lemma plus_NaN (a : Estimate) : plus a NaN = NaN.
Proof. by destruct a. Qed.

Lemma _estimateTokens_defined (v : Value) :
  nullish v = false -> exists e, _estimateTokens v = Normal e.
Proof. destruct v; simpl; try discriminate; eauto. Qed.

Lemma addEstimates_app (total : Estimate) (older newer : list Message) :
  addEstimates total (older ++ newer)
  = bind (addEstimates total older) (fun t => addEstimates t newer).
Proof.
  revert total. induction older as [|msg older IH]; intros total; simpl; [reflexivity|].
  destruct (_estimateTokens (content msg)); simpl; [apply IH | reflexivity].
Qed.

Lemma addEstimates_defined (total : Estimate) (msgs : list Message) :
  estimable msgs -> exists t, addEstimates total msgs = Normal t.
Proof.
  intros Hmsgs. revert total.
  induction Hmsgs as [|msg msgs Hmsg _ IH]; intros total; simpl; [eauto|].
  destruct (_estimateTokens_defined _ Hmsg) as [e ->]. simpl. apply IH.
Qed.

Lemma _calculateTotalTokens_unfold (this : Manager) :
  _calculateTotalTokens this = addEstimates (promptTokens this) (messages this).
Proof.
  unfold _calculateTotalTokens, promptTokens.
  destruct (truthy (systemPrompt this)); reflexivity.
Qed.

Lemma _calculateTotalTokens_defined (this : Manager) :
  estimable (messages this) -> exists t, _calculateTotalTokens this = Normal t.
Proof. rewrite _calculateTotalTokens_unfold. apply addEstimates_defined. Qed.

Lemma loopCondition_estimable (this : Manager) :
  estimable (messages this) ->
  loopCondition this = Normal (overLimit this && (2 <=? length (messages this))%nat).
Proof.
  intros Hmsgs. unfold loopCondition, overLimit.
  destruct (_calculateTotalTokens_defined this Hmsgs) as [t ->]. reflexivity.
Qed.

Lemma estimable_drop (n : nat) (msgs : list Message) :
  estimable msgs -> estimable (drop n msgs).
Proof. apply Forall_drop. Qed.

(** ** [_trimHistoryIfNeeded] *)

(** Whatever the stored contents, the call only removes oldest messages. *)
Lemma _trimHistoryIfNeeded_drops (this : Manager) :
  exists n, snd (_trimHistoryIfNeeded this) = dropOldest n this.
Proof.
  unfold _trimHistoryIfNeeded.
  destruct (_calculateTotalTokens this) as [total|e];
    [|exists 0; by rewrite dropOldest_0].
  destruct (leb total (maxHistoryTokens this)); [exists 0; by rewrite dropOldest_0|].
  destruct (trimLoop_spec this) as (k & Hsnd & _).
  exists (2 * k). rewrite <- Hsnd.
  destruct (trimLoop this) as [[u|e] this']; simpl; [|reflexivity].
  destruct (_calculateTotalTokens this'); reflexivity.
Qed.

(** On contents whose length can be read the call returns, and the loop
    has run as [trimmed] says. *)
Lemma _trimHistoryIfNeeded_spec (this : Manager) :
  estimable (messages this) ->
  exists k,
    _trimHistoryIfNeeded this = (Normal tt, dropOldest (2 * k) this)
    /\ trimmed k this (dropOldest (2 * k) this).
Proof.
  intros Hmsgs. unfold _trimHistoryIfNeeded.
  destruct (_calculateTotalTokens_defined this Hmsgs) as [total Htotal]. rewrite Htotal.
  destruct (leb total (maxHistoryTokens this)) eqn:Hle.
  - exists 0. change (2 * 0) with 0. rewrite dropOldest_0. split; [reflexivity|].
    unfold trimmed. change (2 * 0) with 0. rewrite dropOldest_0.
    split; [reflexivity|]. split; [lia|]. split; [intros j Hj; lia|].
    left. unfold overLimit. rewrite Htotal.
    destruct total as [|x]; simpl in *; [reflexivity|]. lia.
  - destruct (trimLoop_spec this) as (k & Hsnd & Hk & Hruns & Hend).
    exists k.
    assert (Hdropped : estimable (messages (dropOldest (2 * k) this)))
      by (by apply estimable_drop).
    rewrite (loopCondition_estimable _ Hdropped) in Hend.
    destruct (trimLoop this) as [[[]|e] this']; cbn [fst snd] in Hsnd, Hend; subst this';
      [|discriminate].
    cbv beta iota.
    destruct (_calculateTotalTokens_defined _ Hdropped) as [t' ->].
    split; [reflexivity|].
    split; [reflexivity|]. split; [assumption|]. split.
    + intros j Hj. specialize (Hruns j Hj).
      rewrite loopCondition_estimable in Hruns by (by apply estimable_drop).
      injection Hruns as Hruns. apply andb_true_iff in Hruns as [Hover Hlen].
      split; [assumption | by apply Nat.leb_le].
    + destruct (overLimit (dropOldest (2 * k) this)); [right | by left].
      destruct (Nat.leb_spec 2 (length (messages (dropOldest (2 * k) this))))
        as [Hlen | Hlen]; [discriminate | exact Hlen].
Qed.

Lemma estimable_push (r : MessageRole) (content : Value) (now : Z) (this : Manager) :
  estimable (messages this) -> nullish content = false ->
  estimable (messages (push r content now this)).
Proof.
  intros Hmsgs Hcontent. unfold push, estimable. simpl.
  apply Forall_app. split; [exact Hmsgs | by repeat constructor].
Qed.




(** On that history the call removes the two oldest messages. *)
Example trimming_removes_oldest_pair :
  addUserMessage (Str "ijkl") 3 twoMessages
  = (Normal tt,
     {| messages := [ {| role := USER; content := Str "ijkl"; timestamp := 3 |} ];
        systemPrompt := "be";
        maxHistoryTokens := 4 |}).
Proof. reflexivity. Qed.

(** ** Contents that are not strings *)

Lemma total_with_unsized_content (r : MessageRole) (content : Value) (now : Z) (this : Manager) :
  estimable (messages this) -> _estimateTokens content = Normal NaN ->
  _calculateTotalTokens (push r content now this) = Normal NaN.
Proof.
  intros Hmsgs Hcontent. rewrite _calculateTotalTokens_unfold. simpl.
  rewrite addEstimates_app.
  destruct (addEstimates_defined (promptTokens (push r content now this)) _ Hmsgs) as [t ->].
  simpl. rewrite Hcontent. simpl. by rewrite plus_NaN.
Qed.

Lemma total_with_nullish_content (r : MessageRole) (content : Value) (now : Z) (this : Manager) :
  estimable (messages this) -> nullish content = true ->
  exists message,
    _estimateTokens content = Throw (TypeError message)
    /\ _calculateTotalTokens (push r content now this) = Throw (TypeError message).
Proof.
  intros Hmsgs Hcontent. rewrite _calculateTotalTokens_unfold. simpl.
  rewrite addEstimates_app.
  destruct (addEstimates_defined (promptTokens (push r content now this)) _ Hmsgs) as [t ->].
  destruct content; try discriminate; simpl; eauto.
Qed.

Lemma append_unchecked (r : MessageRole) (content : Value) (now : Z) (this : Manager) :
  typeof content <> "string" -> estimable (messages this) ->
  if nullish content
  then exists message,
    _estimateTokens content = Throw (TypeError message)
    /\ _trimHistoryIfNeeded (push r content now this)
       = (Throw (TypeError message), push r content now this)
  else
    _trimHistoryIfNeeded (push r content now this) = (Normal tt, push r content now this).
Proof.
  intros Htype Hmsgs. destruct (nullish content) eqn:Hnullish.
  - destruct (total_with_nullish_content r content now this Hmsgs Hnullish)
      as (message & Hcontent & Hthrow).
    exists message. split; [exact Hcontent|].
    unfold _trimHistoryIfNeeded. by rewrite Hthrow.
  - assert (Htotal : _calculateTotalTokens (push r content now this) = Normal NaN).
    { apply total_with_unsized_content; [exact Hmsgs|].
      destruct content; simpl in *; congruence. }
    unfold _trimHistoryIfNeeded. rewrite Htotal. simpl.
    rewrite trimLoop_unfold. unfold loopCondition. rewrite Htotal. simpl.
    by rewrite Htotal.
Qed.

(** Once a content that is [null] or [undefined] is stored, the estimate
    of the history raises the [TypeError] of that content, whatever is
    appended. *)
Lemma addEstimates_nullish (msgs : list Message) :
  nullishStored msgs ->
  exists message, forall total newer,
    addEstimates total (msgs ++ newer) = Throw (TypeError message).
Proof.
  unfold nullishStored.
  induction msgs as [|msg rest IH]; intros Hstored; [by apply Exists_nil in Hstored|].
  destruct (nullish (ConversationManager.content msg)) eqn:Hnullish.
  - destruct (ConversationManager.content msg) eqn:Hcontent; try discriminate;
      eexists; intros total newer; simpl; rewrite Hcontent; reflexivity.
  - apply Exists_cons in Hstored as [Hhead | Hrest]; [congruence|].
    destruct (IH Hrest) as [message Hthrow]. exists message. intros total newer. simpl.
    destruct (_estimateTokens_defined _ Hnullish) as [e ->]. simpl. apply Hthrow.
Qed.

Lemma append_to_nullish (this : Manager) :
  nullishStored (messages this) ->
  exists message, forall r v now,
    _trimHistoryIfNeeded (push r v now this)
    = (Throw (TypeError message), push r v now this).
Proof.
  intros Hstored. destruct (addEstimates_nullish _ Hstored) as [message Hthrow].
  exists message. intros r v now.
  unfold _trimHistoryIfNeeded. rewrite _calculateTotalTokens_unfold.
  cbn [messages push]. by rewrite Hthrow.
Qed.

(** C8, as the code has it: the mutators do not check the type of the
    content.  On a history whose stored contents are neither [null] nor
    [undefined], a boolean or a number is appended like a string, the
    call returns, and nothing is trimmed (the estimate is NaN, which
    exceeds no limit); for [null] and [undefined] the estimate raises a
    [TypeError], after the message has been appended: the history keeps
    it.  Once such a content is stored, every later call of either
    mutator, whatever its content, appends its message and raises that
    [TypeError]. *)
Theorem content_not_checked (content : Value) (now : Z) (this : Manager) :
  typeof content <> "string" ->
  (estimable (messages this) ->
   if nullish content
   then exists message,
     addUserMessage content now this
     = (Throw (TypeError message), push USER content now this)
     /\ addAssistantMessage content now this
        = (Throw (TypeError message), push ASSISTANT content now this)
   else
     addUserMessage content now this = (Normal tt, push USER content now this)
     /\ addAssistantMessage content now this = (Normal tt, push ASSISTANT content now this))
  /\ (nullishStored (messages this) ->
      exists message, forall v later,
        addUserMessage v later this
        = (Throw (TypeError message), push USER v later this)
        /\ addAssistantMessage v later this
           = (Throw (TypeError message), push ASSISTANT v later this)).
Proof.
  intros Htype. split.
  - intros Hmsgs.
    pose proof (append_unchecked USER content now this Htype Hmsgs) as Huser.
    pose proof (append_unchecked ASSISTANT content now this Htype Hmsgs) as Hassistant.
    unfold addUserMessage, addAssistantMessage.
    destruct (nullish content); [|by split].
    destruct Huser as (message & Hcontent & Huser).
    destruct Hassistant as (message' & Hcontent' & Hassistant).
    exists message. split; [exact Huser|].
    rewrite Hassistant. congruence.
  - intros Hstored. destruct (append_to_nullish this Hstored) as [message Hthrow].
    exists message. intros v later. unfold addUserMessage, addAssistantMessage.
    by rewrite !Hthrow.
Qed.

Lemma content_not_checked_witness :
  (addUserMessage (Number 42) 3 twoMessages
   = (Normal tt, push USER (Number 42) 3 twoMessages)
   /\ addAssistantMessage (Number 42) 3 twoMessages
      = (Normal tt, push ASSISTANT (Number 42) 3 twoMessages))
  /\ (exists message,
        addUserMessage Null 3 twoMessages
        = (Throw (TypeError message), push USER Null 3 twoMessages)
        /\ addAssistantMessage Null 3 twoMessages
           = (Throw (TypeError message), push ASSISTANT Null 3 twoMessages))
  /\ (exists message,
        addUserMessage (Number 42) 4 nullStored
        = (Throw (TypeError message), push USER (Number 42) 4 nullStored)
        /\ addAssistantMessage (Boolean true) 4 nullStored
           = (Throw (TypeError message), push ASSISTANT (Boolean true) 4 nullStored)).
Proof.
  split; [|split].
  - apply (content_not_checked (Number 42) 3 twoMessages);
      [discriminate | repeat constructor].
  - apply (content_not_checked Null 3 twoMessages);
      [discriminate | repeat constructor].
  - destruct (content_not_checked (Number 42) 4 nullStored) as [_ Hstored];
      [discriminate|].
    destruct Hstored as [message Hthrow].
    { unfold nullishStored. apply Exists_cons_tl, Exists_cons_tl, Exists_cons_hd.
      reflexivity. }
    exists message. split; [apply (Hthrow (Number 42) 4%Z) | apply (Hthrow (Boolean true) 4%Z)].
Defined.

(** C8, as the claim states it, fails: the number 42 is not a string,
    and both mutators return without an error. *)
Lemma number_content_accepted :
  ~ rejected (Number 42) 3 twoMessages.
Proof.
  intros Hrejected. destruct Hrejected as [[e He] _]; [discriminate|].
  vm_compute in He. discriminate.
Qed.

(** ** The empty system prompt *)

Lemma reachable_noSystemMessage (this : Manager) :
  reachable this -> noSystemMessage (messages this).
Proof.
  assert (Hadd : forall r content now this0,
             r <> SYSTEM -> noSystemMessage (messages this0) ->
             noSystemMessage (messages (snd (_trimHistoryIfNeeded (push r content now this0))))).
  { intros r content now this0 Hr Hthis0.
    destruct (_trimHistoryIfNeeded_drops (push r content now this0)) as [n ->].
    simpl. apply Forall_drop, Forall_app. split; [exact Hthis0 | by repeat constructor]. }
  induction 1 as [options|prompt this _ IH|content now this _ IH|content now this _ IH|this _ IH].
  - constructor.
  - exact IH.
  - by apply Hadd.
  - by apply Hadd.
  - constructor.
Qed.

Lemma getMessages_no_prompt (this : Manager) :
  systemPrompt this = "" -> noSystemMessage (messages this) ->
  forall entry, entry ∈ getMessages this -> formatted_role entry <> SYSTEM.
Proof.
  intros Hprompt Hroles entry. unfold getMessages. rewrite Hprompt. simpl.
  intros Hentry. apply list_elem_of_fmap in Hentry as (msg & -> & Hmsg). simpl.
  unfold noSystemMessage in Hroles. rewrite Forall_forall in Hroles. by apply Hroles.
Qed.

Lemma exportToText_empty (toLocaleString : Z -> string) (numberToString : float -> string)
    (this : Manager) :
  systemPrompt this = "" -> messages this = [] ->
  exportToText toLocaleString numberToString this = "(空对话)".
Proof. intros Hprompt Hmsgs. unfold exportToText. by rewrite Hprompt, Hmsgs. Qed.

(** C10: the empty string stands for "no system prompt".  A manager
    constructed without a system prompt (or with the empty one) holds
    the empty string.  Whenever the system prompt of a manager reached
    through the public interface is the empty string, and so after
    [setSystemPrompt("")], [getMessages()] has no entry of the system
    role, and [exportToText()] on a history without messages is the
    sentinel ["(空对话)"], not a system prompt section. *)
Theorem empty_prompt_is_no_prompt (this : Manager) :
  reachable this ->
  (forall limit, systemPrompt (new {| options_systemPrompt := None;
                                       options_maxHistoryTokens := limit |}) = ""
                 /\ systemPrompt (new {| options_systemPrompt := Some "";
                                         options_maxHistoryTokens := limit |}) = "")
  /\ (systemPrompt this = "" ->
      (forall entry, entry ∈ getMessages this -> formatted_role entry <> SYSTEM)
      /\ (messages this = [] ->
          forall toLocaleString numberToString,
            exportToText toLocaleString numberToString this = "(空对话)"))
  /\ systemPrompt (setSystemPrompt "" this) = ""
  /\ (forall entry, entry ∈ getMessages (setSystemPrompt "" this) ->
                    formatted_role entry <> SYSTEM)
  /\ (messages this = [] ->
      forall toLocaleString numberToString,
        exportToText toLocaleString numberToString (setSystemPrompt "" this) = "(空对话)").
Proof.
  intros Hreach. pose proof (reachable_noSystemMessage this Hreach) as Hroles.
  split; [by split|]. split; [|split; [reflexivity|split]].
  - intros Hprompt. split.
    + by apply getMessages_no_prompt.
    + intros Hmsgs toLocaleString numberToString. by apply exportToText_empty.
  - by apply getMessages_no_prompt.
  - intros Hmsgs toLocaleString numberToString. by apply exportToText_empty.
Qed.

Lemma empty_prompt_is_no_prompt_witness :
  reachable promptRemoved
  /\ systemPrompt promptRemoved = ""
  /\ forall entry, entry ∈ getMessages promptRemoved -> formatted_role entry <> SYSTEM.
Proof.
  assert (Hreach : reachable promptRemoved) by (unfold promptRemoved; repeat constructor).
  split; [exact Hreach|]. split; [reflexivity|].
  destruct (empty_prompt_is_no_prompt promptRemoved Hreach) as (_ & Hempty & _).
  by apply Hempty.
Defined.

(** ** Alternating calls *)




Lemma last_drop_nonempty (n : nat) (msgs : list Message) :
  drop n msgs <> [] -> last (drop n msgs) = last msgs.
Proof.
  intros Hdrop. rewrite <- (take_drop n msgs) at 2. rewrite last_app.
  destruct (last (drop n msgs)) eqn:Hlast; [reflexivity|].
  apply last_None in Hlast. contradiction.
Qed.




(** After two such calls the loop has removed both messages, the most
    recently added one with the older one: the case of an even number of
    calls, of which the theorem above says the parity only. *)
Lemma newest_removed_after_two_calls :
  ~ newestKeptEvenCount [("abcd", 1%Z); ("efgh", 2%Z)] oneTokenLimit.
Proof.
  intros Hclaim.
  destruct Hclaim as ((newest & _ & Hstored) & _); [reflexivity | reflexivity |].
  change (newest ∈ @nil Message) in Hstored. by apply elem_of_nil in Hstored.
Qed.

(** What the two sequences of calls leave in the history. *)
Example two_calls_leave_nothing :
  alternate true (stringCalls [("abcd", 1%Z); ("efgh", 2%Z)]) oneTokenLimit
  = (Normal tt, oneTokenLimit).
Proof. reflexivity. Qed.

Example three_calls_leave_one :
  messages (snd (alternate true (stringCalls [("abcd", 1%Z); ("efgh", 2%Z); ("ijkl", 3%Z)])
                   oneTokenLimit))
  = [ {| role := USER; content := Str "ijkl"; timestamp := 3 |} ].
Proof. reflexivity. Qed.

End HistoryFacts.

(** * Comparisons of binary64 numbers *)

Module NumberFacts.

(** [isNaN] in terms of the value a number denotes. *)
Lemma isNaN_Prim2SF (x : float) :
  Js.isNaN x = match Prim2SF x with S754_nan => true | _ => false end.
Proof.
  unfold Js.isNaN. rewrite FloatAxioms.eqb_spec. unfold SFeqb.
  destruct (Prim2SF x) as [s|s| |s m e]; [by destruct s | by destruct s | done |].
  unfold SFcompare. rewrite Z.compare_refl, Pos.compare_cont_refl. by destruct s.
Qed.

(** [!(isNaN(x) || x < 0)] is [0 <= x]. *)
Lemma nonnegative_spec (x : float) :
  Js.isNaN x || PrimFloat.ltb x 0 = false <-> PrimFloat.leb 0 x = true.
Proof.
  rewrite isNaN_Prim2SF, ltb_spec, leb_spec.
  change (Prim2SF 0) with (S754_zero false).
  destruct (Prim2SF x) as [s|s| |s m e]; simpl; try done; by destruct s.
Qed.

(** [!(isNaN(x) || x <= 0)] is [0 < x]. *)
Lemma positive_spec (x : float) :
  Js.isNaN x || PrimFloat.leb x 0 = false <-> PrimFloat.ltb 0 x = true.
Proof.
  rewrite isNaN_Prim2SF, ltb_spec, leb_spec.
  change (Prim2SF 0) with (S754_zero false).
  destruct (Prim2SF x) as [s|s| |s m e]; simpl; try done; by destruct s.
Qed.

(** Two positive numbers of one binade: what is at least the larger is
    at least the smaller. *)
Lemma SFleb_binade (ma mb : positive) (e : Z) (p : spec_float) :
  (ma <= mb)%positive ->
  SFleb (S754_finite false mb e) p = true -> SFleb (S754_finite false ma e) p = true.
Proof.
  intros Hle. unfold SFleb.
  destruct p as [s|s| |s m e']; simpl; try done.
  destruct s; [done|].
  destruct (Z.compare e e'); try done.
  rewrite !Pos.compare_cont_spec. simpl.
  destruct (Pos.compare_spec mb m) as [Heq|Hlt|Hgt]; simpl; try done.
  - intros _. subst m. destruct (Pos.compare_spec ma mb); simpl; try done. lia.
  - intros _. destruct (Pos.compare_spec ma m); simpl; try done. lia.
Qed.

(** [p >= 100] gives [p >= 80], and [p >= 80] gives [p >= 70]. *)
Lemma geb_100_80 (p : float) :
  TokenTracker.geb p 100 = true -> TokenTracker.geb p 80 = true.
Proof.
  unfold TokenTracker.geb. rewrite !leb_spec.
  change (Prim2SF 100) with (S754_finite false 7036874417766400 (-46)).
  change (Prim2SF 80) with (S754_finite false 5629499534213120 (-46)).
  apply SFleb_binade. lia.
Qed.

Lemma geb_80_70 (p : float) :
  TokenTracker.geb p 80 = true -> TokenTracker.geb p 70 = true.
Proof.
  unfold TokenTracker.geb. rewrite !leb_spec.
  change (Prim2SF 80) with (S754_finite false 5629499534213120 (-46)).
  change (Prim2SF 70) with (S754_finite false 4925812092436480 (-46)).
  apply SFleb_binade. lia.
Qed.

End NumberFacts.

(** * Further properties of the cost calculation *)

Module PricingFacts.
Import Js Config CostCalculator.

(** A name the tables do not inherit resolves to a table entry. *)
Lemma getModelPrices_plain_name (env : option string) (model : option string) :
  default (DEFAULT_MODEL env) model ∉ objectPrototypeKeys ->
  exists p, getModelPrices env model = Own p.
Proof.
  intros Hplain.
  unfold getModelPrices.
  set (name := default (DEFAULT_MODEL env) model) in *.
  assert (Hget : forall table, get table name = Missing \/ exists p, get table name = Own p).
  { intros table. unfold get. destruct (table !! name); [eauto|].
    rewrite bool_decide_eq_false_2 by done. auto. }
  destruct (String.prefix "GLM" name).
  - destruct (Hget glmPrices) as [-> | [p ->]]; simpl; eauto.
  - destruct (Hget claudePrices) as [-> | [p ->]]; simpl; eauto.
Qed.

(** X1: [calculateCost] raises an error exactly when a token count is
    invalid, whatever the model: the error names [inputTokens] when the
    first count is invalid (also when both are), [outputTokens] when only
    the second is; with two valid counts the call returns.  A value is a
    valid count exactly when it is a number [x] with [0 <= x], so
    [Infinity] and [-0] are valid counts. *)
Theorem calculateCost_argument_errors (env : option string) (i o : Value)
    (model : option string) :
  (invalid i = true ->
   calculateCost env i o model = Throw (GenericError "inputTokens 必须是有效的非负数"))
  /\ (invalid i = false -> invalid o = true ->
      calculateCost env i o model = Throw (GenericError "outputTokens 必须是有效的非负数"))
  /\ (invalid i = false -> invalid o = false ->
      is_normal (calculateCost env i o model) = true)
  /\ (forall v, invalid v = false <-> exists x, v = Number x /\ PrimFloat.leb 0 x = true)
  /\ invalid (Number infinity) = false
  /\ invalid (Number (-0)) = false.
Proof.
  split; [|split; [|split; [|split; [|split]]]]; try reflexivity.
  - intros Hi. unfold calculateCost.
    by rewrite (CostFacts.validate_invalid _ i Hi).
  - intros Hi Ho. unfold calculateCost.
    destruct (CostFacts.validate_valid "inputTokens 必须是有效的非负数" i Hi) as (x & -> & ->).
    by rewrite (CostFacts.validate_invalid _ o Ho).
  - apply CostFacts.calculateCost_returns.
  - intros v. split.
    + destruct v as [| |b|x|s]; simpl; try discriminate.
      intros Hvalid. exists x. split; [reflexivity|].
      by apply NumberFacts.nonnegative_spec.
    + intros (x & -> & Hx). simpl. by apply NumberFacts.nonnegative_spec.
Qed.

(** X2: for every model name that is not the name of a member the price
    tables inherit from [Object.prototype], known or not, and every two
    valid counts, [calculateCost] returns the record computed with one
    of the five table entries: the costs are [count / 1000000 * price]
    and their sum, the counts are returned with their sum.  In every
    entry the output price is at least the input price, and zero tokens
    cost zero. *)
Theorem calculateCost_priced (env : option string) (i o : float) (model : option string) :
  default (DEFAULT_MODEL env) model ∉ objectPrototypeKeys ->
  PrimFloat.leb 0 i = true -> PrimFloat.leb 0 o = true ->
  exists p,
    getModelPrices env model = Own p
    /\ PrimFloat.ltb 0 (input p) = true
    /\ PrimFloat.leb (input p) (output p) = true
    /\ calculateCost env (Number i) (Number o) model
       = Normal {| inputCost := i / 1000000 * input p;
                   outputCost := o / 1000000 * output p;
                   totalCost := (i / 1000000 * input p) + (o / 1000000 * output p);
                   inputTokens := i;
                   outputTokens := o;
                   totalTokens := i + o |}
    /\ calculateCost env (Number 0) (Number 0) model
       = Normal {| inputCost := 0; outputCost := 0; totalCost := 0;
                   inputTokens := 0; outputTokens := 0; totalTokens := 0 |}.
Proof.
  intros Hplain Hi Ho.
  destruct (getModelPrices_plain_name env model Hplain) as [p Hp].
  exists p. split; [exact Hp|].
  assert (Hvalid : forall x, PrimFloat.leb 0 x = true -> invalid (Number x) = false).
  { intros x Hx. simpl. by apply NumberFacts.nonnegative_spec. }
  rewrite (CostFacts.calculateCost_record env i o model p Hp (Hvalid i Hi) (Hvalid o Ho)).
  rewrite (CostFacts.calculateCost_record env 0 0 model p Hp eq_refl eq_refl).
  apply CostFacts.getModelPrices_entry in Hp.
  repeat (apply elem_of_cons in Hp as [-> | Hp]; [by vm_compute|]).
  by apply elem_of_nil in Hp.
Qed.

Lemma calculateCost_priced_witness :
  exists p,
    getModelPrices None (Some "GLM-5") = Own p
    /\ PrimFloat.ltb 0 (input p) = true
    /\ PrimFloat.leb (input p) (output p) = true
    /\ calculateCost None (Number 2000000) (Number 1000000) (Some "GLM-5")
       = Normal {| inputCost := 2000000 / 1000000 * input p;
                   outputCost := 1000000 / 1000000 * output p;
                   totalCost := (2000000 / 1000000 * input p) + (1000000 / 1000000 * output p);
                   inputTokens := 2000000;
                   outputTokens := 1000000;
                   totalTokens := 2000000 + 1000000 |}
    /\ calculateCost None (Number 0) (Number 0) (Some "GLM-5")
       = Normal {| inputCost := 0; outputCost := 0; totalCost := 0;
                   inputTokens := 0; outputTokens := 0; totalTokens := 0 |}.
Proof.
  apply (calculateCost_priced None 2000000 1000000 (Some "GLM-5"));
    [compute_done | reflexivity | reflexivity].
Defined.

End PricingFacts.

(** * Further properties of the budget tracker *)

Module TrackerFacts.
Import Js CostCalculator TokenTracker BudgetTerms.

(** The three comparisons of one percentage, by the thresholds reached. *)
Lemma thresholds_cases (p : float) :
  (geb p 100 = true /\ geb p 80 = true /\ geb p 70 = true)
  \/ (geb p 100 = false /\ geb p 80 = true /\ geb p 70 = true)
  \/ (geb p 100 = false /\ geb p 80 = false /\ geb p 70 = true)
  \/ (geb p 100 = false /\ geb p 80 = false /\ geb p 70 = false).
Proof.
  pose proof (NumberFacts.geb_100_80 p) as H100.
  pose proof (NumberFacts.geb_80_70 p) as H80.
  destruct (geb p 100), (geb p 80), (geb p 70); auto 10;
    try (specialize (H100 eq_refl)); try (specialize (H80 eq_refl)); discriminate.
Qed.

(** X3: the three flags of [checkBudget] are nested, for every budget and
    every accumulated cost: an exceeded budget is also near its limit,
    and a budget near its limit also warns. *)
Theorem budget_flags_nested (this : Tracker) :
  (isExceeded (checkBudget this) = true -> isNearLimit (checkBudget this) = true)
  /\ (isNearLimit (checkBudget this) = true -> shouldWarn (checkBudget this) = true).
Proof.
  unfold checkBudget. simpl. split.
  - apply NumberFacts.geb_100_80.
  - apply NumberFacts.geb_80_70.
Qed.

(** X4: [getReport] and [checkBudget] agree on every tracker: the status
    is ["超出预算"] exactly when [isExceeded] is set, ["接近限制"] exactly
    when [isNearLimit] is set and [isExceeded] is not, ["需要关注"]
    exactly when [shouldWarn] is set and [isNearLimit] is not, and
    ["正常"] exactly when [shouldWarn] is not set; both report the same
    cost, remaining budget and usage. *)
Theorem report_agrees_with_flags (this : Tracker) :
  let r := getReport this in
  let b := checkBudget this in
  (status r = "超出预算" <-> isExceeded b = true)
  /\ (status r = "接近限制" <-> isNearLimit b = true /\ isExceeded b = false)
  /\ (status r = "需要关注" <-> shouldWarn b = true /\ isNearLimit b = false)
  /\ (status r = "正常" <-> shouldWarn b = false)
  /\ report_currentCost r = status_currentCost b
  /\ report_remaining r = status_remaining b
  /\ report_usage r = status_usage b.
Proof.
  unfold getReport, checkBudget. simpl.
  destruct (thresholds_cases (getCurrentCost this / budget this * 100))
    as [(-> & -> & ->) | [(-> & -> & ->) | [(-> & -> & ->) | (-> & -> & ->)]]];
    repeat split; intros;
    repeat match goal with H : _ /\ _ |- _ => destruct H end; try done.
Qed.

(** The percentage of a positive cost against a budget of zero is
    [Infinity]. *)
Lemma positive_cost_of_zero_budget (c : float) :
  PrimFloat.ltb 0 c = true -> Prim2SF ((c / 0) * 100)%float = S754_infinity false.
Proof.
  rewrite ltb_spec, mul_spec, div_spec.
  change (Prim2SF 0) with (S754_zero false).
  change (Prim2SF 100) with (S754_finite false 7036874417766400 (-46)).
  destruct (Prim2SF c) as [s|s| |s m e]; simpl; try done; by destruct s.
Qed.

(** The percentage of a zero cost against a budget of zero is NaN. *)
Lemma zero_cost_of_zero_budget (c : float) :
  PrimFloat.eqb c 0 = true -> Prim2SF ((c / 0) * 100)%float = S754_nan.
Proof.
  rewrite FloatAxioms.eqb_spec, mul_spec, div_spec.
  change (Prim2SF 0) with (S754_zero false).
  change (Prim2SF 100) with (S754_finite false 7036874417766400 (-46)).
  destruct (Prim2SF c) as [s|s| |s m e]; simpl; try done; by destruct s.
Qed.

(** X5: the constructor accepts a budget of 0.  Such a tracker raises no
    flag and reports ["正常"] while its cost is zero (the percentage is
    NaN), and raises all three flags and reports ["超出预算"] as soon as
    its cost is positive (the percentage is [Infinity]). *)
Theorem zero_budget_flags (u : Usage) :
  let this := {| budget := 0; usage := u |} in
  (PrimFloat.eqb (cost u) 0 = true ->
   shouldWarn (checkBudget this) = false
   /\ isNearLimit (checkBudget this) = false
   /\ isExceeded (checkBudget this) = false
   /\ status (getReport this) = "正常")
  /\ (PrimFloat.ltb 0 (cost u) = true ->
      shouldWarn (checkBudget this) = true
      /\ isNearLimit (checkBudget this) = true
      /\ isExceeded (checkBudget this) = true
      /\ status (getReport this) = "超出预算")
  /\ shouldWarn (checkBudget (new 0)) = false
  /\ status (getReport (new 0)) = "正常".
Proof.
  unfold getReport, checkBudget, getCurrentCost, geb. simpl.
  rewrite !leb_spec.
  change (Prim2SF 100) with (S754_finite false 7036874417766400 (-46)).
  change (Prim2SF 80) with (S754_finite false 5629499534213120 (-46)).
  change (Prim2SF 70) with (S754_finite false 4925812092436480 (-46)).
  split; [|split; [|split; reflexivity]].
  - intros Hzero. by rewrite (zero_cost_of_zero_budget _ Hzero).
  - intros Hpositive. by rewrite (positive_cost_of_zero_budget _ Hpositive).
Qed.

(** A sum, a quotient and a product with a NaN operand on the left. *)
Lemma nan_absorbs (c x : float) :
  isNaN c = true ->
  isNaN (c + x) = true /\ Prim2SF ((c / x) * 100)%float = S754_nan.
Proof.
  rewrite !NumberFacts.isNaN_Prim2SF, mul_spec, div_spec, add_spec.
  change (Prim2SF 100) with (S754_finite false 7036874417766400 (-46)).
  destruct (Prim2SF c); try discriminate. intros _.
  split; [reflexivity|]. simpl. reflexivity.
Qed.

(** X6: a NaN accumulated cost is never left again and silences the
    budget check: every later [addUsage] that returns leaves the cost
    NaN, [checkBudget] raises no flag and [getReport] says ["正常"],
    whatever the budget. *)
Theorem nan_cost_is_absorbing (env : option string) (this : Tracker) :
  isNaN (getCurrentCost this) = true ->
  shouldWarn (checkBudget this) = false
  /\ isNearLimit (checkBudget this) = false
  /\ isExceeded (checkBudget this) = false
  /\ status (getReport this) = "正常"
  /\ (forall i o model, isNaN (getCurrentCost (snd (addUsage env i o model this))) = true).
Proof.
  intros Hnan.
  assert (Hflags : forall k, geb (getCurrentCost this / budget this * 100) k = false).
  { intros k. unfold geb. rewrite leb_spec.
    destruct (nan_absorbs _ (budget this) Hnan) as [_ ->].
    by destruct (Prim2SF k). }
  unfold getReport, checkBudget. simpl. rewrite !Hflags.
  repeat split.
  intros i o model. unfold addUsage.
  destruct (calculateCost env i o _) as [d|e]; simpl; [|exact Hnan].
  exact (proj1 (nan_absorbs _ (totalCost d) Hnan)).
Qed.

Lemma nan_cost_is_absorbing_witness :
  shouldWarn (checkBudget (spent 1000 500 1500 nan)) = false
  /\ isNearLimit (checkBudget (spent 1000 500 1500 nan)) = false
  /\ isExceeded (checkBudget (spent 1000 500 1500 nan)) = false
  /\ status (getReport (spent 1000 500 1500 nan)) = "正常"
  /\ (forall i o model,
        isNaN (getCurrentCost (snd (addUsage None i o model (spent 1000 500 1500 nan)))) = true).
Proof.
  apply (nan_cost_is_absorbing None (spent 1000 500 1500 nan)). reflexivity.
Defined.

(** X7: after a sequence of [addUsage] calls each of the three token
    accumulators is its value before the calls plus the matching field of
    every record returned, added in the order of the calls; the budget is
    unchanged; a record is returned for every call when all counts are
    valid, and for no call after the first one that raises. *)
Theorem addUsages_accumulate (env : option string)
    (calls : list (Value * Value * option string)) (this : Tracker) :
  let records := fst (addUsages env calls this) in
  let final := snd (addUsages env calls this) in
  budget final = budget this
  /\ inputTokens (usage final)
     = fold_left (fun acc d => (acc + CostCalculator.inputTokens d)%float)
                 records (inputTokens (usage this))
  /\ outputTokens (usage final)
     = fold_left (fun acc d => (acc + CostCalculator.outputTokens d)%float)
                 records (outputTokens (usage this))
  /\ totalTokens (usage final)
     = fold_left (fun acc d => (acc + CostCalculator.totalTokens d)%float)
                 records (totalTokens (usage this))
  /\ length records <= length calls
  /\ (Forall (fun call => invalid (fst (fst call)) = false /\ invalid (snd (fst call)) = false)
             calls ->
      length records = length calls).
Proof.
  revert this. induction calls as [|[[i o] model] rest IH]; intros this.
  { simpl. repeat split; auto. }
  simpl. destruct (addUsage env i o model this) as [[d|e] after] eqn:Hcall.
  - specialize (IH after). destruct (addUsages env rest after) as [ds final].
    simpl in *. destruct IH as (Hbudget & Hin & Hout & Htotal & Hlen & Hall).
    destruct (BudgetFacts.addUsage_returns_increment _ _ _ _ _ _ _ Hcall)
      as (_ & Hb & Hi & Ho & Ht & _).
    rewrite Hbudget, Hin, Hout, Htotal, Hb, Hi, Ho, Ht.
    repeat split; try reflexivity; try lia.
    intros Hvalid. apply Forall_cons in Hvalid as [_ Hvalid]. by rewrite Hall.
  - assert (Hsame : after = this).
    { unfold addUsage in Hcall. destruct (calculateCost env i o _); congruence. }
    subst after. simpl. repeat split; try reflexivity; try lia.
    intros Hvalid. apply Forall_cons in Hvalid as [[Hi Ho] _]. simpl in Hi, Ho.
    pose proof (CostFacts.calculateCost_returns env i o
                  (Some (default (Config.DEFAULT_MODEL env) model)) Hi Ho) as Hreturns.
    unfold addUsage in Hcall.
    destruct (calculateCost env i o _); [discriminate | discriminate].
Qed.

End TrackerFacts.

(** * Further properties of the conversation history *)

Module ConversationFacts.
Import Js ConversationManager HistoryTerms ConversationTerms.

(** ** The estimate of a history of strings *)

Lemma textTokens_nonneg (v : Value) : (0 <= textTokens v)%Z.
Proof. destruct v; simpl; try lia. apply Z.div_pos; lia. Qed.

Lemma historyTokens_nonneg (msgs : list Message) : (0 <= historyTokens msgs)%Z.
Proof.
  induction msgs as [|msg rest IH]; simpl; [lia|].
  pose proof (textTokens_nonneg (content msg)). lia.
Qed.

Lemma historyTokens_app (older newer : list Message) :
  historyTokens (older ++ newer) = (historyTokens older + historyTokens newer)%Z.
Proof. induction older as [|msg rest IH]; simpl; [reflexivity | rewrite IH; lia]. Qed.

Lemma historyTokens_drop (n : nat) (msgs : list Message) :
  (historyTokens (drop n msgs) <= historyTokens msgs)%Z.
Proof.
  rewrite <- (take_drop n msgs) at 2. rewrite historyTokens_app.
  pose proof (historyTokens_nonneg (take n msgs)). lia.
Qed.

Lemma textOnly_estimable (msgs : list Message) : textOnly msgs -> estimable msgs.
Proof.
  intros Hmsgs. eapply Forall_impl; [exact Hmsgs|].
  intros msg. cbv beta.
  destruct (content msg); simpl; intros Htype; try reflexivity; discriminate Htype.
Qed.

Lemma addEstimates_text (t : Z) (msgs : list Message) :
  textOnly msgs ->
  addEstimates (Tokens t) msgs = Normal (Tokens (t + historyTokens msgs)).
Proof.
  intros Hmsgs. revert t.
  induction Hmsgs as [|msg rest Hmsg _ IH]; intros t; simpl.
  - f_equal. f_equal. lia.
  - destruct (content msg) as [| |b|x|s]; try discriminate. simpl.
    rewrite IH. f_equal. f_equal. lia.
Qed.

Lemma promptTokens_size (this : Manager) : promptTokens this = Tokens (promptSize this).
Proof. unfold promptTokens, promptSize. by destruct (truthy (systemPrompt this)). Qed.

Lemma total_text (this : Manager) :
  textOnly (messages this) ->
  _calculateTotalTokens this
  = Normal (Tokens (promptSize this + historyTokens (messages this))).
Proof.
  intros Hmsgs.
  rewrite HistoryFacts._calculateTotalTokens_unfold, promptTokens_size.
  by apply addEstimates_text.
Qed.

Lemma overLimit_text (this : Manager) :
  textOnly (messages this) ->
  overLimit this
  = (maxHistoryTokens this <? promptSize this + historyTokens (messages this))%Z.
Proof. intros Hmsgs. unfold overLimit. by rewrite total_text. Qed.

Lemma promptSize_nonneg (this : Manager) : (0 <= promptSize this)%Z.
Proof.
  unfold promptSize. destruct (truthy (systemPrompt this)); [|lia].
  apply textTokens_nonneg.
Qed.

(** X8: on a history of strings the estimated total is the sum of the
    estimates of the system prompt and of every stored message, each the
    number of UTF-16 code units divided by three and rounded up.
    Removing oldest messages never raises it, and it never falls below
    the part of the system prompt, which no removal reduces. *)
Theorem total_of_text_history (this : Manager) :
  textOnly (messages this) ->
  _calculateTotalTokens this
  = Normal (Tokens (promptSize this + historyTokens (messages this)))
  /\ (forall n, exists t,
        _calculateTotalTokens (dropOldest n this) = Normal (Tokens t)
        /\ (0 <= promptSize this <= t)%Z
        /\ (t <= promptSize this + historyTokens (messages this))%Z)
  /\ (forall s, exists e,
        _estimateTokens (Str s) = Normal (Tokens e)
        /\ (3 * e - 3 < Z.of_nat (string_length s) <= 3 * e)%Z).
Proof.
  intros Hmsgs. split; [by apply total_text|]. split.
  - intros n. eexists. split.
    + apply total_text. simpl. by apply Forall_drop.
    + change (promptSize (dropOldest n this)) with (promptSize this). simpl.
      pose proof (promptSize_nonneg this).
      pose proof (historyTokens_nonneg (drop n (messages this))).
      pose proof (historyTokens_drop n (messages this)). lia.
  - intros s. eexists. split; [reflexivity|].
    pose proof (Z.div_mod (Z.of_nat (string_length s) + 2) 3 ltac:(lia)).
    pose proof (Z.mod_pos_bound (Z.of_nat (string_length s) + 2) 3 ltac:(lia)).
    lia.
Qed.

Lemma total_of_text_history_witness :
  _calculateTotalTokens twoMessages
  = Normal (Tokens (promptSize twoMessages + historyTokens (messages twoMessages)))
  /\ promptSize twoMessages = 1%Z
  /\ historyTokens (messages twoMessages) = 4%Z.
Proof.
  destruct (total_of_text_history twoMessages) as (Htotal & _).
  - repeat constructor.
  - split; [exact Htotal|]. split; reflexivity.
Defined.

(** ** One call *)

Lemma add_unfold (call : Call) (this : Manager) :
  add call this
  = _trimHistoryIfNeeded
      (push (if byUser call then USER else ASSISTANT) (said call) (calledAt call) this).
Proof. unfold add. by destruct (byUser call). Qed.

(** X9: the first message of a history is always stored, however long it
    is and whatever the limit: on a manager without messages (a new one,
    or one after [clear()]) both mutators return and the history holds
    exactly the new message. *)
Theorem first_message_is_kept (content : Value) (now : Z) (this : Manager) :
  messages this = [] -> nullish content = false ->
  addUserMessage content now this = (Normal tt, push USER content now this)
  /\ addAssistantMessage content now this = (Normal tt, push ASSISTANT content now this)
  /\ messages (snd (addUserMessage content now (clear this)))
     = [ {| role := USER; content := content; timestamp := now |} ].
Proof.
  intros Hempty Hcontent.
  assert (Hone : forall r this0, messages this0 = [] ->
                   _trimHistoryIfNeeded (push r content now this0)
                   = (Normal tt, push r content now this0)).
  { intros r this0 Hempty0.
    destruct (HistoryFacts._trimHistoryIfNeeded_spec (push r content now this0))
      as (k & Hrun & _ & Hk & _).
    { apply HistoryFacts.estimable_push; [rewrite Hempty0; constructor | exact Hcontent]. }
    simpl in Hk. rewrite Hempty0 in Hk. simpl in Hk.
    assert (k = 0) by lia. subst k.
    change (2 * 0) with 0 in Hrun. by rewrite HistoryFacts.dropOldest_0 in Hrun. }
  unfold addUserMessage, addAssistantMessage.
  rewrite !Hone by done. done.
Qed.

Lemma first_message_is_kept_witness :
  addUserMessage (Str "a message of ten tokens, no less") 5 oneTokenLimit
  = (Normal tt, push USER (Str "a message of ten tokens, no less") 5 oneTokenLimit)
  /\ overLimit (push USER (Str "a message of ten tokens, no less") 5 oneTokenLimit) = true.
Proof.
  split; [|reflexivity].
  apply (first_message_is_kept (Str "a message of ten tokens, no less") 5 oneTokenLimit);
    reflexivity.
Defined.

Lemma drop_all_but_last (msgs : list Message) (msg : Message) (n : nat) :
  n <= S (length msgs) -> length msgs <= n ->
  drop n (msgs ++ [msg]) = if (n =? length msgs)%nat then [msg] else [].
Proof.
  intros Hupper Hlower. destruct (Nat.eqb_spec n (length msgs)) as [-> | Hne].
  - by rewrite drop_app_length.
  - apply drop_ge. rewrite length_app. simpl. lia.
Qed.

(** A message that alone exceeds the limit, in [_trimHistoryIfNeeded]. *)
Lemma trim_oversized (r : MessageRole) (said : Value) (now : Z) (this : Manager) :
  textOnly (messages this) ->
  typeof said = "string" ->
  (maxHistoryTokens this < promptSize this + textTokens said)%Z ->
  _trimHistoryIfNeeded (push r said now this)
  = (Normal tt,
     {| messages := if Nat.even (length (messages this))
                    then [ {| role := r; content := said; timestamp := now |} ] else [];
        systemPrompt := systemPrompt this;
        maxHistoryTokens := maxHistoryTokens this |}).
Proof.
  intros Hmsgs Hstring Hbig.
  set (msg := {| role := r; content := said; timestamp := now |}).
  set (before := push r said now this).
  assert (Htext : textOnly (messages before)).
  { simpl. apply Forall_app. split; [exact Hmsgs | by repeat constructor]. }
  destruct (HistoryFacts._trimHistoryIfNeeded_spec before) as (k & Hrun & _ & Hk & _ & Hstop).
  { by apply textOnly_estimable. }
  rewrite Hrun. f_equal.
  unfold before in Hk. cbn [messages push] in Hk. rewrite length_app in Hk. cbn [length] in Hk.
  assert (Hshort : length (messages this) <= 2 * k).
  { destruct (Nat.le_gt_cases (length (messages this)) (2 * k)) as [Hle | Hgt]; [exact Hle|].
    exfalso. destruct Hstop as [Hover | Hlen].
    - rewrite overLimit_text in Hover by (simpl; by apply Forall_drop).
      change (promptSize (dropOldest (2 * k) before)) with (promptSize this) in Hover.
      unfold before in Hover. cbn [dropOldest messages maxHistoryTokens push] in Hover.
      rewrite drop_app_le in Hover by lia.
      rewrite historyTokens_app in Hover. cbn [historyTokens content] in Hover.
      pose proof (historyTokens_nonneg (drop (2 * k) (messages this))).
      apply Z.ltb_ge in Hover. lia.
    - unfold before in Hlen. cbn [dropOldest messages push] in Hlen.
      rewrite length_drop, length_app in Hlen. cbn [length] in Hlen. lia. }
  unfold dropOldest, before. cbn [messages systemPrompt maxHistoryTokens push]. f_equal.
  rewrite drop_all_but_last by lia.
  destruct (Nat.eqb_spec (2 * k) (length (messages this))) as [Heq | Hne].
  - rewrite <- Heq, Nat.even_mul. reflexivity.
  - assert (Hodd : length (messages this) = 2 * k - 1) by lia.
    destruct k as [|k]; [lia|].
    replace (length (messages this)) with (S (2 * k)) by lia.
    by rewrite Nat.even_succ, <- Nat.negb_even, Nat.even_mul.
Qed.

(** X10: a string message whose estimate, with that of the system
    prompt, exceeds the limit drives every older message out of a history
    of strings, with both mutators; it is the only message left when an
    even number of messages was stored before the call, and not even it
    is left when that number was odd: the call returns and the history
    is empty. *)
Theorem oversized_message_empties_history (s : string) (now : Z) (this : Manager) :
  textOnly (messages this) ->
  (maxHistoryTokens this < promptSize this + textTokens (Str s))%Z ->
  addUserMessage (Str s) now this
  = (Normal tt,
     {| messages := if Nat.even (length (messages this))
                    then [ {| role := USER; content := Str s; timestamp := now |} ] else [];
        systemPrompt := systemPrompt this;
        maxHistoryTokens := maxHistoryTokens this |})
  /\ addAssistantMessage (Str s) now this
     = (Normal tt,
        {| messages := if Nat.even (length (messages this))
                       then [ {| role := ASSISTANT; content := Str s; timestamp := now |} ]
                       else [];
           systemPrompt := systemPrompt this;
           maxHistoryTokens := maxHistoryTokens this |})
  /\ (Nat.even (length (messages this)) = false ->
      getFullHistory (snd (addUserMessage (Str s) now this)) = []
      /\ getFullHistory (snd (addAssistantMessage (Str s) now this)) = []).
Proof.
  intros Hmsgs Hbig. unfold addUserMessage, addAssistantMessage.
  rewrite !trim_oversized by done.
  split; [reflexivity|]. split; [reflexivity|].
  intros Hodd. unfold getFullHistory. cbn [snd messages].
  by rewrite Hodd.
Qed.

Lemma oversized_message_empties_history_witness :
  addAssistantMessage (Str "hello") 2 longPrompt = (Normal tt, clear longPrompt)
  /\ getFullHistory (snd (addUserMessage (Str "hello") 2 longPrompt)) = [].
Proof.
  destruct (oversized_message_empties_history "hello" 2 longPrompt)
    as (_ & Hassistant & Hempty).
  - repeat constructor.
  - reflexivity.
  - split; [exact Hassistant|]. by apply Hempty.
Defined.

(** ** Sequences of calls *)

Lemma drop_extended (older : list Message) (msg : Message) (newer : list Message)
    (k1 k2 : nat) :
  2 * k1 <= length (older ++ [msg]) ->
  drop (2 * k2) (drop (2 * k1) (older ++ [msg]) ++ newer)
  = drop (2 * (k1 + k2)) (older ++ msg :: newer).
Proof.
  intros Hk1. rewrite <- drop_app_le by exact Hk1.
  rewrite drop_drop, <- app_assoc. simpl. f_equal. lia.
Qed.

(** After any sequence of calls with contents whose length can be read,
    the history is the appended sequence without an even number of
    oldest messages. *)
Lemma adds_spec (calls : list Call) :
  forall this : Manager,
    estimable (messages this) ->
    Forall (fun call => nullish (said call) = false) calls ->
    exists k,
      adds calls this = (Normal tt, dropOldest (2 * k) (extended calls this))
      /\ 2 * k <= length (messages this) + length calls.
Proof.
  induction calls as [|call rest IH]; intros this Hmsgs Hcalls.
  - exists 0. change (2 * 0) with 0. rewrite HistoryFacts.dropOldest_0.
    unfold extended. simpl. rewrite app_nil_r.
    split; [by destruct this | lia].
  - apply Forall_cons in Hcalls as [Hcall Hrest].
    set (r := if byUser call then USER else ASSISTANT).
    destruct (HistoryFacts._trimHistoryIfNeeded_spec (push r (said call) (calledAt call) this))
      as (k1 & Hrun & _ & Hk1 & _).
    { by apply HistoryFacts.estimable_push. }
    destruct (IH (dropOldest (2 * k1) (push r (said call) (calledAt call) this)))
      as (k2 & Hadds & Hk2).
    { by apply HistoryFacts.estimable_drop, HistoryFacts.estimable_push. }
    { exact Hrest. }
    assert (Hsame : dropOldest (2 * k2)
                      (extended rest (dropOldest (2 * k1) (push r (said call) (calledAt call) this)))
                    = dropOldest (2 * (k1 + k2)) (extended (call :: rest) this)).
    { unfold dropOldest, extended. cbn [messages systemPrompt maxHistoryTokens push].
      f_equal. cbn [map]. apply drop_extended. exact Hk1. }
    exists (k1 + k2). cbn [adds]. rewrite add_unfold. fold r.
    rewrite Hrun, Hadds, Hsame. split; [reflexivity|].
    cbn [dropOldest messages push] in Hk1, Hk2.
    rewrite length_drop, length_app in Hk2. rewrite length_app in Hk1.
    simpl in *. lia.
Qed.

(** X11: whatever the order of [addUserMessage] and [addAssistantMessage]
    calls and whatever history they start from, as long as no content is
    [null] or [undefined] every call returns and the history afterwards
    is the old history followed by the new messages in the order of the
    calls, without an even number of its oldest messages.  So roles,
    contents and times are stored as passed, the number of stored
    messages keeps the parity of the number ever appended, the system
    prompt and the limit are unchanged, and while any message is stored
    the last one is the most recently added. *)
Theorem any_calls_keep_a_suffix (calls : list Call) (this : Manager) :
  estimable (messages this) ->
  Forall (fun call => nullish (said call) = false) calls ->
  exists k final,
    adds calls this = (Normal tt, final)
    /\ messages final = drop (2 * k) (messages this ++ map messageOf calls)
    /\ 2 * k <= length (messages this) + length calls
    /\ systemPrompt final = systemPrompt this
    /\ maxHistoryTokens final = maxHistoryTokens this
    /\ Nat.even (length (messages final))
       = Nat.even (length (messages this) + length calls)
    /\ (calls <> [] -> messages final <> [] ->
        last (messages final) = last (map messageOf calls)).
Proof.
  intros Hmsgs Hcalls.
  destruct (adds_spec calls this Hmsgs Hcalls) as (k & Hadds & Hk).
  exists k, (dropOldest (2 * k) (extended calls this)).
  split; [exact Hadds|]. split; [reflexivity|]. split; [exact Hk|].
  split; [reflexivity|]. split; [reflexivity|]. split.
  - cbn [dropOldest extended messages]. rewrite length_drop, length_app, length_map.
    rewrite Nat.even_sub by exact Hk.
    rewrite Nat.even_mul. cbn [Nat.even orb].
    by destruct (Nat.even (length (messages this) + length calls)).
  - intros Hsome Hstored. cbn [dropOldest extended messages] in *.
    rewrite HistoryFacts.last_drop_nonempty by exact Hstored.
    rewrite last_app. destruct (last (map messageOf calls)) eqn:Hlast; [reflexivity|].
    apply last_None in Hlast. destruct calls; [contradiction | discriminate].
Qed.

Lemma any_calls_keep_a_suffix_witness :
  exists k final,
    adds threeCalls oneTokenLimit = (Normal tt, final)
    /\ messages final = drop (2 * k) (messages oneTokenLimit ++ map messageOf threeCalls)
    /\ 2 * k <= length (messages oneTokenLimit) + length threeCalls
    /\ systemPrompt final = systemPrompt oneTokenLimit
    /\ maxHistoryTokens final = maxHistoryTokens oneTokenLimit
    /\ Nat.even (length (messages final))
       = Nat.even (length (messages oneTokenLimit) + length threeCalls)
    /\ (threeCalls <> [] -> messages final <> [] ->
        last (messages final) = last (map messageOf threeCalls)).
Proof.
  apply (any_calls_keep_a_suffix threeCalls oneTokenLimit).
  - constructor.
  - repeat constructor.
Defined.

Lemma textOnly_messageOf (calls : list Call) :
  Forall (fun call => typeof (said call) = "string") calls ->
  textOnly (map messageOf calls).
Proof. induction 1; constructor; assumption. Qed.

(** X12: nothing is lost within the limit.  When the estimate of a
    history of strings together with all the messages a sequence of
    calls appends does not exceed [maxHistoryTokens], every call returns
    and no message is removed at any point of the sequence: the full
    history is the old one followed by the new messages, and the turn
    count is half their number, rounded down. *)
Theorem within_limit_nothing_removed (calls : list Call) (this : Manager) :
  textOnly (messages this) ->
  Forall (fun call => typeof (said call) = "string") calls ->
  overLimit (extended calls this) = false ->
  adds calls this = (Normal tt, extended calls this)
  /\ getFullHistory (snd (adds calls this)) = (messages this ++ map messageOf calls)%list
  /\ getTurnCount (snd (adds calls this)) = (length (messages this) + length calls) / 2.
Proof.
  intros Hmsgs Hcalls Hfits.
  assert (Hadds : adds calls this = (Normal tt, extended calls this)).
  { revert this Hmsgs Hfits.
    induction calls as [|call rest IH]; intros this Hmsgs Hfits.
    - unfold extended. simpl. rewrite app_nil_r. by destruct this.
    - apply Forall_cons in Hcalls as [Hcall Hrest].
      set (r := if byUser call then USER else ASSISTANT).
      set (next := push r (said call) (calledAt call) this).
      assert (Htext : textOnly (messages next)).
      { simpl. apply Forall_app. split; [exact Hmsgs | by repeat constructor]. }
      assert (Hsame : extended rest next = extended (call :: rest) this).
      { unfold extended, next. cbn [messages systemPrompt maxHistoryTokens push map].
        by rewrite <- app_assoc. }
      assert (Hstep : add call this = (Normal tt, next)).
      { rewrite add_unfold. fold r. fold next. unfold _trimHistoryIfNeeded.
        rewrite (total_text next Htext).
        rewrite overLimit_text in Hfits.
        2:{ cbn [extended messages]. apply Forall_app. split; [exact Hmsgs|].
            apply textOnly_messageOf. by constructor. }
        apply Z.ltb_ge in Hfits.
        change (promptSize (extended (call :: rest) this)) with (promptSize this) in Hfits.
        cbn [extended messages maxHistoryTokens map] in Hfits.
        change (promptSize next) with (promptSize this).
        change (maxHistoryTokens next) with (maxHistoryTokens this).
        change (messages next) with (messages this ++ [messageOf call])%list.
        rewrite historyTokens_app in Hfits |- *. cbn [historyTokens] in Hfits |- *.
        pose proof (historyTokens_nonneg (map messageOf rest)).
        replace (leb _ _) with true; [reflexivity|].
        symmetry. unfold leb. apply Z.leb_le. lia. }
      cbn [adds]. rewrite Hstep, <- Hsame.
      apply (IH Hrest next Htext). by rewrite Hsame. }
  rewrite Hadds. split; [reflexivity|]. split; [reflexivity|].
  unfold getTurnCount. simpl. by rewrite length_app, length_map.
Qed.

Lemma within_limit_nothing_removed_witness :
  adds (take 2 threeCalls) roomy = (Normal tt, extended (take 2 threeCalls) roomy)
  /\ getFullHistory (snd (adds (take 2 threeCalls) roomy))
     = (messages roomy ++ map messageOf (take 2 threeCalls))%list
  /\ getTurnCount (snd (adds (take 2 threeCalls) roomy))
     = (length (messages roomy) + length (take 2 threeCalls)) / 2.
Proof.
  apply (within_limit_nothing_removed (take 2 threeCalls) roomy).
  - repeat constructor.
  - repeat constructor.
  - reflexivity.
Defined.

(** ** Reading the history *)

(** X13: for every manager reached through the public interface whose
    system prompt is not empty, [getMessages()] is one entry of the
    system role holding the prompt, followed by one entry for each stored
    message in order, with its role and content and without its
    timestamp; none of those has the system role. *)
Theorem system_entry_is_first (this : Manager) :
  reachable this ->
  truthy (systemPrompt this) = true ->
  exists rest,
    getMessages this = systemEntry this :: rest
    /\ Forall (fun entry => formatted_role entry <> SYSTEM) rest
    /\ map formatted_role rest = map role (getFullHistory this)
    /\ map formatted_content rest = map content (getFullHistory this).
Proof.
  intros Hreach Hprompt.
  pose proof (HistoryFacts.reachable_noSystemMessage this Hreach) as Hroles.
  unfold getMessages. rewrite Hprompt. eexists. split; [reflexivity|].
  unfold getFullHistory. rewrite !map_map. simpl.
  split; [|by split].
  apply Forall_fmap. exact Hroles.
Qed.

Lemma system_entry_is_first_witness :
  exists rest,
    getMessages (snd (add {| byUser := true; said := Str "a"; calledAt := 4 |}
                        (new {| options_systemPrompt := Some "be brief";
                                options_maxHistoryTokens := None |})))
    = {| formatted_role := SYSTEM; formatted_content := Str "be brief" |} :: rest
    /\ Forall (fun entry => formatted_role entry <> SYSTEM) rest.
Proof.
  destruct (system_entry_is_first
              (snd (addUserMessage (Str "a") 4
                      (new {| options_systemPrompt := Some "be brief";
                              options_maxHistoryTokens := None |}))))
    as (rest & Hentries & Hroles & _).
  - repeat constructor.
  - reflexivity.
  - exists rest. split; [exact Hentries | exact Hroles].
Defined.

(** X14: [exportToText()] returns the sentinel ["(空对话)"] exactly when no
    message is stored and the system prompt is empty; any other history
    is rendered as text that begins with a section heading. *)
Theorem exportToText_sentinel_iff (toLocaleString : Z -> string)
    (numberToString : float -> string) (this : Manager) :
  exportToText toLocaleString numberToString this = "(空对话)"
  <-> messages this = [] /\ systemPrompt this = "".
Proof.
  split.
  - unfold exportToText.
    destruct (messages this) as [|msg rest] eqn:Hmsgs;
      destruct (systemPrompt this) as [|c prompt] eqn:Hprompt; simpl; done.
  - intros [Hmsgs Hprompt]. by apply HistoryFacts.exportToText_empty.
Qed.

End ConversationFacts.

(** * Properties of the configuration check *)

Module ConfigFacts.
Import Js ConfigStatics.

Lemma validate_true_or_throws (config : Statics) : validate config <> Normal false.
Proof.
  unfold validate.
  destruct (negb (truthy (API_KEY config))); [discriminate|].
  destruct (isNaN (DAILY_BUDGET config) || PrimFloat.leb (DAILY_BUDGET config) 0);
    discriminate.
Qed.

(** X15: [Config.validate()] returns [true], and never [false], exactly
    when one of the two keys is a non-empty string and the daily budget
    is a number above 0 ([Infinity] included).  Otherwise it throws: the
    missing key is reported whatever the budget, the budget only when a
    key is present.  [API_KEY] is the auth token when that is set and
    not empty, otherwise the API key. *)
Theorem validate_accepts (config : Statics) :
  (validate config = Normal true
   <-> (truthy (ANTHROPIC_AUTH_TOKEN config) = true
        \/ truthy (ANTHROPIC_API_KEY config) = true)
       /\ PrimFloat.ltb 0 (DAILY_BUDGET config) = true)
  /\ validate config <> Normal false
  /\ (truthy (ANTHROPIC_AUTH_TOKEN config) = false ->
      truthy (ANTHROPIC_API_KEY config) = false ->
      validate config
      = Throw (GenericError
                 "未找到API Key！请检查.env文件中的 ANTHROPIC_AUTH_TOKEN 或 ANTHROPIC_API_KEY"))
  /\ (truthy (API_KEY config) = true ->
      PrimFloat.ltb 0 (DAILY_BUDGET config) = false ->
      validate config = Throw (GenericError "每日预算必须大于0"))
  /\ (truthy (ANTHROPIC_AUTH_TOKEN config) = true ->
      API_KEY config = ANTHROPIC_AUTH_TOKEN config)
  /\ (truthy (ANTHROPIC_AUTH_TOKEN config) = false ->
      API_KEY config = ANTHROPIC_API_KEY config).
Proof.
  unfold validate, API_KEY, or.
  pose proof (NumberFacts.positive_spec (DAILY_BUDGET config)) as Hbudget.
  destruct (truthy (ANTHROPIC_AUTH_TOKEN config)) eqn:Htoken;
    [rewrite Htoken | destruct (truthy (ANTHROPIC_API_KEY config)) eqn:Hkey];
    simpl;
    destruct (isNaN (DAILY_BUDGET config) || PrimFloat.leb (DAILY_BUDGET config) 0);
    destruct (PrimFloat.ltb 0 (DAILY_BUDGET config));
    try (by destruct Hbudget as [Hto Hfrom]; (specialize (Hto eq_refl) || specialize (Hfrom eq_refl)));
    repeat split; try done; intros; try done; intuition discriminate.
Qed.

End ConfigFacts.

(** * Properties of the API client *)

Module ClientFacts.
Import ClaudeClient RequestTerms.

Lemma stringOr_truthy (x : option string) (d : string) :
  Js.truthy d = true -> Js.truthy (stringOr x d) = true.
Proof.
  intros Hd. unfold stringOr. destruct x as [s|]; [|exact Hd].
  by destruct (Js.truthy s) eqn:Hs.
Qed.

(** X16: the constructor throws exactly the error of [Config.validate()].
    A client it returns has a non-empty API key (the one of the options
    when that is given and not empty, otherwise [Config.API_KEY]), a
    non-empty model name and a number of retries other than 0, which is
    3 when the options give none. *)
Theorem constructed_client (config : ConfigStatics.Statics) (options : ClientOptions) :
  match ClaudeClient.new config options with
  | Js.Throw e => ConfigStatics.validate config = Js.Throw e
  | Js.Normal client =>
      ConfigStatics.validate config = Js.Normal true
      /\ ConfigStatics.truthy (apiKey (clientConfig client)) = true
      /\ Js.truthy (model client) = true
      /\ maxRetries client <> 0%Z
      /\ (client_maxRetries options = None -> maxRetries client = 3%Z)
      /\ (ConfigStatics.truthy (client_apiKey options) = true ->
          apiKey (clientConfig client) = client_apiKey options)
  end.
Proof.
  unfold ClaudeClient.new.
  destruct (ConfigStatics.validate config) as [[|]|e] eqn:Hvalid; simpl; try reflexivity.
  - split; [reflexivity|].
    assert (Hkey : ConfigStatics.truthy (ConfigStatics.API_KEY config) = true).
    { unfold ConfigStatics.validate in Hvalid.
      destruct (ConfigStatics.truthy (ConfigStatics.API_KEY config)); [reflexivity|].
      discriminate. }
    split; [|split; [|split; [|split]]].
    + unfold ConfigStatics.or.
      by destruct (ConfigStatics.truthy (client_apiKey options)) eqn:Hoption.
    + apply stringOr_truthy. unfold ConfigStatics.DEFAULT_MODEL, Config.DEFAULT_MODEL.
      destruct (ConfigStatics.env_DEFAULT_MODEL config) as [m|]; [|reflexivity].
      by destruct (Js.truthy m) eqn:Hm.
    + unfold integerOr. destruct (client_maxRetries options) as [n|]; [|lia].
      destruct (Z.eqb_spec n 0); lia.
    + by intros ->.
    + unfold ConfigStatics.or. by intros ->.
  - exfalso. by apply (ConfigFacts.validate_true_or_throws config).
Qed.

(** ** Error handling *)

(** The wait after a rate limit: up to attempt 1014 the product
    [Math.pow(2, attempt) * 1000] is the integer [2^attempt * 1000],
    from attempt 1015 on it is [Infinity]. *)
Lemma wait_exact (attempt : Z) :
  (0 <= attempt <= 1014)%Z ->
  integerOf (pow2 attempt * 1000) = Some (2 ^ attempt * 1000)%Z.
Proof.
  intros Hattempt.
  assert (Hall : forallb isExactWait (map Z.of_nat (seq 0 1015)) = true) by (by vm_compute).
  rewrite forallb_forall in Hall. specialize (Hall attempt).
  unfold isExactWait in Hall.
  destruct (integerOf (pow2 attempt * 1000)) as [v|].
  - f_equal. apply Z.eqb_eq, Hall.
    apply in_map_iff. exists (Z.to_nat attempt). split; [lia|]. apply in_seq. lia.
  - exfalso. enough (false = true) by discriminate. apply Hall.
    apply in_map_iff. exists (Z.to_nat attempt). split; [lia|]. apply in_seq. lia.
Qed.

Lemma wait_overflow (attempt : Z) :
  (1015 <= attempt)%Z -> (pow2 attempt * 1000)%float = infinity.
Proof.
  intros Hattempt.
  assert (Hbounded : forall a, (1015 <= a <= 2098)%Z -> (pow2 a * 1000)%float = infinity).
  { intros a Ha.
    assert (Hall : forallb isInfiniteWait (map Z.of_nat (seq 1015 1084)) = true)
      by (by vm_compute).
    rewrite forallb_forall in Hall. specialize (Hall a).
    unfold isInfiniteWait in Hall. apply Prim2SF_inj.
    change (Prim2SF infinity) with (S754_infinity false).
    destruct (Prim2SF (pow2 a * 1000)) as [|[|]| |];
      try reflexivity; exfalso; enough (false = true) by discriminate; apply Hall;
      apply in_map_iff; exists (Z.to_nat a); (split; [lia|]); apply in_seq; lia. }
  destruct (Z.le_gt_cases attempt 2098) as [Hle | Hgt]; [by apply Hbounded|].
  rewrite <- (Hbounded 2098%Z) by lia. f_equal.
  unfold pow2, FloatOps.Z.ldexp.
  change (FloatOps.emax - SpecFloat.emin FloatOps.prec FloatOps.emax)%Z with 2098%Z.
  by rewrite !Z.min_r by lia.
Qed.

(** When [_handleError] asks for a retry, and what it throws. *)
Lemma _handleError_retry (this : Client) (error : ApiFailure) (attempt : Z)
    (waitTime : float) :
  _handleError this error attempt = RetryAfter waitTime ->
  (attempt < maxRetries this)%Z
  /\ retryable error = true
  /\ waitTime = (if statusIs error 429 then pow2 attempt * 1000 else 2000)%float.
Proof.
  unfold _handleError, retryable, isNetworkError.
  destruct (statusIs error 429); simpl.
  - destruct (Z.ltb_spec attempt (maxRetries this)); [|discriminate]. by intros [= <-].
  - destruct (statusIs error 401); simpl; [discriminate|].
    destruct (statusIs error 400); simpl; [discriminate|].
    destruct (codeIs error "ECONNREFUSED" || codeIs error "ETIMEDOUT"
              || codeIs error "ENOTFOUND"); [|discriminate].
    destruct (Z.ltb_spec attempt (maxRetries this)); [|discriminate]. by intros [= <-].
Qed.

Lemma _handleError_raise (this : Client) (error : ApiFailure) (attempt : Z)
    (e : ClaudeAPIError) :
  _handleError this error attempt = Raise e -> error_code e ∈ errorCodes.
Proof.
  unfold _handleError.
  repeat match goal with |- context [if ?c then _ else _] => destruct c end;
    try discriminate; intros [= <-]; set_solver.
Qed.

(** X17: how [_handleError] decides, at every integer attempt number.  It
    asks for a retry only for a rate limit (status 429) or for a network
    error whose status is none of 429, 401 and 400, and only while the
    attempt number is below [maxRetries]; the wait is the binary64
    number [Math.pow(2, attempt) * 1000] after a rate limit and 2000
    after a network error.  Otherwise it throws an error whose code is
    one of five and which carries the message of the original error:
    ["RATE_LIMIT"] or ["NETWORK_ERROR"] when the attempts are used up,
    and for errors that are never retried ["INVALID_API_KEY"],
    ["INVALID_REQUEST"] or ["UNKNOWN_ERROR"], the status deciding before
    the code.  The wait after a rate limit is the integer
    [2^attempt * 1000] of milliseconds at the attempts from 0 to 1014,
    [Infinity] from attempt 1015 on, and 500 at attempt -1. *)
Theorem handled_errors (this : Client) (error : ApiFailure) (attempt : Z) :
  match _handleError this error attempt with
  | RetryAfter waitTime =>
      (attempt < maxRetries this)%Z
      /\ retryable error = true
      /\ waitTime = (if statusIs error 429 then pow2 attempt * 1000 else 2000)%float
  | Raise e =>
      error_code e ∈ errorCodes
      /\ originalError e = message error
      /\ Js.truthy (error_message e) = true
      /\ (if retryable error
          then (maxRetries this <= attempt)%Z
               /\ error_code e = (if statusIs error 429 then "RATE_LIMIT" else "NETWORK_ERROR")
          else error_code e
               = (if statusIs error 401 then "INVALID_API_KEY"
                  else if statusIs error 400 then "INVALID_REQUEST"
                  else "UNKNOWN_ERROR"))
  end
  /\ ((0 <= attempt <= 1014)%Z ->
      integerOf (pow2 attempt * 1000) = Some (2 ^ attempt * 1000)%Z)
  /\ ((1015 <= attempt)%Z -> (pow2 attempt * 1000)%float = infinity)
  /\ (pow2 (-1) * 1000)%float = 500%float
  /\ integerOf 2000 = Some 2000%Z.
Proof.
  split; [|split; [apply wait_exact | split; [apply wait_overflow | by split]]].
  unfold _handleError, retryable, isNetworkError.
  destruct (statusIs error 429) eqn:H429; simpl.
  - destruct (Z.ltb_spec attempt (maxRetries this)); simpl.
    + by repeat split.
    + repeat split; [set_solver | lia].
  - destruct (statusIs error 401) eqn:H401; simpl; [repeat split; set_solver|].
    destruct (statusIs error 400) eqn:H400; simpl; [repeat split; set_solver|].
    destruct (codeIs error "ECONNREFUSED" || codeIs error "ETIMEDOUT"
              || codeIs error "ENOTFOUND") eqn:Hcode; simpl.
    + destruct (Z.ltb_spec attempt (maxRetries this)); simpl.
      * by repeat split.
      * repeat split; [set_solver | lia].
    + repeat split; [set_solver|].
      by apply stringOr_truthy.
Qed.

(** ** Requests *)

Lemma _retryableRequest_unfold (this : Client) (create : Z -> Outcome) (params : ApiParams)
    (attempt : Z) :
  _retryableRequest this create params attempt
  = match attemptOnce this (create attempt) attempt with
    | inl settled => (settled, [Create params attempt])
    | inr waitTime =>
        after params attempt waitTime (_retryableRequest this create params (attempt + 1))
    end.
Proof.
  funelim (_retryableRequest this create params attempt);
    match goal with Hc : attemptOnce _ _ _ = _ |- _ => rewrite Hc end; reflexivity.
Qed.

Lemma attemptOnce_retry (this : Client) (outcome : Outcome) (attempt : Z)
    (waitTime : float) :
  attemptOnce this outcome attempt = inr waitTime -> (attempt < maxRetries this)%Z.
Proof.
  unfold attemptOnce. destruct (tryRequest outcome) as [response|error]; [discriminate|].
  unfold _handleError.
  destruct (Z.ltb_spec attempt (maxRetries this)); [done|].
  repeat match goal with |- context [if ?c then _ else _] => destruct c end; discriminate.
Qed.

(** What a request does: attempts at consecutive numbers, each but the
    last followed by its wait, until one settles. *)
Lemma _retryableRequest_spec (this : Client) (create : Z -> Outcome) (params : ApiParams)
    (attempt : Z) :
  exists waits settled,
    _retryableRequest this create params attempt = (settled, trace params attempt waits)
    /\ attemptOnce this (create (attempt + Z.of_nat (length waits))%Z)
                   (attempt + Z.of_nat (length waits)) = inl settled
    /\ (forall j waitTime,
          waits !! j = Some waitTime ->
          attemptOnce this (create (attempt + Z.of_nat j)%Z) (attempt + Z.of_nat j)
          = inr waitTime)
    /\ length waits <= Z.to_nat (maxRetries this - attempt).
Proof.
  remember (Z.to_nat (maxRetries this - attempt)) as n eqn:Hn.
  revert attempt Hn. induction n as [n IH] using lt_wf_ind. intros attempt Hn.
  rewrite _retryableRequest_unfold.
  destruct (attemptOnce this (create attempt) attempt) as [settled|waitTime] eqn:Hattempt.
  - exists [], settled. simpl. rewrite Z.add_0_r.
    split; [reflexivity|]. split; [exact Hattempt|]. split; [|lia].
    intros j waitTime Hj. discriminate.
  - pose proof (attemptOnce_retry _ _ _ _ Hattempt) as Hless.
    destruct (IH (Z.to_nat (maxRetries this - (attempt + 1)))) with (attempt := (attempt + 1)%Z)
      as (waits & settled & Hrun & Hlast & Hwaits & Hlen); [lia | reflexivity |].
    exists (waitTime :: waits), settled. rewrite Hrun. unfold after. cbn [fst snd length trace].
    split; [reflexivity|].
    replace (attempt + Z.of_nat (S (length waits)))%Z
      with (attempt + 1 + Z.of_nat (length waits))%Z by lia.
    split; [exact Hlast|]. split; [|lia].
    intros [|j] w Hj.
    + injection Hj as <-. by rewrite Z.add_0_r.
    + replace (attempt + Z.of_nat (S j))%Z with (attempt + 1 + Z.of_nat j)%Z by lia.
      by apply Hwaits.
Qed.

Lemma attemptOnce_rejected (this : Client) (outcome : Outcome) (attempt : Z)
    (e : ClaudeAPIError) :
  attemptOnce this outcome attempt = inl (Rejected e) -> error_code e ∈ errorCodes.
Proof.
  unfold attemptOnce. destruct (tryRequest outcome) as [response|error]; [discriminate|].
  destruct (_handleError this error attempt) as [waitTime|e'] eqn:Hhandled; [discriminate|].
  intros [= <-]. by apply _handleError_raise in Hhandled.
Qed.

Lemma attemptOnce_wait (this : Client) (outcome : Outcome) (attempt : Z)
    (waitTime : float) :
  attemptOnce this outcome attempt = inr waitTime ->
  waitTime = 2000%float \/ waitTime = (pow2 attempt * 1000)%float.
Proof.
  unfold attemptOnce. destruct (tryRequest outcome) as [response|error]; [discriminate|].
  destruct (_handleError this error attempt) as [w|e'] eqn:Hhandled; [|discriminate].
  intros [= <-]. apply _handleError_retry in Hhandled as (_ & _ & ->).
  destruct (statusIs error 429); auto.
Qed.

Lemma attemptOnce_fulfilled (this : Client) (outcome : Outcome) (attempt : Z)
    (response : Response) :
  attemptOnce this outcome attempt = inl (Fulfilled response) ->
  exists answer others,
    outcome = Resolves answer
    /\ content answer = text response :: others
    /\ usage response
       = {| inputTokens := input_tokens answer;
            outputTokens := output_tokens answer;
            totalTokens := input_tokens answer + output_tokens answer |}
    /\ model_used response = response_model answer
    /\ id response = response_id answer.
Proof.
  unfold attemptOnce, tryRequest.
  destruct outcome as [answer|error].
  - destruct (content answer) as [|first others] eqn:Hcontent.
    + destruct (_handleError this noTextBlock attempt); discriminate.
    + intros [= <-]. by exists answer, others.
  - destruct (_handleError this error attempt); discriminate.
Qed.

Lemma sendMessage_trace (this : Client) (messages : list ConversationManager.Formatted)
    (options : SendOptions) (create : ApiParams -> Z -> Outcome) :
  exists waits settled,
    sendMessage this messages options create
    = (settled, trace (requestParams this messages options) 1 waits)
    /\ attemptOnce this
         (create (requestParams this messages options) (1 + Z.of_nat (length waits))%Z)
         (1 + Z.of_nat (length waits)) = inl settled.
Proof.
  destruct (_retryableRequest_spec this (create (requestParams this messages options))
              (requestParams this messages options) 1)
    as (waits & settled & Hrun & Hlast & _).
  by exists waits, settled.
Qed.

(** X18: every request of a client whose [maxRetries] is an integer
    up to 2^53 settles after at most [maxRetries] calls of the SDK, or
    after one call when [maxRetries] is below 1.  The calls are made
    with the same parameters at consecutive attempt numbers from 1, and
    between two calls the request sleeps once, for 2000 ms or, after a
    rate limit, for the binary64 number [Math.pow(2, attempt) * 1000]:
    the integer [2^attempt * 1000] up to attempt 1014.  Every call but
    the last failed with an error that is retried; the last call
    decides: the request is fulfilled with the first text block, the two
    usage counts and their sum, the model and the id of the response of
    that call, or rejected with an error whose code is one of five. *)
Theorem request_settles (this : Client) (messages : list ConversationManager.Formatted)
    (options : SendOptions) (create : ApiParams -> Z -> Outcome) :
  (maxRetries this <= maxAttempts)%Z ->
  let params := requestParams this messages options in
  exists waits settled,
    sendMessage this messages options create = (settled, trace params 1 waits)
    /\ (Z.of_nat (length waits) + 1 <= Z.max 1 (maxRetries this))%Z
    /\ (forall j waitTime,
          waits !! j = Some waitTime ->
          (waitTime = 2000%float
           \/ waitTime = (pow2 (1 + Z.of_nat j) * 1000)%float
              /\ ((Z.of_nat j <= 1013)%Z ->
                  integerOf waitTime = Some (2 ^ (1 + Z.of_nat j) * 1000)%Z))
          /\ exists error,
               tryRequest (create params (1 + Z.of_nat j)%Z) = inr error
               /\ retryable error = true)
    /\ match settled with
       | Fulfilled response =>
           exists answer others,
             create params (1 + Z.of_nat (length waits))%Z = Resolves answer
             /\ content answer = text response :: others
             /\ usage response
                = {| inputTokens := input_tokens answer;
                     outputTokens := output_tokens answer;
                     totalTokens := input_tokens answer + output_tokens answer |}
             /\ model_used response = response_model answer
             /\ id response = response_id answer
       | Rejected e => error_code e ∈ errorCodes
       end.
Proof.
  intros _ params.
  destruct (_retryableRequest_spec this (create params) params 1)
    as (waits & settled & Hrun & Hlast & Hwaits & Hlen).
  exists waits, settled. split; [exact Hrun|]. split; [lia|]. split.
  - intros j waitTime Hj. specialize (Hwaits j waitTime Hj). split.
    + apply attemptOnce_wait in Hwaits as [-> | ->]; [by left | right].
      split; [reflexivity|]. intros Hj'. apply wait_exact. lia.
    + unfold attemptOnce in Hwaits.
      destruct (tryRequest (create params (1 + Z.of_nat j)%Z)) as [response|error];
        [discriminate|].
      exists error. split; [reflexivity|].
      destruct (_handleError this error (1 + Z.of_nat j)) eqn:Hhandled; [|discriminate].
      apply _handleError_retry in Hhandled. apply Hhandled.
  - destruct settled as [response|e].
    + by apply attemptOnce_fulfilled in Hlast.
    + by apply attemptOnce_rejected in Hlast.
Qed.

Lemma request_settles_witness :
  exists waits settled,
    sendMessage defaultClient [] FeatureTerms.noOptions busy
    = (settled, trace (requestParams defaultClient [] FeatureTerms.noOptions) 1 waits)
    /\ (Z.of_nat (length waits) + 1 <= 3)%Z.
Proof.
  destruct (request_settles defaultClient [] FeatureTerms.noOptions busy)
    as (waits & settled & Hrun & Hcalls & _).
  - by vm_compute.
  - exists waits, settled. split; [exact Hrun | exact Hcalls].
Defined.

Lemma length_backoff (attempt : Z) (n : nat) : length (backoff attempt n) = n.
Proof. revert attempt. induction n as [|n IH]; intros attempt; simpl; auto. Qed.

Lemma last_backoff (attempt : Z) (n : nat) :
  last (backoff attempt (S n)) = Some (pow2 (attempt + Z.of_nat n) * 1000)%float.
Proof.
  revert attempt. induction n as [|n IH]; intros attempt.
  - simpl. by rewrite Z.add_0_r.
  - change (backoff attempt (S (S n)))
      with ((pow2 attempt * 1000)%float :: backoff (attempt + 1) (S n)).
    rewrite last_cons, IH. do 3 f_equal. lia.
Qed.

Lemma backoff_milliseconds (attempt : Z) (n : nat) :
  (0 <= attempt)%Z -> (attempt + Z.of_nat n <= 1015)%Z ->
  map integerOf (backoff attempt n) = map Some (milliseconds attempt n).
Proof.
  revert attempt. induction n as [|n IH]; intros attempt Hlow Hhigh; [reflexivity|].
  cbn [backoff milliseconds map]. rewrite wait_exact by lia. f_equal. apply IH; lia.
Qed.

Lemma slept_milliseconds (attempt : Z) (n : nat) :
  (0 <= attempt)%Z ->
  slept (milliseconds attempt n) = ((2 ^ (attempt + Z.of_nat n) - 2 ^ attempt) * 1000)%Z.
Proof.
  revert attempt. induction n as [|n IH]; intros attempt Hattempt.
  - simpl. rewrite Z.add_0_r. lia.
  - cbn [milliseconds slept fold_right]. fold (slept (milliseconds (attempt + 1) n)).
    rewrite IH by lia.
    replace (attempt + 1 + Z.of_nat n)%Z with (attempt + Z.of_nat (S n))%Z by lia.
    rewrite (Z.pow_add_r 2 attempt 1) by lia. lia.
Qed.

Lemma rate_limited_request (this : Client) (create : Z -> Outcome) (params : ApiParams)
    (n : nat) :
  (forall attempt, exists error,
      create attempt = Rejects error /\ statusIs error 429 = true) ->
  forall attempt,
    (maxRetries this - attempt = Z.of_nat n)%Z ->
    exists e,
      _retryableRequest this create params attempt
      = (Rejected e, trace params attempt (backoff attempt n))
      /\ error_code e = "RATE_LIMIT"
      /\ error_message e = "API请求过于频繁，请稍后再试".
Proof.
  intros Hlimited. induction n as [|n IH]; intros attempt Hleft;
    rewrite _retryableRequest_unfold; unfold attemptOnce;
    destruct (Hlimited attempt) as (error & -> & H429); simpl;
    unfold _handleError; rewrite H429.
  - destruct (Z.ltb_spec attempt (maxRetries this)); [lia|]. eexists. by repeat split.
  - destruct (Z.ltb_spec attempt (maxRetries this)); [|lia].
    destruct (IH (attempt + 1)%Z) as (e & -> & Hcode & Hmessage); [lia|].
    exists e. by repeat split.
Qed.

(** X19: while the SDK is rate limited at every attempt, a request of a
    client whose [maxRetries] is an integer from 1 to 2^53 makes exactly
    [maxRetries] calls, sleeps [Math.pow(2, attempt) * 1000] ms after
    each call but the last, and is then rejected with the code
    ["RATE_LIMIT"].  Up to a [maxRetries] of 1015 the waits are the
    integers 2000, 4000 and so on, each twice the one before,
    [2^maxRetries * 1000 - 2000] ms in all; from 1016 on the last wait
    is [Infinity].  With the default of 3: three calls and six
    seconds. *)
Theorem persistent_rate_limit (this : Client) (messages : list ConversationManager.Formatted)
    (options : SendOptions) (create : ApiParams -> Z -> Outcome) :
  alwaysRateLimited create ->
  (1 <= maxRetries this <= maxAttempts)%Z ->
  let params := requestParams this messages options in
  let waits := backoff 1 (Z.to_nat (maxRetries this - 1)) in
  let integers := milliseconds 1 (Z.to_nat (maxRetries this - 1)) in
  (exists e,
     sendMessage this messages options create = (Rejected e, trace params 1 waits)
     /\ error_code e = "RATE_LIMIT"
     /\ error_message e = "API请求过于频繁，请稍后再试")
  /\ (Z.of_nat (length waits) + 1 = maxRetries this)%Z
  /\ ((maxRetries this <= 1015)%Z ->
      map integerOf waits = map Some integers
      /\ slept integers = ((2 ^ maxRetries this - 2) * 1000)%Z)
  /\ ((1016 <= maxRetries this)%Z -> last waits = Some infinity)
  /\ (maxRetries this = 3%Z -> waits = [2000; 4000]%float).
Proof.
  intros Hlimited Hretries params waits integers. split; [|split; [|split; [|split]]].
  - apply rate_limited_request; [|lia].
    intros attempt. apply Hlimited.
  - unfold waits. rewrite length_backoff. lia.
  - intros Hbound. unfold waits, integers. split.
    + apply backoff_milliseconds; lia.
    + rewrite slept_milliseconds by lia.
      replace (1 + Z.of_nat (Z.to_nat (maxRetries this - 1)))%Z with (maxRetries this) by lia.
      reflexivity.
  - intros Hmany. unfold waits.
    destruct (Z.to_nat (maxRetries this - 1)) as [|n] eqn:Hn; [lia|].
    rewrite last_backoff. f_equal. apply wait_overflow. lia.
  - unfold waits. by intros ->.
Qed.

Lemma persistent_rate_limit_witness :
  exists e,
    sendMessage defaultClient [] FeatureTerms.noOptions busy
    = (Rejected e,
       trace (requestParams defaultClient [] FeatureTerms.noOptions) 1 [2000; 4000]%float)
    /\ error_code e = "RATE_LIMIT".
Proof.
  destruct (persistent_rate_limit defaultClient [] FeatureTerms.noOptions busy)
    as ((e & Hrun & Hcode & _) & _).
  - intros params attempt. exists tooManyRequests. by split.
  - by vm_compute.
  - exists e. split; [exact Hrun | exact Hcode].
Defined.

(** X20: a response without a content block is not retried: reading the
    text of its first block raises a [TypeError], which the request
    turns into the rejection ["UNKNOWN_ERROR"] after that one call,
    whatever the number of retries. *)
Theorem empty_response_is_rejected (this : Client)
    (messages : list ConversationManager.Formatted) (options : SendOptions)
    (create : ApiParams -> Z -> Outcome) (answer : ApiResponse) :
  create (requestParams this messages options) 1%Z = Resolves answer ->
  content answer = [] ->
  sendMessage this messages options create
  = (Rejected {| error_message := "Cannot read properties of undefined (reading 'text')";
                 error_code := "UNKNOWN_ERROR";
                 originalError := Some "Cannot read properties of undefined (reading 'text')";
                 details_status := None |},
     [Create (requestParams this messages options) 1]).
Proof.
  intros Hanswer Hcontent. unfold sendMessage.
  fold (requestParams this messages options).
  rewrite _retryableRequest_unfold. unfold attemptOnce, tryRequest.
  by rewrite Hanswer, Hcontent.
Qed.

Lemma empty_response_is_rejected_witness :
  fst (sendMessage defaultClient []
         {| options_model := None; options_maxTokens := None;
            options_system := None; options_temperature := None |}
         (fun _ _ => Resolves {| content := []; input_tokens := 3; output_tokens := 0;
                                 response_model := "m"; response_id := "r" |}))
  = Rejected {| error_message := "Cannot read properties of undefined (reading 'text')";
                error_code := "UNKNOWN_ERROR";
                originalError := Some "Cannot read properties of undefined (reading 'text')";
                details_status := None |}.
Proof.
  rewrite (empty_response_is_rejected defaultClient []
             {| options_model := None; options_maxTokens := None;
                options_system := None; options_temperature := None |}
             (fun _ _ => Resolves {| content := []; input_tokens := 3; output_tokens := 0;
                                     response_model := "m"; response_id := "r" |})
             {| content := []; input_tokens := 3; output_tokens := 0;
                response_model := "m"; response_id := "r" |});
    reflexivity.
Defined.

End ClientFacts.

(** * Properties of the feature modules *)

Module FeatureFacts.
Import Js ConversationManager HistoryTerms ConversationTerms.
Import ClaudeClient BaseFeature RequestTerms FeatureTerms.

(** X21: a feature that is not initialized, and so every feature after
    [destroy()] and every new one, rejects each of its conversation
    methods with the same error; [_sendMessage] then stores nothing and
    calls neither the conversation manager nor the client.  After
    [destroy()] the history is empty and the system prompt still set. *)
Theorem destroyed_feature_rejects (feature : Feature) (message : Value)
    (options : SendOptions) (now later : Z) (create : ApiParams -> Z -> Outcome)
    (className : string) (stringify : list Message -> string) (toISOString : string)
    (toLocaleString : Z -> string) (numberToString : float -> string)
    (format : option string) (config_promptFile : option string) :
  (forall this,
     isInitialized this = false ->
     _sendMessage message options now later create this = (Throws notInitialized, this, [])
     /\ clearConversation this = (Throws notInitialized, this)
     /\ getSessionSummary this = Throws notInitialized
     /\ exportConversation className stringify toISOString toLocaleString numberToString
          format this
        = Throws notInitialized)
  /\ isInitialized (destroy feature) = false
  /\ isInitialized (BaseFeature.new config_promptFile) = false
  /\ (forall manager,
        conversationManager feature = Some manager ->
        conversationManager (destroy feature) = Some (clear manager))
  /\ claudeClient (destroy feature) = claudeClient feature.
Proof.
  split; [|split; [|split; [|split]]].
  - intros this Hnot.
    unfold _sendMessage, clearConversation, getSessionSummary, exportConversation.
    by rewrite Hnot.
  - reflexivity.
  - reflexivity.
  - intros manager Hmanager. unfold destroy. by rewrite Hmanager.
  - unfold destroy. by destruct (conversationManager feature).
Qed.

(** ** Requests of an initialized feature *)

(** What [_sendMessage] does on an initialized feature whose stored
    contents have a readable length: the two mutators run as [trimmed]
    says, with the request between them. *)
Lemma _sendMessage_ready (message : Value) (options : SendOptions) (now later : Z)
    (create : ApiParams -> Z -> Outcome) (this : Feature) (manager : Manager)
    (client : Client) :
  isInitialized this = true ->
  conversationManager this = Some manager ->
  claudeClient this = Some client ->
  estimable (messages manager) ->
  nullish message = false ->
  exists k,
    let stored := dropOldest (2 * k) (push USER message now manager) in
    addUserMessage message now manager = (Normal tt, stored)
    /\ trimmed k (push USER message now manager) stored
    /\ 2 * k <= S (length (messages manager))
    /\ (forall reply, exists k',
          addAssistantMessage (Str reply) later stored
          = (Normal tt, dropOldest (2 * k') (push ASSISTANT (Str reply) later stored))
          /\ trimmed k' (push ASSISTANT (Str reply) later stored)
               (dropOldest (2 * k') (push ASSISTANT (Str reply) later stored))
          /\ 2 * k' <= S (length (messages stored)))
    /\ _sendMessage message options now later create this
       = match sendMessage client (payload stored)
                 (apiOptions options (ConversationManager.systemPrompt manager)) create with
         | (Rejected e, events) => (Throws (ApiFailed e), withManager stored this, events)
         | (Fulfilled response, events) =>
             (Returns {| reply_content := text response; reply_usage := usage response |},
              withManager (snd (addAssistantMessage (Str (text response)) later stored)) this,
              events)
         end.
Proof.
  intros Hinit Hmanager Hclient Hmsgs Hmessage.
  destruct (HistoryFacts._trimHistoryIfNeeded_spec (push USER message now manager))
    as (k & Hrun & Htrimmed).
  { by apply HistoryFacts.estimable_push. }
  pose proof Htrimmed as (_ & Hk & _).
  exists k. cbv zeta.
  set (stored := dropOldest (2 * k) (push USER message now manager)) in *.
  assert (Hstored : estimable (messages stored)).
  { by apply HistoryFacts.estimable_drop, HistoryFacts.estimable_push. }
  assert (Hreply : forall reply, exists k',
             addAssistantMessage (Str reply) later stored
             = (Normal tt, dropOldest (2 * k') (push ASSISTANT (Str reply) later stored))
             /\ trimmed k' (push ASSISTANT (Str reply) later stored)
                  (dropOldest (2 * k') (push ASSISTANT (Str reply) later stored))
             /\ 2 * k' <= S (length (messages stored))).
  { intros reply.
    destruct (HistoryFacts._trimHistoryIfNeeded_spec (push ASSISTANT (Str reply) later stored))
      as (k' & Hrun' & Htrimmed').
    { by apply HistoryFacts.estimable_push. }
    pose proof Htrimmed' as (_ & Hk' & _).
    exists k'. split; [exact Hrun'|]. split; [exact Htrimmed'|].
    cbn [messages push] in Hk'. rewrite length_app in Hk'. cbn [length] in Hk'. lia. }
  split; [exact Hrun|]. split; [exact Htrimmed|]. split.
  { cbn [messages push] in Hk. rewrite length_app in Hk. cbn [length] in Hk. lia. }
  split; [exact Hreply|].
  unfold _sendMessage. rewrite Hinit, Hmanager. cbn [negb].
  unfold addUserMessage in *. rewrite Hrun, Hclient.
  change (getSystemPrompt stored) with (ConversationManager.systemPrompt manager).
  destruct (sendMessage client (payload stored)
              (apiOptions options (ConversationManager.systemPrompt manager)) create)
    as [[response|e] events]; [|reflexivity].
  destruct (Hreply (text response)) as (k' & Hrun' & _).
  unfold addAssistantMessage in *. by rewrite Hrun'.
Qed.

Lemma last_stored (older : list Message) (msg : Message) (k : nat) :
  2 * k <= S (length older) ->
  Nat.even (length older) = true ->
  last (drop (2 * k) (older ++ [msg])) = Some msg.
Proof.
  intros Hk Heven.
  assert (Hless : 2 * k <= length older).
  { destruct (Nat.eq_dec (2 * k) (S (length older))) as [Heq | Hne]; [|lia].
    apply (f_equal Nat.even) in Heq.
    rewrite Nat.even_succ, <- Nat.negb_even, Heven, Nat.even_mul in Heq. discriminate. }
  rewrite drop_app_le by exact Hless. by rewrite last_app.
Qed.

Lemma created_trace (params : ApiParams) (attempt : Z) (waits : list float) :
  created (trace params attempt waits) = replicate (S (length waits)) params.
Proof.
  revert attempt. induction waits as [|waitTime rest IH]; intros attempt; [reflexivity|].
  cbn [trace created flat_map app length replicate].
  f_equal. apply IH.
Qed.

(** X22: on an initialized feature with a conversation manager and a
    client, when neither a stored content nor the message is [null] or
    [undefined], [_sendMessage] first stores the user's message:
    [addUserMessage] returns, its trimming loop having run as in C1.  It
    then calls the client, every call with the same parameters, built
    from what the manager holds then: each stored message with its role
    and content, the system prompt as the separate [system] parameter
    when it is not empty (never as a message and never taken from the
    options), the temperature of the options.  When an even number of
    messages was stored before, the user's message is the last one
    sent.  After the call the manager holds what [addUserMessage] left,
    or what [addAssistantMessage] with a reply made of it. *)
Theorem request_payload (message : Value) (options : SendOptions) (now later : Z)
    (create : ApiParams -> Z -> Outcome) (this : Feature) (manager : Manager)
    (client : Client) :
  isInitialized this = true ->
  conversationManager this = Some manager ->
  claudeClient this = Some client ->
  estimable (messages manager) ->
  nullish message = false ->
  exists k stored waits,
    addUserMessage message now manager = (Normal tt, stored)
    /\ trimmed k (push USER message now manager) stored
    /\ (let params :=
          requestParams client (payload stored)
            (apiOptions options (ConversationManager.systemPrompt manager)) in
        snd (_sendMessage message options now later create this) = trace params 1 waits
        /\ created (snd (_sendMessage message options now later create this))
           = replicate (S (length waits)) params
        /\ params_messages params
           = map (fun msg => {| formatted_role := role msg;
                                formatted_content := ConversationManager.content msg |})
                 (messages stored)
        /\ system params
           = (if truthy (ConversationManager.systemPrompt manager)
              then Some (ConversationManager.systemPrompt manager) else None)
        /\ temperature params = options_temperature options
        /\ (Nat.even (length (messages manager)) = true ->
            last (params_messages params)
            = Some {| formatted_role := USER; formatted_content := message |}))
    /\ (conversationManager (snd (fst (_sendMessage message options now later create this)))
        = Some stored
        \/ exists reply,
             conversationManager
               (snd (fst (_sendMessage message options now later create this)))
             = Some (snd (addAssistantMessage (Str reply) later stored))).
Proof.
  intros Hinit Hmanager Hclient Hmsgs Hmessage.
  destruct (_sendMessage_ready message options now later create this manager client
              Hinit Hmanager Hclient Hmsgs Hmessage)
    as (k & Hadd & Htrimmed & Hk & _ & Hsend).
  cbv zeta in Hadd, Htrimmed, Hsend.
  set (stored := dropOldest (2 * k) (push USER message now manager)) in *.
  set (sent := apiOptions options (ConversationManager.systemPrompt manager)) in *.
  destruct (ClientFacts.sendMessage_trace client (payload stored) sent create)
    as (waits & settled & Hrun & _).
  exists k, stored, waits.
  split; [exact Hadd|]. split; [exact Htrimmed|].
  assert (Hevents : snd (_sendMessage message options now later create this)
                    = trace (requestParams client (payload stored) sent) 1 waits).
  { rewrite Hsend, Hrun. by destruct settled. }
  split.
  - cbv zeta. split; [exact Hevents|]. split; [by rewrite Hevents, created_trace|].
    cbn [requestParams params_messages system temperature].
    split; [reflexivity|]. split.
    { unfold sent, apiOptions. cbn [options_system].
      destruct (truthy (ConversationManager.systemPrompt manager)) eqn:Hprompt;
        cbn [ConfigStatics.truthy]; by rewrite ?Hprompt. }
    split; [reflexivity|].
    intros Heven. unfold payload, stored. cbn [dropOldest messages push].
    change (last ((fun msg => {| formatted_role := role msg;
                                formatted_content := ConversationManager.content msg |})
                  <$> drop (2 * k) (messages manager ++ [userMessage message now]))
            = Some {| formatted_role := USER; formatted_content := message |}).
    by rewrite fmap_last, (last_stored _ _ _ Hk Heven).
  - rewrite Hsend, Hrun. destruct settled as [response|e]; [right | left; reflexivity].
    by exists (text response).
Qed.

Lemma request_payload_witness :
  exists k stored waits,
    addUserMessage (Str "abcd") 5 twoMessages = (Normal tt, stored)
    /\ trimmed k (push USER (Str "abcd") 5 twoMessages) stored
    /\ snd (_sendMessage (Str "abcd") noOptions 5 6 (answering "fine") (ready twoMessages))
       = trace (requestParams defaultClient (payload stored) (apiOptions noOptions "be"))
               1 waits
    /\ system (requestParams defaultClient (payload stored) (apiOptions noOptions "be"))
       = Some "be".
Proof.
  destruct (request_payload (Str "abcd") noOptions 5 6 (answering "fine")
              (ready twoMessages) twoMessages defaultClient)
    as (k & stored & waits & Hadd & Htrimmed & (Hevents & _ & _ & Hsystem & _) & _);
    try reflexivity.
  - repeat constructor.
  - exists k, stored, waits.
    split; [exact Hadd|]. split; [exact Htrimmed|]. split; [exact Hevents | exact Hsystem].
Defined.

(** X23: a request the client rejects is not rolled back.  [_sendMessage]
    throws the error of the client, whose code is one of five, after at
    least one call; the feature stays initialized and the conversation
    manager keeps the user's message, to which no reply is added.  When
    an even number of messages was stored before, the unanswered message
    is the last one stored, so the next request sends two user messages
    in a row. *)
Theorem rejected_request_keeps_message (message : Value) (options : SendOptions)
    (now later : Z) (create : ApiParams -> Z -> Outcome) (this : Feature)
    (manager : Manager) (client : Client) (e : ClaudeAPIError) (after : Feature)
    (events : list Event) :
  isInitialized this = true ->
  conversationManager this = Some manager ->
  claudeClient this = Some client ->
  estimable (messages manager) ->
  nullish message = false ->
  _sendMessage message options now later create this = (Throws (ApiFailed e), after, events) ->
  exists k stored,
    addUserMessage message now manager = (Normal tt, stored)
    /\ conversationManager after = Some stored
    /\ messages stored = drop (2 * k) (messages manager ++ [userMessage message now])
    /\ (Nat.even (length (messages manager)) = true ->
        last (messages stored) = Some (userMessage message now))
    /\ isInitialized after = true
    /\ claudeClient after = Some client
    /\ error_code e ∈ errorCodes
    /\ created events <> [].
Proof.
  intros Hinit Hmanager Hclient Hmsgs Hmessage Hthrown.
  destruct (_sendMessage_ready message options now later create this manager client
              Hinit Hmanager Hclient Hmsgs Hmessage) as (k & Hadd & _ & Hk & _ & Hsend).
  cbv zeta in Hadd, Hsend.
  set (stored := dropOldest (2 * k) (push USER message now manager)) in *.
  destruct (ClientFacts.sendMessage_trace client (payload stored)
              (apiOptions options (ConversationManager.systemPrompt manager)) create)
    as (waits & settled & Hrun & Hlast).
  rewrite Hrun in Hsend. rewrite Hsend in Hthrown.
  destruct settled as [response|e']; [discriminate|].
  injection Hthrown as <- <- <-.
  exists k, stored.
  split; [exact Hadd|]. split; [reflexivity|]. split; [reflexivity|]. split.
  { intros Heven. by apply last_stored. }
  split; [exact Hinit|]. split; [exact Hclient|]. split.
  { by apply ClientFacts.attemptOnce_rejected in Hlast. }
  rewrite created_trace. discriminate.
Qed.

Lemma rejected_request_keeps_message_witness :
  exists k stored,
    addUserMessage (Str "abcd") 5 twoMessages = (Normal tt, stored)
    /\ messages stored
       = drop (2 * k) (messages twoMessages ++ [userMessage (Str "abcd") 5])
    /\ last (messages stored) = Some (userMessage (Str "abcd") 5).
Proof.
  destruct (rejected_request_keeps_message (Str "abcd") noOptions 5 6 denying
              (ready twoMessages) twoMessages defaultClient
              {| error_message := "API密钥无效，请检查配置";
                 error_code := "INVALID_API_KEY";
                 originalError := Some "invalid x-api-key";
                 details_status := None |}
              (withManager (snd (addUserMessage (Str "abcd") 5 twoMessages))
                 (ready twoMessages))
              [Create (requestParams defaultClient
                         (payload (snd (addUserMessage (Str "abcd") 5 twoMessages)))
                         (apiOptions noOptions "be")) 1])
    as (k & stored & Hadd & _ & Hstored & Hlast & _); try reflexivity.
  - repeat constructor.
  - exists k, stored. split; [exact Hadd|]. split; [exact Hstored|]. by apply Hlast.
Defined.

(** X24: on an initialized feature with a conversation manager and a
    client, when neither a stored content nor the message is [null] or
    [undefined], the only error [_sendMessage] throws is the one of the
    client.  When it returns, the reply is the first text block of the
    response to the last call, with the usage counts of that response
    and their sum, and the feature differs from the one before in its
    manager only, which is the result of [addUserMessage] with the
    message followed by [addAssistantMessage] with the reply, both
    returning and both with their trimming loop run as in C1; while any
    message is stored the reply is the last one. *)
Theorem fulfilled_request_stores_reply (message : Value) (options : SendOptions)
    (now later : Z) (create : ApiParams -> Z -> Outcome) (this : Feature)
    (manager : Manager) (client : Client) :
  isInitialized this = true ->
  conversationManager this = Some manager ->
  claudeClient this = Some client ->
  estimable (messages manager) ->
  nullish message = false ->
  match _sendMessage message options now later create this with
  | (Returns reply, after, events) =>
      exists k k' stored final waits answer others,
        addUserMessage message now manager = (Normal tt, stored)
        /\ trimmed k (push USER message now manager) stored
        /\ addAssistantMessage (Str (reply_content reply)) later stored = (Normal tt, final)
        /\ trimmed k' (push ASSISTANT (Str (reply_content reply)) later stored) final
        /\ after = withManager final this
        /\ (messages final <> [] ->
            last (messages final) = Some (replyMessage (reply_content reply) later))
        /\ (let params :=
              requestParams client (payload stored)
                (apiOptions options (ConversationManager.systemPrompt manager)) in
            events = trace params 1 waits
            /\ create params (1 + Z.of_nat (length waits))%Z = Resolves answer)
        /\ ClaudeClient.content answer = reply_content reply :: others
        /\ reply_usage reply
           = {| inputTokens := input_tokens answer;
                outputTokens := output_tokens answer;
                totalTokens := input_tokens answer + output_tokens answer |}
  | (Throws (ApiFailed e), _, _) => error_code e ∈ errorCodes
  | (Throws (Failure _), _, _) => False
  end.
Proof.
  intros Hinit Hmanager Hclient Hmsgs Hmessage.
  destruct (_sendMessage_ready message options now later create this manager client
              Hinit Hmanager Hclient Hmsgs Hmessage)
    as (k & Hadd & Htrimmed & Hk & Hreply & Hsend).
  cbv zeta in Hadd, Htrimmed, Hreply, Hsend.
  set (stored := dropOldest (2 * k) (push USER message now manager)) in *.
  destruct (ClientFacts.sendMessage_trace client (payload stored)
              (apiOptions options (ConversationManager.systemPrompt manager)) create)
    as (waits & settled & Hrun & Hlast).
  rewrite Hrun in Hsend. rewrite Hsend.
  destruct settled as [response|e].
  - destruct (Hreply (text response)) as (k' & Hrun' & Htrimmed' & Hk').
    apply ClientFacts.attemptOnce_fulfilled in Hlast
      as (answer & others & Hanswer & Hcontent & Husage & _).
    exists k, k', stored,
      (dropOldest (2 * k') (push ASSISTANT (Str (text response)) later stored)),
      waits, answer, others.
    cbn [reply_content reply_usage]. rewrite Hrun'.
    split; [exact Hadd|]. split; [exact Htrimmed|]. split; [reflexivity|].
    split; [exact Htrimmed'|]. split; [reflexivity|]. split.
    { cbn [dropOldest messages push]. intros Hsome.
      rewrite HistoryFacts.last_drop_nonempty by exact Hsome. by rewrite last_app. }
    split; [by split|]. split; [exact Hcontent | exact Husage].
  - by apply ClientFacts.attemptOnce_rejected in Hlast.
Qed.

Lemma fulfilled_request_stores_reply_witness :
  match _sendMessage (Str "abcd") noOptions 5 6 (answering "fine") (ready roomy) with
  | (Returns reply, after, events) =>
      exists k k' stored final waits answer others,
        addUserMessage (Str "abcd") 5 roomy = (Normal tt, stored)
        /\ trimmed k (push USER (Str "abcd") 5 roomy) stored
        /\ addAssistantMessage (Str (reply_content reply)) 6 stored = (Normal tt, final)
        /\ trimmed k' (push ASSISTANT (Str (reply_content reply)) 6 stored) final
        /\ after = withManager final (ready roomy)
        /\ (messages final <> [] ->
            last (messages final) = Some (replyMessage (reply_content reply) 6))
        /\ (let params :=
              requestParams defaultClient (payload stored)
                (apiOptions noOptions (ConversationManager.systemPrompt roomy)) in
            events = trace params 1 waits
            /\ answering "fine" params (1 + Z.of_nat (length waits))%Z = Resolves answer)
        /\ ClaudeClient.content answer = reply_content reply :: others
        /\ reply_usage reply
           = {| inputTokens := input_tokens answer;
                outputTokens := output_tokens answer;
                totalTokens := input_tokens answer + output_tokens answer |}
  | (Throws (ApiFailed e), _, _) => error_code e ∈ errorCodes
  | (Throws (Failure _), _, _) => False
  end.
Proof.
  apply (fulfilled_request_stores_reply (Str "abcd") noOptions 5 6 (answering "fine")
           (ready roomy) roomy defaultClient);
    try reflexivity.
  repeat constructor.
Defined.

(** The request of that feature returns the reply ["fine"]. *)
Example request_returns_reply :
  fst (fst (_sendMessage (Str "abcd") noOptions 5 6 (answering "fine") (ready roomy)))
  = Returns {| reply_content := "fine";
               reply_usage := {| inputTokens := 12; outputTokens := 5; totalTokens := 17 |} |}.
Proof. reflexivity. Qed.

(** X25: when an odd number of string messages is stored, as after a
    rejected request, and the next message alone (with the system
    prompt) exceeds the limit, [addUserMessage] removes that message
    with all the others, and [_sendMessage] still calls the client: with
    an empty list of messages, at every attempt. *)
Theorem oversized_request_sends_nothing (s : string) (options : SendOptions) (now later : Z)
    (create : ApiParams -> Z -> Outcome) (this : Feature) (manager : Manager)
    (client : Client) :
  isInitialized this = true ->
  conversationManager this = Some manager ->
  claudeClient this = Some client ->
  ConversationTerms.textOnly (messages manager) ->
  Nat.even (length (messages manager)) = false ->
  (maxHistoryTokens manager
   < ConversationTerms.promptSize manager + ConversationTerms.textTokens (Str s))%Z ->
  exists waits params,
    snd (_sendMessage (Str s) options now later create this) = trace params 1 waits
    /\ params_messages params = []
    /\ created (snd (_sendMessage (Str s) options now later create this))
       = replicate (S (length waits)) params.
Proof.
  intros Hinit Hmanager Hclient Htext Hodd Hbig.
  assert (Hadd : addUserMessage (Str s) now manager = (Normal tt, clear manager)).
  { unfold addUserMessage.
    rewrite (ConversationFacts.trim_oversized USER (Str s) now manager Htext eq_refl Hbig).
    by rewrite Hodd. }
  destruct (_sendMessage_ready (Str s) options now later create this manager client
              Hinit Hmanager Hclient (ConversationFacts.textOnly_estimable _ Htext) eq_refl)
    as (k & Hadd' & _ & _ & _ & Hsend).
  cbv zeta in Hadd', Hsend.
  assert (Hstored : dropOldest (2 * k) (push USER (Str s) now manager) = clear manager)
    by congruence.
  rewrite Hstored in Hsend.
  match type of Hsend with
  | context [sendMessage client ?p ?o create] =>
      destruct (ClientFacts.sendMessage_trace client p o create)
        as (waits & settled & Hrun & _)
  end.
  rewrite Hrun in Hsend.
  eexists waits, _.
  assert (Hevents : snd (_sendMessage (Str s) options now later create this)
                    = trace (requestParams client []
                               (apiOptions options (ConversationManager.systemPrompt manager)))
                        1 waits).
  { rewrite Hsend. by destruct settled. }
  split; [exact Hevents|]. split; [reflexivity|].
  by rewrite Hevents, created_trace.
Qed.

Lemma oversized_request_sends_nothing_witness :
  exists waits params,
    snd (_sendMessage (Str "hello") noOptions 5 6 (answering "fine") (ready longPrompt))
    = trace params 1 waits
    /\ params_messages params = [].
Proof.
  destruct (oversized_request_sends_nothing "hello" noOptions 5 6 (answering "fine")
              (ready longPrompt) longPrompt defaultClient)
    as (waits & params & Hevents & Hnone & _); try reflexivity.
  - repeat constructor.
  - exists waits, params. by split.
Defined.

(** ** Summary *)

(** X26: on an initialized feature [getSessionSummary()] counts the
    stored messages, takes half that number, rounded down, as the turn
    count, and reports the timestamps of the first and of the last stored
    message, [null] exactly when no message is stored.
    [clearConversation()] returns and empties the history (the system
    prompt, the limit and the client stay), after which the summary is
    0 messages, 0 turns and two [null] times. *)
Theorem summary_of_history (this : Feature) (manager : Manager) :
  isInitialized this = true ->
  conversationManager this = Some manager ->
  (exists summary,
     getSessionSummary this = Returns summary
     /\ messageCount summary = length (messages manager)
     /\ turnCount summary = length (messages manager) / 2
     /\ startTime summary = option_map timestamp (head (messages manager))
     /\ lastActivity summary = option_map timestamp (last (messages manager))
     /\ (startTime summary = None <-> messages manager = [])
     /\ (lastActivity summary = None <-> messages manager = []))
  /\ (exists cleared,
        clearConversation this = (Returns tt, cleared)
        /\ isInitialized cleared = true
        /\ claudeClient cleared = claudeClient this
        /\ conversationManager cleared = Some (clear manager)
        /\ ConversationManager.systemPrompt (clear manager)
           = ConversationManager.systemPrompt manager
        /\ getSessionSummary cleared
           = Returns {| messageCount := 0; turnCount := 0;
                        startTime := None; lastActivity := None |}).
Proof.
  intros Hinit Hmanager. split.
  - unfold getSessionSummary. rewrite Hinit, Hmanager. cbn [negb].
    eexists. split; [reflexivity|]. cbn [messageCount turnCount startTime lastActivity].
    unfold getFullHistory, getTurnCount.
    split; [reflexivity|]. split; [reflexivity|]. split; [reflexivity|].
    split; [reflexivity|]. split.
    + destruct (messages manager); simpl; split; congruence.
    + destruct (last (messages manager)) eqn:Hlast; simpl.
      * split; [discriminate|]. intros Hnone. by rewrite Hnone in Hlast.
      * split; [|reflexivity]. intros _. by apply last_None.
  - unfold clearConversation. rewrite Hinit, Hmanager. cbn [negb].
    eexists. split; [reflexivity|].
    unfold getSessionSummary. cbn [isInitialized claudeClient conversationManager withManager].
    rewrite Hinit. by repeat split.
Qed.

Lemma summary_of_history_witness :
  getSessionSummary (ready twoMessages)
  = Returns {| messageCount := 2; turnCount := 1;
               startTime := Some 1%Z; lastActivity := Some 2%Z |}
  /\ exists cleared,
       clearConversation (ready twoMessages) = (Returns tt, cleared)
       /\ getSessionSummary cleared
          = Returns {| messageCount := 0; turnCount := 0;
                       startTime := None; lastActivity := None |}.
Proof.
  destruct (summary_of_history (ready twoMessages) twoMessages eq_refl eq_refl)
    as ((summary & Hsummary & Hcount & Hturns & Hstart & Hlast & _)
        & (cleared & Hclear & _ & _ & _ & _ & Hafter)).
  split.
  - rewrite Hsummary. destruct summary. simpl in *. by subst.
  - by exists cleared.
Defined.

(** ** Export *)

Lemma append_assoc (a b c : string) : (a ++ b) ++ c = a ++ b ++ c.
Proof.
  induction a as [|x a IH]; [reflexivity|].
  change (String x ((a ++ b) ++ c) = String x (a ++ b ++ c)). by f_equal.
Qed.

Lemma endsWith_refl (text : string) : endsWith text text.
Proof. by exists "". Qed.

Lemma endsWith_append (ending beginning text : string) :
  endsWith ending text -> endsWith ending (beginning ++ text).
Proof. intros [middle ->]. exists (beginning ++ middle). by rewrite append_assoc. Qed.

(** X27: [exportConversation] of an initialized feature knows three
    formats, compared exactly: ["json"] gives the serialized full
    history, ["markdown"] (also when no format is given) and ["text"]
    give a header followed by the text of [exportToText()], so for an
    empty conversation by ["(空对话)"].  Every other format, such as
    ["md"], raises an error that names it. *)
Theorem export_formats (className : string) (stringify : list Message -> string)
    (toISOString : string) (toLocaleString : Z -> string)
    (numberToString : float -> string) (this : Feature) (manager : Manager) :
  isInitialized this = true ->
  conversationManager this = Some manager ->
  let export :=
    exportConversation className stringify toISOString toLocaleString numberToString in
  let text := exportToText toLocaleString numberToString manager in
  export (Some "json") this = Returns (stringify (getFullHistory manager))
  /\ export None this = export (Some "markdown") this
  /\ (exists document, export (Some "markdown") this = Returns document
                        /\ endsWith text document)
  /\ (exists document, export (Some "text") this = Returns document
                        /\ endsWith text document)
  /\ (forall format,
        format ∉ exportFormats ->
        export (Some format) this
        = Throws (Failure (GenericError ("不支持的导出格式: " ++ format))))
  /\ export (Some "md") this = Throws (Failure (GenericError "不支持的导出格式: md"))
  /\ (messages manager = [] -> ConversationManager.systemPrompt manager = "" ->
      text = "(空对话)").
Proof.
  intros Hinit Hmanager export text. unfold export, exportConversation.
  rewrite Hinit, Hmanager. cbv [negb default from_option Datatypes.id].
  split; [reflexivity|]. split; [reflexivity|]. split; [|split; [|split; [|split]]].
  - eexists. split; [reflexivity|].
    repeat apply endsWith_append. apply endsWith_refl.
  - eexists. split; [reflexivity|].
    repeat apply endsWith_append. apply endsWith_refl.
  - intros format Hformat. unfold exportFormats in Hformat.
    destruct (String.eqb_spec format "json") as [-> | _]; [set_solver|].
    destruct (String.eqb_spec format "markdown") as [-> | _]; [set_solver|].
    destruct (String.eqb_spec format "text") as [-> | _]; [set_solver|].
    reflexivity.
  - reflexivity.
  - intros Hmsgs Hprompt. by apply HistoryFacts.exportToText_empty.
Qed.

Lemma export_formats_witness :
  exportConversation "CodeExplainer" (fun _ => "[]") "2026-02-07T00:00:00.000Z"
    (fun _ => "") (fun _ => "") (Some "md") (ready oneTokenLimit)
  = Throws (Failure (GenericError "不支持的导出格式: md"))
  /\ exists document,
       exportConversation "CodeExplainer" (fun _ => "[]") "2026-02-07T00:00:00.000Z"
         (fun _ => "") (fun _ => "") None (ready oneTokenLimit)
       = Returns document
       /\ endsWith "(空对话)" document.
Proof.
  destruct (export_formats "CodeExplainer" (fun _ => "[]") "2026-02-07T00:00:00.000Z"
              (fun _ => "") (fun _ => "") (ready oneTokenLimit) oneTokenLimit
              eq_refl eq_refl)
    as (_ & Hdefault & Hmarkdown & _ & _ & Hmd & _).
  split; [exact Hmd|]. rewrite Hdefault. exact Hmarkdown.
Defined.

(** ** Initialization *)

(** X28: [initialize()] changes nothing on a feature that is initialized.
    On another feature it throws exactly when [Config.validate()] does,
    with the error of the configuration, and leaves the feature as it
    was.  Otherwise it returns an initialized feature, on which a second
    call changes nothing: its history is empty with the default limit of
    100000 tokens, its system prompt is the text of its prompt file (the
    empty string when it names none or the file cannot be read), and its
    client retries 3 times, uses the model of [CLAUDE_MODEL] or
    ["claude-3-5-sonnet-20241022"], not [Config.DEFAULT_MODEL], and the
    key of [ANTHROPIC_API_KEY] when that is set, the auth token
    otherwise. *)
Theorem initialize_outcomes (config : ConfigStatics.Statics) (CLAUDE_MODEL : option string)
    (readPrompt : string -> option string) (this : Feature) :
  let init := initialize config CLAUDE_MODEL readPrompt in
  (isInitialized this = true -> init this = (Returns tt, this))
  /\ (isInitialized this = false ->
      match ConfigStatics.validate config with
      | Throw e => init this = (Throws (Failure e), this)
      | Normal _ =>
          exists client manager after,
            init this = (Returns tt, after)
            /\ init after = (Returns tt, after)
            /\ isInitialized after = true
            /\ claudeClient after = Some client
            /\ conversationManager after = Some manager
            /\ promptFile after = promptFile this
            /\ messages manager = []
            /\ maxHistoryTokens manager = 100000%Z
            /\ ConversationManager.systemPrompt manager = loadedPrompt readPrompt this
            /\ maxRetries client = 3%Z
            /\ model client = stringOr CLAUDE_MODEL "claude-3-5-sonnet-20241022"
            /\ apiKey (clientConfig client)
               = ConfigStatics.or (ConfigStatics.ANTHROPIC_API_KEY config)
                                  (ConfigStatics.ANTHROPIC_AUTH_TOKEN config)
      end).
Proof.
  intros init. unfold init, initialize. split.
  - by intros ->.
  - intros ->. unfold ClaudeClient.new.
    destruct (ConfigStatics.validate config) as [valid|e] eqn:Hvalid; [|reflexivity].
    assert (Hsome : ConfigStatics.truthy (ConfigStatics.API_KEY config) = true).
    { unfold ConfigStatics.validate in Hvalid.
      destruct (ConfigStatics.truthy (ConfigStatics.API_KEY config)); [reflexivity|].
      discriminate. }
    cbn [bind]. cbv zeta.
    cbn [promptFile withClient withManager client_model client_apiKey client_maxRetries
         client_maxTokens client_timeout integerOr].
    assert (Hmodel : stringOr (Some (stringOr CLAUDE_MODEL "claude-3-5-sonnet-20241022"))
                       (ConfigStatics.DEFAULT_MODEL config)
                     = stringOr CLAUDE_MODEL "claude-3-5-sonnet-20241022").
    { unfold stringOr at 1.
      by rewrite (ClientFacts.stringOr_truthy CLAUDE_MODEL "claude-3-5-sonnet-20241022"). }
    assert (Hkey : ConfigStatics.or (ConfigStatics.ANTHROPIC_API_KEY config)
                     (ConfigStatics.API_KEY config)
                   = ConfigStatics.or (ConfigStatics.ANTHROPIC_API_KEY config)
                       (ConfigStatics.ANTHROPIC_AUTH_TOKEN config)).
    { unfold ConfigStatics.API_KEY, ConfigStatics.or in *.
      destruct (ConfigStatics.truthy (ConfigStatics.ANTHROPIC_API_KEY config)) eqn:Hapi;
        [reflexivity|].
      destruct (ConfigStatics.truthy (ConfigStatics.ANTHROPIC_AUTH_TOKEN config)) eqn:Htoken;
        [reflexivity|].
      congruence. }
    rewrite Hmodel, Hkey.
    unfold loadedPrompt, _loadSystemPrompt.
    destruct (promptFile this) as [file|] eqn:Hfile.
    + destruct (truthy file) eqn:Hnamed.
      * cbn [BaseFeature.systemPrompt withSystemPrompt].
        destruct (readPrompt file) as [prompt|] eqn:Hread.
        -- destruct (truthy prompt) eqn:Hprompt.
           ++ eexists _, _, _. split; [reflexivity|]. repeat split; try done; exact Hfile.
           ++ destruct prompt; [|discriminate].
              eexists _, _, _. split; [reflexivity|]. repeat split; try done; exact Hfile.
        -- eexists _, _, _. split; [reflexivity|]. repeat split; try done; exact Hfile.
      * eexists _, _, _. split; [reflexivity|]. repeat split; try done; exact Hfile.
    + eexists _, _, _. split; [reflexivity|]. repeat split; try done; exact Hfile.
Qed.

Lemma initialize_outcomes_witness :
  exists client manager after,
    initialize validConfig None prompts explainer = (Returns tt, after)
    /\ claudeClient after = Some client
    /\ conversationManager after = Some manager
    /\ ConversationManager.systemPrompt manager = "Explain the code."
    /\ maxRetries client = 3%Z.
Proof.
  destruct (initialize_outcomes validConfig None prompts explainer) as [_ Hfresh].
  destruct (Hfresh eq_refl)
    as (client & manager & after & Hinit & _ & _ & Hclient & Hmanager & _ & _ & _
        & Hprompt & Hretries & _).
  exists client, manager, after. by repeat split.
Defined.

End FeatureFacts.
